(** * LeuitCSS backup collection subsystem

    A shallow embedding of the collection core of LeuitCSS (vendor
    adapters, backup collector, immutable storage, FTP ingestion) and the
    properties of it that the system description states.

    Layout: the Python run-time notions the code relies on (strings, UTF-8
    text files, exceptions, SHA-256, the file system) come first, then one
    module per source file, then the facts proved about them. *)

From stdpp Require Import gmap strings list pretty.
From Equations Require Import Equations.
From Stdlib Require Import ZArith Lia.

Open Scope Z_scope.

(** ** Python values and control flow *)

Module Py.

(** A Python [str] is its sequence of Unicode code points, a [bytes]
    object its sequence of octets. *)
Abbreviation str := (list Z).
Abbreviation bytes := (list Z).

(** String literals of the source. *)
Fixpoint u (s : string) : str :=
  match s with
  | EmptyString => []
  | String a r => Z.of_N (Ascii.N_of_ascii a) :: u r
  end.

(** [str(n)] for an int. *)
Definition str_of_int (n : Z) : str := u (pretty n).

(** [f"{n:0{w}d}"] for a non-negative n: decimal digits, zero-padded on
    the left up to width [w]. *)
Definition zfill (w : nat) (s : str) : str :=
  replicate (w - length s) 48 ++ s.

(** [str.lower()]; the case mapping is modelled on the ASCII letters. *)
Definition lower_char (c : Z) : Z :=
  if (65 <=? c) && (c <=? 90) then c + 32 else c.
Definition lower (s : str) : str := map lower_char s.

(** The characters [str.split()] treats as separators. *)
Definition is_space (c : Z) : bool :=
  ((9 <=? c) && (c <=? 13)) || ((28 <=? c) && (c <=? 32))
  || (c =? 133) || (c =? 160) || (c =? 5760)
  || ((8192 <=? c) && (c <=? 8202))
  || (c =? 8232) || (c =? 8233) || (c =? 8239) || (c =? 8287)
  || (c =? 12288).

(** [s.split()]: maximal runs of non-space characters.  [cur] is the
    token being read, most recent character first. *)
Fixpoint split_go (cur : str) (s : str) : list str :=
  match s with
  | [] => match cur with [] => [] | _ => [rev cur] end
  | c :: r =>
      if is_space c
      then match cur with
           | [] => split_go [] r
           | _ => rev cur :: split_go [] r
           end
      else split_go (c :: cur) r
  end.
Definition split (s : str) : list str := split_go [] s.

(** Reading a text file opened with the default [newline=None]: the
    interpreter hands "\r\n" and a lone "\r" to the program as "\n". *)
Fixpoint universal_newlines (s : str) : str :=
  match s with
  | [] => []
  | c :: r =>
      if c =? 13
      then 10 :: match r with
                 | [] => []
                 | d :: r' =>
                     if d =? 10 then universal_newlines r'
                     else universal_newlines r
                 end
      else c :: universal_newlines r
  end.

(** *** UTF-8 *)

(** One code point to its octets; [None] for what the strict codec
    refuses (surrogates, values outside the code space). *)
Definition encode_cp (c : Z) : option bytes :=
  if c <? 0 then None
  else if c <? 128 then Some [c]
  else if c <? 2048 then Some [192 + c / 64; 128 + c mod 64]
  else if c <? 65536 then
    if (55296 <=? c) && (c <=? 57343) then None
    else Some [224 + c / 4096; 128 + (c / 64) mod 64; 128 + c mod 64]
  else if c <? 1114112 then
    Some [240 + c / 262144; 128 + (c / 4096) mod 64;
          128 + (c / 64) mod 64; 128 + c mod 64]
  else None.

(** [s.encode('utf-8')]; [None] stands for [UnicodeEncodeError]. *)
Fixpoint encode_utf8 (s : str) : option bytes :=
  match s with
  | [] => Some []
  | c :: r =>
      match encode_cp c, encode_utf8 r with
      | Some b, Some br => Some (b ++ br)
      | _, _ => None
      end
  end.

(** What a lead octet announces: the number of continuation octets, the
    admissible range of the first of them, and the lead's payload. *)
Definition lead_info (b0 : Z) : option (nat * Z * Z * Z) :=
  if b0 <? 194 then None
  else if b0 <? 224 then Some (1%nat, 128, 191, b0 - 192)
  else if b0 =? 224 then Some (2%nat, 160, 191, 0)
  else if b0 =? 237 then Some (2%nat, 128, 159, 13)
  else if b0 <? 240 then Some (2%nat, 128, 191, b0 - 224)
  else if b0 =? 240 then Some (3%nat, 144, 191, 0)
  else if b0 <? 244 then Some (3%nat, 128, 191, b0 - 240)
  else if b0 =? 244 then Some (3%nat, 128, 143, 4)
  else None.

Definition between (lo hi b : Z) : bool := (lo <=? b) && (b <=? hi).

(** [b.decode('utf-8', errors=...)].  With [replace = false] the codec is
    strict and [None] stands for [UnicodeDecodeError]; with
    [replace = true] every ill-formed maximal subpart becomes U+FFFD and
    the result is always [Some]. *)
Fixpoint decode_utf8 (replace : bool) (bs : bytes) : option str :=
  let bad (rest : option str) : option str :=
    if replace then cons 65533 <$> rest else None in
  match bs with
  | [] => Some []
  | b0 :: r0 =>
      if between 0 127 b0 then cons b0 <$> decode_utf8 replace r0
      else
        match lead_info b0 with
        | None => bad (decode_utf8 replace r0)
        | Some (n, lo, hi, p) =>
            match r0 with
            | [] => bad (Some [])
            | b1 :: r1 =>
                if negb (between lo hi b1) then bad (decode_utf8 replace r0)
                else
                  let p1 := p * 64 + (b1 - 128) in
                  match n with
                  | 1%nat => cons p1 <$> decode_utf8 replace r1
                  | _ =>
                      match r1 with
                      | [] => bad (Some [])
                      | b2 :: r2 =>
                          if negb (between 128 191 b2)
                          then bad (decode_utf8 replace r1)
                          else
                            let p2 := p1 * 64 + (b2 - 128) in
                            match n with
                            | 2%nat => cons p2 <$> decode_utf8 replace r2
                            | _ =>
                                match r2 with
                                | [] => bad (Some [])
                                | b3 :: r3 =>
                                    if negb (between 128 191 b3)
                                    then bad (decode_utf8 replace r2)
                                    else cons (p2 * 64 + (b3 - 128))
                                           <$> decode_utf8 replace r3
                                end
                            end
                      end
                  end
            end
        end
  end.

(** Writing [s] to a file opened with ['w', encoding='utf-8'] on a POSIX
    host stores exactly [s.encode('utf-8')]; reading a file opened with
    ['r'] decodes strictly and then translates line ends. *)
Definition text_write (s : str) : option bytes := encode_utf8 s.
Definition text_read (b : bytes) : option str :=
  universal_newlines <$> decode_utf8 false b.

(** *** Exceptions *)

Inductive exn_class :=
| FileExistsError | FileNotFoundError | NotADirectoryError
| IsADirectoryError | PermissionError
| UnicodeEncodeError | UnicodeDecodeError
| ValueError | AttributeError | IndexError | TypeError | RuntimeError
| RecursionError | ConnectionError | IntegrityError
| NetmikoAuthenticationException | NetmikoTimeoutException
| LibraryError | ImportError.

(** An exception object: its class and what [str(e)] gives. *)
Record exn := Exn { exn_cls : exn_class; exn_str : str }.

Global Instance exn_class_eq_dec : EqDecision exn_class.
Proof. solve_decision. Defined.

(** *** Computations that read and change a state and may raise *)

Inductive outcome (A : Type) :=
| Ret (a : A)
| Raise (e : exn).
Arguments Ret {A} a.
Arguments Raise {A} e.

Definition M (S A : Type) : Type := S -> outcome A * S.

Definition ret {S A} (a : A) : M S A := fun s => (Ret a, s).
Definition raise {S A} (e : exn) : M S A := fun s => (Raise e, s).
Definition bind {S A B} (m : M S A) (k : A -> M S B) : M S B :=
  fun s => match m s with
           | (Ret a, s') => k a s'
           | (Raise e, s') => (Raise e, s')
           end.
Definition get {S} : M S S := fun s => (Ret s, s).
Definition gets {S A} (f : S -> A) : M S A := fun s => (Ret (f s), s).
Definition modify {S} (f : S -> S) : M S unit := fun s => (Ret tt, f s).

(** [try: m  except Exception as e: h e]. *)
Definition try_except {S A} (m : M S A) (h : exn -> M S A) : M S A :=
  fun s => match m s with
           | (Ret a, s') => (Ret a, s')
           | (Raise e, s') => h e s'
           end.

(** [try: m  finally: f]: [f] runs on every exit of [m]; an exception of
    [f] replaces the outcome of [m]. *)
Definition try_finally {S A} (m : M S A) (f : M S unit) : M S A :=
  fun s => match m s with
           | (o, s') =>
               match f s' with
               | (Ret _, s'') => (o, s'')
               | (Raise e, s'') => (Raise e, s'')
               end
           end.

(** Running a computation on part of a larger state. *)
Definition zoom {S T A} (rd : T -> S) (wr : S -> T -> T) (m : M S A) : M T A :=
  fun t => match m (rd t) with (o, s') => (o, wr s' t) end.

(** [s.strip()] *)
Fixpoint lstrip (s : str) : str :=
  match s with
  | c :: r => if is_space c then lstrip r else s
  | [] => []
  end.
Definition strip (s : str) : str := rev (lstrip (rev (lstrip s))).

(** [int(s)] for a decimal numeral with an optional sign, surrounding
    blanks allowed; [None] stands for [ValueError]. *)
Definition is_digit (c : Z) : bool := (48 <=? c) && (c <=? 57).
Definition digits_value (ds : str) : option Z :=
  match ds with
  | [] => None
  | _ => if forallb is_digit ds
         then Some (foldl (fun acc c => acc * 10 + (c - 48)) 0 ds)
         else None
  end.
Definition int_of_str (s : str) : option Z :=
  match strip s with
  | c :: r =>
      if c =? 45 then Z.opp <$> digits_value r
      else if c =? 43 then digits_value r
      else digits_value (c :: r)
  | [] => None
  end.

(** [needle in hay] for strings. *)
Fixpoint is_prefix (p s : str) : bool :=
  match p, s with
  | [], _ => true
  | a :: p', b :: s' => (a =? b) && is_prefix p' s'
  | _ :: _, [] => false
  end.
Fixpoint contains (needle hay : str) : bool :=
  is_prefix needle hay
  || match hay with
     | [] => false
     | _ :: hay' => contains needle hay'
     end.

(** [str(x)] for a value that is a string or [None]. *)
Definition str_of_opt (o : option str) : str := default (u "None") o.

End Py.

Declare Scope py_scope.
Delimit Scope py_scope with py.
Notation "x <- m ;; k" := (Py.bind m (fun x => k))
  (at level 100, m at next level, right associativity) : py_scope.
Notation "m ;;; k" := (Py.bind m (fun _ => k))
  (at level 100, right associativity) : py_scope.

(** ** hashlib.sha256 (FIPS 180-4) *)

Module Hashlib.
Import Py.

Definition w32 (x : Z) : Z := Z.land x 4294967295.
Definition rotr (n x : Z) : Z :=
  Z.lor (Z.shiftr x n) (w32 (Z.shiftl x (32 - n))).
Definition Ch (x y z : Z) : Z :=
  Z.lxor (Z.land x y) (Z.land (Z.lxor x 4294967295) z).
Definition Maj (x y z : Z) : Z :=
  Z.lxor (Z.lxor (Z.land x y) (Z.land x z)) (Z.land y z).
Definition Sigma0 x := Z.lxor (Z.lxor (rotr 2 x) (rotr 13 x)) (rotr 22 x).
Definition Sigma1 x := Z.lxor (Z.lxor (rotr 6 x) (rotr 11 x)) (rotr 25 x).
Definition sigma0 x := Z.lxor (Z.lxor (rotr 7 x) (rotr 18 x)) (Z.shiftr x 3).
Definition sigma1 x := Z.lxor (Z.lxor (rotr 17 x) (rotr 19 x)) (Z.shiftr x 10).

(** The round constants: the first 32 bits of the fractional parts of the
    cube roots of the first 64 primes, written in decimal. *)
Definition K : list Z :=
  [
    1116352408; 1899447441; 3049323471; 3921009573; 961987163;
    1508970993; 2453635748; 2870763221; 3624381080; 310598401;
    607225278; 1426881987; 1925078388; 2162078206; 2614888103;
    3248222580; 3835390401; 4022224774; 264347078; 604807628;
    770255983; 1249150122; 1555081692; 1996064986; 2554220882;
    2821834349; 2952996808; 3210313671; 3336571891; 3584528711;
    113926993; 338241895; 666307205; 773529912; 1294757372;
    1396182291; 1695183700; 1986661051; 2177026350; 2456956037;
    2730485921; 2820302411; 3259730800; 3345764771; 3516065817;
    3600352804; 4094571909; 275423344; 430227734; 506948616;
    659060556; 883997877; 958139571; 1322822218; 1537002063;
    1747873779; 1955562222; 2024104815; 2227730452; 2361852424;
    2428436474; 2756734187; 3204031479; 3329325298 ].

(** The initial hash value: the same of the square roots of the first 8
    primes. *)
Definition H0 : list Z :=
  [
    1779033703; 3144134277; 1013904242; 2773480762;
    1359893119; 2600822924; 528734635; 1541459225 ].

(** Big-endian octets of a number, [n] of them. *)
Fixpoint be_bytes (n : nat) (x : Z) : bytes :=
  match n with
  | O => []
  | S n' => Z.land (Z.shiftr x (8 * Z.of_nat n')) 255 :: be_bytes n' x
  end.

(** The message followed by 0x80, zeros up to 56 modulo 64, and the bit
    length on eight octets. *)
Definition pad (msg : bytes) : bytes :=
  let len := Z.of_nat (length msg) in
  msg ++ [128] ++ replicate (Z.to_nat ((55 - len) mod 64)) 0
      ++ be_bytes 8 (8 * len).

(** Octets to 32-bit big-endian words, four at a time. *)
Fixpoint words (bs : bytes) : list Z :=
  match bs with
  | a :: b :: c :: d :: r =>
      (((a * 256 + b) * 256 + c) * 256 + d) :: words r
  | _ => []
  end.

(** The message schedule, most recent word first. *)
Fixpoint schedule (n : nat) (rw : list Z) : list Z :=
  match n with
  | O => rw
  | S n' =>
      let w := w32 (sigma1 (nth 1 rw 0) + nth 6 rw 0
                    + sigma0 (nth 14 rw 0) + nth 15 rw 0) in
      schedule n' (w :: rw)
  end.

Definition round (st : list Z) (kw : Z * Z) : list Z :=
  match st with
  | [a; b; c; d; e; f; g; h] =>
      let t1 := h + Sigma1 e + Ch e f g + fst kw + snd kw in
      let t2 := Sigma0 a + Maj a b c in
      [w32 (t1 + t2); a; b; c; w32 (d + t1); e; f; g]
  | _ => st
  end.

Definition compress (h : list Z) (block : list Z) : list Z :=
  let w := rev (schedule 48 (rev block)) in
  let st := foldl round h (zip K w) in
  zip_with (fun x y => w32 (x + y)) h st.

(** Sixteen-word blocks folded from the left. *)
Fixpoint blocks (n : nat) (h : list Z) (ws : list Z) : list Z :=
  match n with
  | O => h
  | S n' => blocks n' (compress h (take 16 ws)) (drop 16 ws)
  end.

Definition sha256 (msg : bytes) : list Z :=
  let ws := words (pad msg) in
  blocks (length ws / 16) H0 ws.

Definition hex_digit (d : Z) : Z := if d <? 10 then 48 + d else 87 + d.

Fixpoint hex_word (n : nat) (x : Z) : str :=
  match n with
  | O => []
  | S n' => hex_digit (Z.land (Z.shiftr x (4 * Z.of_nat n')) 15) :: hex_word n' x
  end.

(** [hashlib.sha256(msg).hexdigest()]: 64 lower-case hex digits. *)
Definition hexdigest (msg : bytes) : str :=
  concat (map (hex_word 8) (sha256 msg)).

End Hashlib.

(** ** datetime *)

Module Datetime.
Import Py.

Record datetime := {
  year : Z; month : Z; day : Z;
  hour : Z; minute : Z; second : Z;
  microsecond : Z
}.

Definition dd (w : nat) (n : Z) : str := zfill w (str_of_int n).

(** [ts.strftime('%Y%m%d_%H%M%S')] *)
Definition strftime_compact (ts : datetime) : str :=
  dd 4 (year ts) ++ dd 2 (month ts) ++ dd 2 (day ts) ++ u "_"
    ++ dd 2 (hour ts) ++ dd 2 (minute ts) ++ dd 2 (second ts).

(** [ts.isoformat()] *)
Definition isoformat (ts : datetime) : str :=
  dd 4 (year ts) ++ u "-" ++ dd 2 (month ts) ++ u "-" ++ dd 2 (day ts)
    ++ u "T" ++ dd 2 (hour ts) ++ u ":" ++ dd 2 (minute ts) ++ u ":"
    ++ dd 2 (second ts)
    ++ (if microsecond ts =? 0 then [] else u "." ++ dd 6 (microsecond ts)).

(** The UTC calendar date and time of a count of seconds since the epoch
    (proleptic Gregorian calendar). *)
Definition utcfromtimestamp (t : Z) : datetime :=
  let days := t / 86400 in
  let rem := t mod 86400 in
  let z := days + 719468 in
  let era := z / 146097 in
  let doe := z mod 146097 in
  let yoe := (doe - doe / 1460 + doe / 36524 - doe / 146096) / 365 in
  let doy := doe - (365 * yoe + yoe / 4 - yoe / 100) in
  let mp := (5 * doy + 2) / 153 in
  let m := if mp <? 10 then mp + 3 else mp - 9 in
  {| year := yoe + era * 400 + (if m <=? 2 then 1 else 0);
     month := m;
     day := doy - (153 * mp + 2) / 5 + 1;
     hour := rem / 3600;
     minute := (rem mod 3600) / 60;
     second := rem mod 60;
     microsecond := 0 |}.

End Datetime.

(** ** config.py *)

Module Config.
Import Py.

Record VendorProfile := {
  connection_types : list str;
  backup_command : str;
  output_extension : str;
  device_type : str
}.

Definition vendor_table : list (str * VendorProfile) :=
  [ (u "mikrotik",
     {| connection_types := [u "ssh"];
        backup_command := u "/export";
        output_extension := u ".rsc";
        device_type := u "mikrotik_routeros" |});
    (u "cisco",
     {| connection_types := [u "ssh"; u "telnet"];
        backup_command := u "show running-config";
        output_extension := u ".txt";
        device_type := u "cisco_ios" |});
    (u "huawei",
     {| connection_types := [u "ssh"; u "telnet"];
        backup_command := u "display current-configuration";
        output_extension := u ".txt";
        device_type := u "huawei" |});
    (u "zte",
     {| connection_types := [u "ssh"; u "telnet"];
        backup_command := u "show running-config";
        output_extension := u ".txt";
        device_type := u "zte_zxros" |});
    (u "juniper",
     {| connection_types := [u "ssh"];
        backup_command := u "show configuration | display set";
        output_extension := u ".txt";
        device_type := u "juniper_junos" |});
    (u "generic",
     {| connection_types := [u "ssh"; u "telnet"];
        backup_command := u "show running-config";
        output_extension := u ".txt";
        device_type := u "cisco_ios" |});
    (u "generic-saved",
     {| connection_types := [u "ssh"; u "telnet"];
        backup_command := u "show saved-config";
        output_extension := u ".txt";
        device_type := u "cisco_ios" |});
    (u "generic-startup",
     {| connection_types := [u "ssh"; u "telnet"];
        backup_command := u "show startup-config";
        output_extension := u ".txt";
        device_type := u "cisco_ios" |}) ].

(** The attributes of class [Config] the collection core reads. *)
Record t := {
  SSH_TIMEOUT : Z;
  COMMAND_TIMEOUT : Z;
  MAX_RETRY : Z;
  DEFAULT_SSH_PORT : Z;
  DEFAULT_TELNET_PORT : Z;
  VENDOR_COMMANDS : gmap str VendorProfile
}.

(** [get_config()]: both configuration classes inherit these values. *)
Definition get_config : t :=
  {| SSH_TIMEOUT := 30;
     COMMAND_TIMEOUT := 60;
     MAX_RETRY := 1;
     DEFAULT_SSH_PORT := 22;
     DEFAULT_TELNET_PORT := 23;
     VENDOR_COMMANDS := list_to_map vendor_table |}.

End Config.

(** ** app/models.py *)

Module Models.
Import Py.

Inductive BackupStatus := PENDING | RUNNING | SUCCESS | FAILED | TIMEOUT.

(** [BackupStatus.X.value] *)
Definition status_value (s : BackupStatus) : str :=
  match s with
  | PENDING => u "pending"
  | RUNNING => u "running"
  | SUCCESS => u "success"
  | FAILED => u "failed"
  | TIMEOUT => u "timeout"
  end.

Record Device := {
  id : Z;
  name : str;
  vendor : str;
  ip_address : str;
  port : option Z;
  connection_type : str;
  username : str;
  password : str;
  enable_password : option str;
  last_backup_status : option str;
  last_backup_at : option Z
}.

Record BackupHistory := {
  h_id : option Z;
  h_device_id : Z;
  h_device_name : str;
  h_device_ip : option str;
  h_vendor : str;
  h_connection_type : option str;
  h_backup_command : option str;
  h_status : str;
  h_started_at : Z;
  h_completed_at : option Z;
  h_execution_time_seconds : option Z;
  h_file_path : option (list str);
  h_file_size_bytes : option Z;
  h_checksum_sha256 : option str;
  h_error_message : option str;
  h_triggered_by : str;
  h_retry_count : Z
}.

End Models.

(** ** The file system (os, pathlib, open) *)

Module Fs.
Import Py.
Open Scope py_scope.

(** A [pathlib.Path] is the tuple of its parts below the root; [p / s]
    appends one part.  Parts are taken as they are: the model has no
    part holding a separator, no symbolic link and no dot entry. *)
Abbreviation path := (list str).

Inductive node :=
| Dir
| File (data : bytes) (mode : Z).

Abbreviation t := (gmap path node).

Definition path_str (p : path) : str :=
  match p with
  | [] => u "/"
  | _ => concat (map (fun c => u "/" ++ c) p)
  end.

Definition os_error (c : exn_class) (errno : string) (p : path) : exn :=
  Exn c (u errno ++ u ": '" ++ path_str p ++ u "'").

Definition EEXIST := os_error FileExistsError "[Errno 17] File exists".
Definition ENOENT := os_error FileNotFoundError "[Errno 2] No such file or directory".
Definition ENOTDIR := os_error NotADirectoryError "[Errno 20] Not a directory".
Definition EISDIR := os_error IsADirectoryError "[Errno 21] Is a directory".
Definition EACCES := os_error PermissionError "[Errno 13] Permission denied".

(** The root always exists. *)
Definition stat (fs : t) (p : path) : option node :=
  match p with
  | [] => Some Dir
  | _ => fs !! p
  end.

Definition parent (p : path) : path := removelast p.

(** [p.exists()] *)
Definition exists_ (p : path) : M t bool :=
  gets (fun fs => bool_decide (is_Some (stat fs p))).

(** The walk of [Path.mkdir(parents=True, exist_ok=...)] from the root
    down: missing ancestors are created, an ancestor that is a regular
    file stops the call, and the last part must be new (or, with
    [exist_ok], an existing directory). *)
Fixpoint mkdir_walk (exist_ok : bool) (target cur : path) (comps : list str)
    (fs : t) : outcome unit * t :=
  match comps with
  | [] => if exist_ok then (Ret tt, fs) else (Raise (EEXIST target), fs)
  | c :: rest =>
      let p := cur ++ [c] in
      match rest with
      | [] =>
          match fs !! p with
          | None => (Ret tt, <[p := Dir]> fs)
          | Some Dir =>
              if exist_ok then (Ret tt, fs) else (Raise (EEXIST target), fs)
          | Some (File _ _) => (Raise (EEXIST target), fs)
          end
      | _ =>
          match fs !! p with
          | None => mkdir_walk exist_ok target p rest (<[p := Dir]> fs)
          | Some Dir => mkdir_walk exist_ok target p rest fs
          | Some (File _ _) => (Raise (ENOTDIR target), fs)
          end
      end
  end.

(** [p.mkdir(parents=True, exist_ok=exist_ok)] *)
Definition mkdir_parents (exist_ok : bool) (p : path) : M t unit :=
  mkdir_walk exist_ok p [] p.

Definition owner_may_write (mode : Z) : bool := Z.testbit mode 7.
Definition owner_may_read (mode : Z) : bool := Z.testbit mode 8.

(** [open(p, 'w')]: the file is created with mode 0o644 or truncated.
    The process owns its files and is not the superuser. *)
Definition open_w (p : path) : M t unit :=
  fun fs =>
    match p with
    | [] => (Raise (EISDIR p), fs)
    | _ =>
        match stat fs (parent p) with
        | None => (Raise (ENOENT p), fs)
        | Some (File _ _) => (Raise (ENOTDIR p), fs)
        | Some Dir =>
            match fs !! p with
            | Some Dir => (Raise (EISDIR p), fs)
            | Some (File _ mode) =>
                if owner_may_write mode
                then (Ret tt, <[p := File [] mode]> fs)
                else (Raise (EACCES p), fs)
            | None => (Ret tt, <[p := File [] 420]> fs)
            end
        end
    end.

(** [f.write(s)] on a file opened by [open_w] with [encoding='utf-8'],
    and the close that flushes it. *)
Definition write (p : path) (s : str) : M t unit :=
  fun fs =>
    match text_write s with
    | None =>
        (Raise (Exn UnicodeEncodeError
                  (u "'utf-8' codec can't encode character: surrogates not allowed")), fs)
    | Some b =>
        match fs !! p with
        | Some (File _ mode) => (Ret tt, <[p := File b mode]> fs)
        | _ => (Ret tt, fs)
        end
    end.

(** [with open(p, 'w', encoding='utf-8') as f: f.write(s)] *)
Definition write_text (p : path) (s : str) : M t unit :=
  open_w p ;;; write p s.

(** [os.chmod(p, mode)] *)
Definition chmod (p : path) (mode : Z) : M t unit :=
  fun fs =>
    match stat fs p with
    | None => (Raise (ENOENT p), fs)
    | Some Dir => (Ret tt, fs)
    | Some (File d _) => (Ret tt, <[p := File d mode]> fs)
    end.

(** [with open(p, 'rb') as f: f.read()] *)
Definition read_bytes (p : path) : M t bytes :=
  fun fs =>
    match stat fs p with
    | None => (Raise (ENOENT p), fs)
    | Some Dir => (Raise (EISDIR p), fs)
    | Some (File d mode) =>
        if owner_may_read mode then (Ret d, fs) else (Raise (EACCES p), fs)
    end.

(** [with open(p, 'r', encoding='utf-8') as f: f.read()] *)
Definition read_text (p : path) : M t str :=
  b <- read_bytes p ;;
  match text_read b with
  | Some s => ret s
  | None =>
      raise (Exn UnicodeDecodeError
               (u "'utf-8' codec can't decode byte: invalid start byte"))
  end.

(** [os.remove(p)] *)
Definition remove (p : path) : M t unit :=
  fun fs =>
    match stat fs p with
    | None => (Raise (ENOENT p), fs)
    | Some Dir => (Raise (EISDIR p), fs)
    | Some (File _ _) => (Ret tt, delete p fs)
    end.

(** [p.relative_to(base)] *)
Fixpoint relative_to (p base : path) {struct base} : option path :=
  match base with
  | [] => Some p
  | b :: base' =>
      match p with
      | c :: p' => if decide (c = b) then relative_to p' base' else None
      | [] => None
      end
  end.

(** [Path(s)] for a string: its parts between separators, empty parts
    and [.] dropped. *)
Fixpoint parts_go (cur : str) (s : str) : list str :=
  let close (c : str) (rest : list str) :=
    if bool_decide (c = []) || bool_decide (c = [46]) then rest
    else rev c :: rest in
  match s with
  | [] => close cur []
  | c :: r =>
      if c =? 47 then close cur (parts_go [] r) else parts_go (c :: cur) r
  end.
Definition of_str (s : str) : path := parts_go [] s.

End Fs.

(** ** The host and its surroundings *)

Module Host.
Import Py.

(** What reaches a device, in order.  A session is named by the number
    [ConnectHandler] gave it. *)
Inductive net_event :=
| EvOpen (sid : Z) (host : str) (device_type : str) (port : Z)
| EvEnable (sid : Z)
| EvSend (sid : Z) (command : str)
| EvClose (sid : Z)
| EvRemoveDrop (p : Fs.path).

Inductive connect_outcome :=
| ConnOk
| ConnAuthFail
| ConnTimeout
| ConnOther (e : exn).

(** What the outside does during one capture attempt: how the device
    answers, whether the FTP service is active, which address routes to
    the device, and the state of the drop file at each instant. *)
Record behaviour := {
  b_connect : connect_outcome;
  b_connect_secs : nat;
  b_enable : option exn;
  b_send : outcome str;
  b_send_secs : nat;
  b_disconnect : option exn;
  b_ftp_active : bool;
  b_route_ip : outcome str;
  b_inbox : Z -> option bytes
}.

Inductive audit_event :=
| BackupStart (device_id : Z) (device_name : str) (triggered_by : str)
| BackupComplete (device_id : Z) (device_name : str) (success : bool)
    (detail : option str).

Record World := {
  w_fs : Fs.t;
  w_time : Z;
  w_environ : gmap str str;
  w_decrypt : str -> outcome str;
  w_behaviour : nat -> behaviour;
  w_attempts : nat;
  w_sessions : Z;
  w_trace : list net_event;
  w_db_session : bool;
  w_histories : list Models.BackupHistory;
  w_devices : list Models.Device;
  w_audit : list audit_event
}.

Definition with_fs (f : Fs.t) (w : World) : World :=
  {| w_fs := f; w_time := w_time w; w_environ := w_environ w;
     w_decrypt := w_decrypt w; w_behaviour := w_behaviour w;
     w_attempts := w_attempts w; w_sessions := w_sessions w;
     w_trace := w_trace w; w_db_session := w_db_session w;
     w_histories := w_histories w; w_devices := w_devices w;
     w_audit := w_audit w |}.

Definition with_time (t : Z) (w : World) : World :=
  {| w_fs := w_fs w; w_time := t; w_environ := w_environ w;
     w_decrypt := w_decrypt w; w_behaviour := w_behaviour w;
     w_attempts := w_attempts w; w_sessions := w_sessions w;
     w_trace := w_trace w; w_db_session := w_db_session w;
     w_histories := w_histories w; w_devices := w_devices w;
     w_audit := w_audit w |}.

Definition with_attempts (n : nat) (w : World) : World :=
  {| w_fs := w_fs w; w_time := w_time w; w_environ := w_environ w;
     w_decrypt := w_decrypt w; w_behaviour := w_behaviour w;
     w_attempts := n; w_sessions := w_sessions w;
     w_trace := w_trace w; w_db_session := w_db_session w;
     w_histories := w_histories w; w_devices := w_devices w;
     w_audit := w_audit w |}.

Definition with_sessions (n : Z) (w : World) : World :=
  {| w_fs := w_fs w; w_time := w_time w; w_environ := w_environ w;
     w_decrypt := w_decrypt w; w_behaviour := w_behaviour w;
     w_attempts := w_attempts w; w_sessions := n;
     w_trace := w_trace w; w_db_session := w_db_session w;
     w_histories := w_histories w; w_devices := w_devices w;
     w_audit := w_audit w |}.

Definition with_trace (tr : list net_event) (w : World) : World :=
  {| w_fs := w_fs w; w_time := w_time w; w_environ := w_environ w;
     w_decrypt := w_decrypt w; w_behaviour := w_behaviour w;
     w_attempts := w_attempts w; w_sessions := w_sessions w;
     w_trace := tr; w_db_session := w_db_session w;
     w_histories := w_histories w; w_devices := w_devices w;
     w_audit := w_audit w |}.

Definition with_histories (hs : list Models.BackupHistory) (w : World) : World :=
  {| w_fs := w_fs w; w_time := w_time w; w_environ := w_environ w;
     w_decrypt := w_decrypt w; w_behaviour := w_behaviour w;
     w_attempts := w_attempts w; w_sessions := w_sessions w;
     w_trace := w_trace w; w_db_session := w_db_session w;
     w_histories := hs; w_devices := w_devices w;
     w_audit := w_audit w |}.

Definition with_devices (ds : list Models.Device) (w : World) : World :=
  {| w_fs := w_fs w; w_time := w_time w; w_environ := w_environ w;
     w_decrypt := w_decrypt w; w_behaviour := w_behaviour w;
     w_attempts := w_attempts w; w_sessions := w_sessions w;
     w_trace := w_trace w; w_db_session := w_db_session w;
     w_histories := w_histories w; w_devices := ds;
     w_audit := w_audit w |}.

Definition with_audit (a : list audit_event) (w : World) : World :=
  {| w_fs := w_fs w; w_time := w_time w; w_environ := w_environ w;
     w_decrypt := w_decrypt w; w_behaviour := w_behaviour w;
     w_attempts := w_attempts w; w_sessions := w_sessions w;
     w_trace := w_trace w; w_db_session := w_db_session w;
     w_histories := w_histories w; w_devices := w_devices w;
     w_audit := a |}.

(** File-system calls of the program act on the host's file system. *)
Definition on_fs {A} (m : M Fs.t A) : M World A := zoom w_fs with_fs m.

(** [time.time()], in whole seconds. *)
Definition time_time : M World Z := gets w_time.

(** [datetime.utcnow()] *)
Definition utcnow : M World Datetime.datetime :=
  gets (fun w => Datetime.utcfromtimestamp (w_time w)).

(** [time.sleep(n)] *)
Definition sleep (n : Z) : M World unit :=
  modify (fun w => with_time (w_time w + n) w).

Definition emit (ev : net_event) : M World unit :=
  modify (fun w => with_trace (w_trace w ++ [ev]) w).

(** [os.environ.get(k, default)] *)
Definition environ_get (k : string) (dflt : string) : M World str :=
  gets (fun w => default (u dflt) (w_environ w !! u k)).

End Host.

(** ** json.dump of a flat document *)

Module Json.
Import Py.

Inductive value :=
| JStr (s : str)
| JInt (n : Z)
| JFloat (whole : Z).

(** [\uXXXX] *)
Definition u_escape (c : Z) : str := u "\u" ++ Hashlib.hex_word 4 c.

(** One character of a string under [ensure_ascii=True]. *)
Definition escape_char (c : Z) : str :=
  if c =? 34 then [92; 34]
  else if c =? 92 then u "\\"
  else if c =? 10 then u "\n"
  else if c =? 13 then u "\r"
  else if c =? 9 then u "\t"
  else if c =? 8 then u "\b"
  else if c =? 12 then u "\f"
  else if (32 <=? c) && (c <=? 126) then [c]
  else if c <? 65536 then u_escape c
  else u_escape (55296 + (c - 65536) / 1024)
         ++ u_escape (56320 + (c - 65536) mod 1024).

Definition quote (s : str) : str :=
  [34] ++ concat (map escape_char s) ++ [34].

Definition render (v : value) : str :=
  match v with
  | JStr s => quote s
  | JInt n => str_of_int n
  | JFloat n => str_of_int n ++ u ".0"
  end.

Fixpoint members (kvs : list (string * value)) : str :=
  match kvs with
  | [] => []
  | [(k, v)] => u "  " ++ quote (u k) ++ u ": " ++ render v ++ [10]
  | (k, v) :: rest =>
      u "  " ++ quote (u k) ++ u ": " ++ render v ++ u "," ++ [10]
        ++ members rest
  end.

(** [json.dumps(doc, indent=2)] for a dict of scalars, in insertion
    order. *)
Definition dumps (kvs : list (string * value)) : str :=
  match kvs with
  | [] => u "{}"
  | _ => u "{" ++ [10] ++ members kvs ++ u "}"
  end.

End Json.

(** ** app/storage.py *)

Module Storage.
Import Py Host.
Open Scope py_scope.

Record StorageManager := { base_path : Fs.path }.

(** The result dict of [save_backup]; [file_size] is set on success
    only. *)
Record SaveResult := {
  success : bool;
  file_path : option Fs.path;
  metadata_path : option Fs.path;
  checksum_path : option Fs.path;
  checksum : option str;
  error : option str;
  file_size : option Z
}.

Definition _get_backup_path (self : StorageManager) (vendor : str)
    (device_id : Z) (timestamp : Datetime.datetime) : Fs.path :=
  let timestamp_str := Datetime.strftime_compact timestamp in
  base_path self ++ [vendor; str_of_int device_id; timestamp_str].

Definition _create_metadata (vendor : str) (device_id : Z) (device_ip : str)
    (connection_type backup_command : str) (timestamp : Datetime.datetime)
    (execution_time : Z) (status checksum file_name : str)
    : list (string * Json.value) :=
  [ ("vendor"%string, Json.JStr vendor);
    ("device_id"%string, Json.JInt device_id);
    ("device_ip"%string, Json.JStr device_ip);
    ("connection_type"%string, Json.JStr connection_type);
    ("backup_command"%string, Json.JStr backup_command);
    ("timestamp"%string, Json.JStr (Datetime.isoformat timestamp));
    ("execution_time_seconds"%string, Json.JFloat execution_time);
    ("status"%string, Json.JStr status);
    ("checksum_sha256"%string, Json.JStr checksum);
    ("file_name"%string, Json.JStr file_name);
    ("leuitcss_version"%string, Json.JStr (u "1.0.0")) ].

(** [s.encode()] inside a computation. *)
Definition encode {S} (s : str) : M S bytes :=
  match encode_utf8 s with
  | Some b => ret b
  | None =>
      raise (Exn UnicodeEncodeError
               (u "'utf-8' codec can't encode character: surrogates not allowed"))
  end.

Definition initial_result : SaveResult :=
  {| success := false; file_path := None; metadata_path := None;
     checksum_path := None; checksum := None; error := None;
     file_size := None |}.

(** The body of the [try] of [save_backup]. *)
Definition save_backup_body (self : StorageManager) (vendor : str)
    (device_id : Z) (device_name device_ip connection_type : str)
    (backup_command config_output output_extension : str)
    (execution_time : Z) (timestamp : option Datetime.datetime)
    : M World SaveResult :=
  timestamp <- match timestamp with
               | Some ts => ret ts
               | None => utcnow
               end ;;
  let backup_dir := _get_backup_path self vendor device_id timestamp in
  on_fs (Fs.mkdir_parents false backup_dir) ;;;
  encoded <- encode config_output ;;
  let checksum := Hashlib.hexdigest encoded in
  let config_filename := u "config" ++ output_extension in
  let metadata_filename := u "metadata.json" in
  let checksum_filename := u "checksum.sha256" in
  let config_path := backup_dir ++ [config_filename] in
  on_fs (Fs.write_text config_path config_output) ;;;
  let metadata :=
    _create_metadata vendor device_id device_ip connection_type
      backup_command timestamp execution_time (u "success") checksum
      config_filename in
  let metadata_path := backup_dir ++ [metadata_filename] in
  on_fs (Fs.write_text metadata_path (Json.dumps metadata)) ;;;
  let checksum_path := backup_dir ++ [checksum_filename] in
  on_fs (Fs.write_text checksum_path
           (checksum ++ u "  " ++ config_filename ++ [10])) ;;;
  on_fs (Fs.chmod config_path 292) ;;;
  on_fs (Fs.chmod metadata_path 292) ;;;
  on_fs (Fs.chmod checksum_path 292) ;;;
  match Fs.relative_to backup_dir (base_path self) with
  | None => raise (Exn ValueError (Fs.path_str backup_dir
                     ++ u " is not in the subpath of "
                     ++ Fs.path_str (base_path self)))
  | Some relative_dir =>
      encoded' <- encode config_output ;;
      ret {| success := true;
             file_path := Some (relative_dir ++ [config_filename]);
             metadata_path := Some (relative_dir ++ [metadata_filename]);
             checksum_path := Some (relative_dir ++ [checksum_filename]);
             checksum := Some checksum;
             error := None;
             file_size := Some (Z.of_nat (length encoded')) |}
  end.

Definition with_error (msg : str) (r : SaveResult) : SaveResult :=
  {| success := success r; file_path := file_path r;
     metadata_path := metadata_path r; checksum_path := checksum_path r;
     checksum := checksum r; error := Some msg; file_size := file_size r |}.

(** [except FileExistsError: ... except Exception as e: ...] *)
Definition save_backup_handler (e : exn) : M World SaveResult :=
  if decide (exn_cls e = FileExistsError)
  then ret (with_error
              (u "Backup directory already exists (immutability violation)")
              initial_result)
  else ret (with_error (exn_str e) initial_result).

Definition save_backup (self : StorageManager) (vendor : str)
    (device_id : Z) (device_name device_ip connection_type : str)
    (backup_command config_output output_extension : str)
    (execution_time : Z) (timestamp : option Datetime.datetime)
    : M World SaveResult :=
  try_except
    (save_backup_body self vendor device_id device_name device_ip
       connection_type backup_command config_output output_extension
       execution_time timestamp)
    save_backup_handler.

Definition get_backup (self : StorageManager) (file_path : Fs.path)
    : M World (option str) :=
  let full_path := base_path self ++ file_path in
  present <- on_fs (Fs.exists_ full_path) ;;
  if negb present then ret None
  else s <- on_fs (Fs.read_text full_path) ;; ret (Some s).

Definition verify_checksum (self : StorageManager) (file_path : Fs.path)
    : M World bool :=
  let full_path := base_path self ++ file_path in
  let checksum_path := Fs.parent full_path ++ [u "checksum.sha256"] in
  present <- on_fs (Fs.exists_ full_path) ;;
  present' <- on_fs (Fs.exists_ checksum_path) ;;
  if negb present || negb present' then ret false
  else
    text <- on_fs (Fs.read_text checksum_path) ;;
    match split text with
    | [] => raise (Exn IndexError (u "list index out of range"))
    | stored_checksum :: _ =>
        content <- on_fs (Fs.read_bytes full_path) ;;
        let current_checksum := Hashlib.hexdigest content in
        ret (bool_decide (stored_checksum = current_checksum))
    end.

(** [_ensure_base_directory], which [__init__] runs:
    [self.base_path.mkdir(parents=True, exist_ok=True)]. *)
Definition _ensure_base_directory (self : StorageManager) : M World unit :=
  on_fs (Fs.mkdir_parents true (base_path self)).

(** [get_absolute_path] *)
Definition get_absolute_path (self : StorageManager) (relative_path : Fs.path)
    : Fs.path :=
  base_path self ++ relative_path.

(** The methods class [StorageManager] defines. *)
Inductive method :=
| m_save_backup | m_get_backup | m_get_metadata | m_verify_checksum
| m_list_backups | m_get_storage_stats | m_get_absolute_path
| m_ensure_base_directory | m_get_backup_path | m_create_metadata.

(** Attribute lookup [storage.<name>] for a method name. *)
Definition getattr (name : string) : option method :=
  if decide (name = "save_backup"%string) then Some m_save_backup
  else if decide (name = "get_backup"%string) then Some m_get_backup
  else if decide (name = "get_metadata"%string) then Some m_get_metadata
  else if decide (name = "verify_checksum"%string) then Some m_verify_checksum
  else if decide (name = "list_backups"%string) then Some m_list_backups
  else if decide (name = "get_storage_stats"%string) then Some m_get_storage_stats
  else if decide (name = "get_absolute_path"%string) then Some m_get_absolute_path
  else if decide (name = "_ensure_base_directory"%string) then Some m_ensure_base_directory
  else if decide (name = "_get_backup_path"%string) then Some m_get_backup_path
  else if decide (name = "_create_metadata"%string) then Some m_create_metadata
  else None.

End Storage.

(** ** app/adapters.py *)

Module Adapters.
Import Py Host.
Open Scope py_scope.

(** The dict built by the collector's [_prepare_device_info]. *)
Record DeviceInfo := {
  device_id : Z;
  ip_address : str;
  port : option Z;
  username : str;
  password : str;
  enable_password : option str;
  connection_type : str
}.

(** The concrete subclasses of [VendorAdapter]. *)
Inductive adapter_class :=
| MikroTikAdapter | CiscoAdapter | HuaweiAdapter | ZTEAdapter
| JuniperAdapter | GenericAdapter | GenericSavedAdapter
| GenericStartupAdapter.

Global Instance adapter_class_eq_dec : EqDecision adapter_class.
Proof. solve_decision. Defined.

Definition vendor_name (c : adapter_class) : str :=
  match c with
  | MikroTikAdapter => u "mikrotik"
  | CiscoAdapter => u "cisco"
  | HuaweiAdapter => u "huawei"
  | ZTEAdapter => u "zte"
  | JuniperAdapter => u "juniper"
  | GenericAdapter => u "generic"
  | GenericSavedAdapter => u "generic-saved"
  | GenericStartupAdapter => u "generic-startup"
  end.

Definition device_type (c : adapter_class) : str :=
  match c with
  | MikroTikAdapter => u "mikrotik_routeros"
  | CiscoAdapter => u "cisco_ios"
  | HuaweiAdapter => u "huawei"
  | ZTEAdapter => u "zte_zxros"
  | JuniperAdapter => u "juniper_junos"
  | GenericAdapter => u "cisco_ios"
  | GenericSavedAdapter => u "cisco_ios"
  | GenericStartupAdapter => u "cisco_ios"
  end.

Definition backup_command (c : adapter_class) : str :=
  match c with
  | MikroTikAdapter => u "/export"
  | CiscoAdapter => u "show running-config"
  | HuaweiAdapter => u "display current-configuration"
  | ZTEAdapter => u "file upload cfg-startup startrun.dat ftp"
  | JuniperAdapter => u "show configuration | display set"
  | GenericAdapter => u "show running-config"
  | GenericSavedAdapter => u "show saved-config"
  | GenericStartupAdapter => u "show startup-config"
  end.

Definition output_extension (c : adapter_class) : str :=
  match c with
  | MikroTikAdapter => u ".rsc"
  | ZTEAdapter => u ".dat"
  | _ => u ".txt"
  end.

(** An adapter object. *)
Record Adapter := {
  cls : adapter_class;
  config : Config.t;
  device_info : DeviceInfo;
  connection : option Z
}.

Definition set_connection (c : option Z) (a : Adapter) : Adapter :=
  {| cls := cls a; config := config a; device_info := device_info a;
     connection := c |}.

(** Methods run on the object and the host. *)
Definition Obj : Type := Adapter * World.

Definition host {A} (m : M World A) : M Obj A :=
  zoom snd (fun w (s : Obj) => (fst s, w)) m.
Definition self : M Obj Adapter := gets fst.
Definition assign_connection (c : option Z) : M Obj unit :=
  modify (fun s : Obj => (set_connection c (fst s), snd s)).

(** [decrypt_credential(c)] *)
Definition decrypt_credential (c : str) : M Obj str :=
  fun s => (w_decrypt (snd s) c, s).

(** The keyword arguments handed to [ConnectHandler]. *)
Record Params := {
  p_device_type : str;
  p_host : str;
  p_port : Z;
  p_username : str;
  p_password : str;
  p_timeout : Z;
  p_secret : option str
}.

(** Truth value of an optional int and of an optional string. *)
Definition truthy_int (o : option Z) : bool :=
  match o with Some n => negb (n =? 0) | None => false end.
Definition truthy_str (o : option str) : bool :=
  match o with Some (_ :: _) => true | _ => false end.

Definition _get_connection_params : M Obj Params :=
  a <- self ;;
  let info := device_info a in
  let telnet := bool_decide (connection_type info = u "telnet") in
  let port :=
    if truthy_int (port info) then default 0 (port info)
    else if telnet then Config.DEFAULT_TELNET_PORT (config a)
         else Config.DEFAULT_SSH_PORT (config a) in
  username <- decrypt_credential (username info) ;;
  password <- decrypt_credential (password info) ;;
  secret <- (if truthy_str (enable_password info)
             then s <- decrypt_credential (default [] (enable_password info)) ;;
                  ret (Some s)
             else ret None) ;;
  ret {| p_device_type :=
           if telnet then device_type (cls a) ++ u "_telnet"
           else device_type (cls a);
         p_host := ip_address info;
         p_port := port;
         p_username := username;
         p_password := password;
         p_timeout := Config.SSH_TIMEOUT (config a);
         p_secret := secret |}.

(** The call of [ConnectHandler] on them: the device answers as the outside
    decides; a session that opens gets the next number. *)
Definition ConnectHandler (env : behaviour) (p : Params) : M Obj Z :=
  host (sleep (Z.of_nat (b_connect_secs env))) ;;;
  match b_connect env with
  | ConnOk =>
      sid <- host (gets w_sessions) ;;
      host (modify (with_sessions (sid + 1))) ;;;
      host (emit (EvOpen sid (p_host p) (p_device_type p) (p_port p))) ;;;
      ret sid
  | ConnAuthFail =>
      raise (Exn NetmikoAuthenticationException (u "Authentication to device failed."))
  | ConnTimeout =>
      raise (Exn NetmikoTimeoutException (u "TCP connection to device failed."))
  | ConnOther e => raise e
  end.

(** [VendorAdapter.connect] *)
Definition base_connect (env : behaviour) : M Obj bool :=
  a <- self ;;
  try_except
    (params <- _get_connection_params ;;
     sid <- ConnectHandler env params ;;
     assign_connection (Some sid) ;;;
     ret true)
    (fun e =>
       if decide (exn_cls e = NetmikoAuthenticationException)
       then raise (Exn ConnectionError
                     (u "Authentication failed for " ++ ip_address (device_info a)))
       else if decide (exn_cls e = NetmikoTimeoutException)
       then raise (Exn ConnectionError
                     (u "Connection timeout for " ++ ip_address (device_info a)))
       else raise (Exn ConnectionError (u "Connection failed: " ++ exn_str e))).

(** [self.connection.enable()] *)
Definition enable (env : behaviour) : M Obj unit :=
  a <- self ;;
  match connection a with
  | None => raise (Exn AttributeError (u "'NoneType' object has no attribute 'enable'"))
  | Some sid =>
      host (emit (EvEnable sid)) ;;;
      match b_enable env with
      | Some e => raise e
      | None => ret tt
      end
  end.

(** [connect], as the class of the object defines it: [CiscoAdapter]
    overrides it to enter enable mode. *)
Definition connect (env : behaviour) : M Obj bool :=
  a <- self ;;
  match cls a with
  | CiscoAdapter =>
      result <- base_connect env ;;
      (if truthy_str (enable_password (device_info a))
       then enable env else ret tt) ;;;
      ret result
  | _ => base_connect env
  end.

(** [VendorAdapter.disconnect] *)
Definition disconnect (env : behaviour) : M Obj unit :=
  a <- self ;;
  match connection a with
  | None => ret tt
  | Some sid =>
      try_finally
        (try_except
           (host (emit (EvClose sid)) ;;;
            match b_disconnect env with
            | Some e => raise e
            | None => ret tt
            end)
           (fun _ => ret tt))
        (assign_connection None)
  end.

(** [self.connection.send_command(command, ...)] *)
Definition send_command (env : behaviour) (command : str) : M Obj str :=
  a <- self ;;
  match connection a with
  | None =>
      raise (Exn AttributeError
               (u "'NoneType' object has no attribute 'send_command'"))
  | Some sid =>
      host (emit (EvSend sid command)) ;;;
      host (sleep (Z.of_nat (b_send_secs env))) ;;;
      fun s => (b_send env, s)
  end.

(** [VendorAdapter.execute_backup] *)
Definition execute_backup (env : behaviour) : M Obj (str * Z) :=
  a <- self ;;
  match connection a with
  | None => raise (Exn RuntimeError (u "Not connected to device"))
  | Some _ =>
      start_time <- host time_time ;;
      output <- send_command env (backup_command (cls a)) ;;
      now <- host time_time ;;
      ret (output, now - start_time)
  end.

(** The result dict of [backup]. *)
Record BackupResult := {
  success : bool;
  output : option str;
  execution_time : Z;
  checksum : option str;
  error : option str;
  timestamp : str;
  file_path : option Fs.path
}.

Definition initial_result (timestamp : str) : BackupResult :=
  {| success := false; output := None; execution_time := 0;
     checksum := None; error := None; timestamp := timestamp;
     file_path := None |}.

(** [VendorAdapter.backup] *)
Definition base_backup (env : behaviour) : M Obj BackupResult :=
  now <- host utcnow ;;
  let result := initial_result (Datetime.isoformat now) in
  try_finally
    (try_except
       (connect env ;;;
        r <- execute_backup env ;;
        encoded <- Storage.encode (fst r) ;;
        let checksum := Hashlib.hexdigest encoded in
        ret {| success := true; output := Some (fst r);
               execution_time := snd r; checksum := Some checksum;
               error := None; timestamp := timestamp result;
               file_path := None |})
       (fun e =>
          ret {| success := false; output := None; execution_time := 0;
                 checksum := None; error := Some (exn_str e);
                 timestamp := timestamp result; file_path := None |}))
    (disconnect env).

(** *** ZTEAdapter *)

Definition FTP_POLL_TIMEOUT : Z := 120.
Definition FTP_POLL_INTERVAL : Z := 3.

Record FtpConfig := {
  ftp_enabled : bool;
  ftp_port : Z;
  ftp_user : str;
  ftp_password : str;
  ftp_root : str
}.

(** [_is_ftp_service_running] *)
Definition _is_ftp_service_running (env : behaviour) : M Obj bool :=
  ret (b_ftp_active env).

(** [_get_ftp_config] *)
Definition _get_ftp_config (env : behaviour) : M Obj FtpConfig :=
  ftp_running <- _is_ftp_service_running env ;;
  port_s <- host (environ_get "LEUITCSS_FTP_PORT" "21") ;;
  port <- match int_of_str port_s with
          | Some n => ret n
          | None => raise (Exn ValueError
                             (u "invalid literal for int() with base 10"))
          end ;;
  user <- host (environ_get "LEUITCSS_FTP_USER" "leuitcss") ;;
  password <- host (environ_get "LEUITCSS_FTP_PASSWORD" "") ;;
  root <- host (environ_get "LEUITCSS_FTP_ROOT" "/var/lib/leuitcss/ftp-ingestion") ;;
  ret {| ftp_enabled := ftp_running; ftp_port := port; ftp_user := user;
         ftp_password := password; ftp_root := root |}.

(** [_get_server_ip] *)
Definition _get_server_ip (env : behaviour) : M Obj str :=
  manual <- host (environ_get "LEUITCSS_SERVER_IP" "") ;;
  let manual_ip := strip manual in
  match manual_ip with
  | _ :: _ => ret manual_ip
  | [] => fun s => (b_route_ip env, s)
  end.

(** [_get_ftp_inbox_path] *)
Definition _get_ftp_inbox_path (env : behaviour) (device_id : Z) : M Obj Fs.path :=
  ftp_config <- _get_ftp_config env ;;
  let inbox_path :=
    Fs.of_str (ftp_root ftp_config) ++ [u "zte"; str_of_int device_id] in
  host (on_fs (Fs.mkdir_parents true inbox_path)) ;;;
  ret inbox_path.

(** [_build_ftp_upload_command] *)
Definition _build_ftp_upload_command (env : behaviour) (device_id : Z) : M Obj str :=
  ftp_config <- _get_ftp_config env ;;
  server_ip <- _get_server_ip env ;;
  let ftp_path := u "zte/" ++ str_of_int device_id ++ u "/" in
  let command :=
    u "file upload cfg-startup startrun.dat ftp "
      ++ u "ipaddress " ++ server_ip ++ u " "
      ++ u "path " ++ ftp_path ++ u " "
      ++ u "user " ++ ftp_user ftp_config ++ u " "
      ++ u "password " ++ ftp_password ftp_config in
  ret command.

(** [_clear_inbox].  The drop file is written by the FTP service; the
    program sees its state at an instant through [b_inbox]. *)
Definition _clear_inbox (env : behaviour) (inbox_path : Fs.path) : M Obj unit :=
  let target_file := inbox_path ++ [u "startrun.dat"] in
  now <- host time_time ;;
  match b_inbox env now with
  | Some _ => host (emit (EvRemoveDrop target_file))
  | None => ret tt
  end.

(** The loop of [_poll_for_file], from the instant [now] on; it gives
    what the method returns or raises, and the instant at which it does.
    Each round that does not return sleeps one interval, so the time left
    in the budget decreases. *)
Equations? poll_loop (inbox : Z -> option bytes) (target_file : Fs.path)
    (start_time now : Z) : outcome (option Fs.path) * Z
    by wf (Z.to_nat (FTP_POLL_TIMEOUT - (now - start_time))) lt :=
  poll_loop inbox target_file start_time now
    with decide (now - start_time < FTP_POLL_TIMEOUT) => {
    | right _ => (Ret None, now);
    | left _ with inbox now => {
      | None => poll_loop inbox target_file start_time (now + FTP_POLL_INTERVAL);
      | Some _ with inbox (now + 1) => {
        | None => (Raise (Fs.ENOENT target_file), now + 1);
        | Some content with decide (0 < Z.of_nat (length content)) => {
          | left _ => (Ret (Some target_file), now + 1);
          | right _ =>
              poll_loop inbox target_file start_time
                (now + 1 + FTP_POLL_INTERVAL) } } } }.
Proof.
  all: unfold FTP_POLL_TIMEOUT, FTP_POLL_INTERVAL in *; lia.
Qed.

(** [_poll_for_file] *)
Definition _poll_for_file (env : behaviour) (inbox_path : Fs.path)
    : M Obj (option Fs.path) :=
  let target_file := inbox_path ++ [u "startrun.dat"] in
  start_time <- host time_time ;;
  fun s =>
    let r := poll_loop (b_inbox env) target_file start_time start_time in
    (fst r, (fst s, with_time (snd r) (snd s))).

(** [with open(received_file, 'rb') as f: f.read()] on the drop file. *)
Definition read_drop (env : behaviour) (p : Fs.path) : M Obj bytes :=
  now <- host time_time ;;
  match b_inbox env now with
  | Some content => ret content
  | None => raise (Fs.ENOENT p)
  end.

(** [ZTEAdapter.backup] *)
Definition zte_backup (env : behaviour) : M Obj BackupResult :=
  now <- host utcnow ;;
  let result := initial_result (Datetime.isoformat now) in
  start_time <- host time_time ;;
  a <- self ;;
  let device_id := device_id (device_info a) in
  try_finally
    (try_except
       (ftp_config <- _get_ftp_config env ;;
        (if negb (ftp_enabled ftp_config)
         then raise (Exn RuntimeError
                (u "FTP server is not enabled. Enable it in Web UI (ZTE FTP Ingestion)"))
         else ret tt) ;;;
        (if bool_decide (ftp_password ftp_config = [])
         then raise (Exn RuntimeError (u "FTP password not configured in .env file"))
         else ret tt) ;;;
        inbox_path <- _get_ftp_inbox_path env device_id ;;
        _clear_inbox env inbox_path ;;;
        connect env ;;;
        upload_command <- _build_ftp_upload_command env device_id ;;
        send_command env upload_command ;;;
        disconnect env ;;;
        received <- _poll_for_file env inbox_path ;;
        match received with
        | None =>
            raise (Exn RuntimeError
                     (u "FTP file not received within "
                        ++ str_of_int FTP_POLL_TIMEOUT ++ u " seconds"))
        | Some received_file =>
            content <- read_drop env received_file ;;
            let checksum := Hashlib.hexdigest content in
            finish <- host time_time ;;
            ret {| success := true;
                   output := decode_utf8 true content;
                   execution_time := finish - start_time;
                   checksum := Some checksum;
                   error := None;
                   timestamp := timestamp result;
                   file_path := Some received_file |}
        end)
       (fun e =>
          finish <- host time_time ;;
          ret {| success := false; output := None;
                 execution_time := finish - start_time;
                 checksum := None; error := Some (exn_str e);
                 timestamp := timestamp result; file_path := None |}))
    (disconnect env).

(** [adapter.backup()], as the class of the object defines it.  The call
    meets the next behaviour of the outside. *)
Definition backup : M Obj BackupResult :=
  env <- host (gets (fun w => w_behaviour w (w_attempts w))) ;;
  host (modify (fun w => with_attempts (S (w_attempts w)) w)) ;;;
  a <- self ;;
  match cls a with
  | ZTEAdapter => zte_backup env
  | _ => base_backup env
  end.

(** The registry [VENDOR_ADAPTERS]. *)
Definition VENDOR_ADAPTERS : gmap str adapter_class :=
  list_to_map
    [ (u "mikrotik", MikroTikAdapter); (u "cisco", CiscoAdapter);
      (u "huawei", HuaweiAdapter); (u "zte", ZTEAdapter);
      (u "juniper", JuniperAdapter); (u "generic", GenericAdapter);
      (u "generic-saved", GenericSavedAdapter);
      (u "generic-startup", GenericStartupAdapter) ].

(** [get_adapter]: the new object, or the [ValueError]. *)
Definition get_adapter (vendor : str) (info : DeviceInfo) : outcome Adapter :=
  let vendor := lower vendor in
  match VENDOR_ADAPTERS !! vendor with
  | None =>
      Raise (Exn ValueError
               (u "Unsupported vendor: " ++ vendor
                  ++ u ". Supported: ['mikrotik', 'cisco', 'huawei', 'zte', 'juniper', 'generic', 'generic-saved', 'generic-startup']"))
  | Some c =>
      Ret {| cls := c; config := Config.get_config; device_info := info;
             connection := None |}
  end.

End Adapters.

(** ** app/collector.py *)

Module Collector.
Import Py Host Models.
Open Scope py_scope.

Record BackupCollector := {
  config : Config.t;
  storage : Storage.StorageManager
}.

(** The result dict of [backup_device]. *)
Record Result := {
  success : bool;
  history_id : option Z;
  file_path : option Fs.path;
  checksum : option str;
  error : option str;
  device_id : Z;
  device_name : str
}.

Definition _get_vendor_config (self : BackupCollector) (vendor : str)
    : option Config.VendorProfile :=
  Config.VENDOR_COMMANDS (config self) !! lower vendor.

Definition _prepare_device_info (device : Device) : Adapters.DeviceInfo :=
  {| Adapters.device_id := id device;
     Adapters.ip_address := ip_address device;
     Adapters.port := port device;
     Adapters.username := username device;
     Adapters.password := password device;
     Adapters.enable_password := enable_password device;
     Adapters.connection_type := connection_type device |}.

(** History objects are named by their position in [w_histories]; the
    database numbers the rows it is given from 1. *)
Definition _create_backup_history (self : BackupCollector) (device : Device)
    (triggered_by : str) : M World nat :=
  match _get_vendor_config self (vendor device) with
  | None => raise (Exn TypeError (u "'NoneType' object is not subscriptable"))
  | Some vendor_config =>
      w <- get ;;
      let handle := length (w_histories w) in
      let history :=
        {| h_id := if w_db_session w
                   then Some (Z.of_nat handle + 1) else None;
           h_device_id := id device;
           h_device_name := name device;
           h_device_ip := Some (ip_address device);
           h_vendor := vendor device;
           h_connection_type := Some (connection_type device);
           h_backup_command := Some (Config.backup_command vendor_config);
           h_status := status_value RUNNING;
           h_started_at := w_time w;
           h_completed_at := None;
           h_execution_time_seconds := None;
           h_file_path := None;
           h_file_size_bytes := None;
           h_checksum_sha256 := None;
           h_error_message := None;
           h_triggered_by := triggered_by;
           h_retry_count := 0 |} in
      modify (with_histories (w_histories w ++ [history])) ;;;
      ret handle
  end.

Definition completed (now : Z) (execution_time : option Z) (status : str)
    (file_path : option Fs.path) (file_size : option Z)
    (checksum error_message : option str) (h : BackupHistory) : BackupHistory :=
  {| h_id := h_id h; h_device_id := h_device_id h;
     h_device_name := h_device_name h; h_device_ip := h_device_ip h;
     h_vendor := h_vendor h; h_connection_type := h_connection_type h;
     h_backup_command := h_backup_command h;
     h_status := status;
     h_started_at := h_started_at h;
     h_completed_at := Some now;
     h_execution_time_seconds := execution_time;
     h_file_path := file_path;
     h_file_size_bytes := file_size;
     h_checksum_sha256 := checksum;
     h_error_message := error_message;
     h_triggered_by := h_triggered_by h;
     h_retry_count := h_retry_count h |}.

Definition _update_backup_history (history : nat) (success : bool)
    (execution_time : option Z) (file_path : option Fs.path)
    (file_size : option Z) (checksum error_message : option str)
    : M World unit :=
  now <- time_time ;;
  let secs := match execution_time with
              | Some t => if t =? 0 then None else Some t
              | None => None
              end in
  modify (fun w =>
    with_histories
      (alter (fun h =>
         if success
         then completed now secs (status_value SUCCESS) file_path file_size
                checksum (h_error_message h) h
         else completed now secs
                (if contains (u "timeout") (lower (str_of_opt error_message))
                 then status_value TIMEOUT else status_value FAILED)
                (h_file_path h) (h_file_size_bytes h) (h_checksum_sha256 h)
                error_message h)
         history (w_histories w)) w).

Definition set_status (status : str) (now : Z) (d : Device) : Device :=
  {| id := id d; name := name d; vendor := vendor d;
     ip_address := ip_address d; port := port d;
     connection_type := connection_type d; username := username d;
     password := password d; enable_password := enable_password d;
     last_backup_status := Some status; last_backup_at := Some now |}.

Definition _update_device_status (device : Device) (status : str) : M World unit :=
  now <- time_time ;;
  modify (fun w =>
    with_devices
      (map (fun d => if decide (id d = id device) then set_status status now d
                     else d) (w_devices w)) w).

Definition bump_retry_count (h : BackupHistory) : BackupHistory :=
  {| h_id := h_id h; h_device_id := h_device_id h;
     h_device_name := h_device_name h; h_device_ip := h_device_ip h;
     h_vendor := h_vendor h; h_connection_type := h_connection_type h;
     h_backup_command := h_backup_command h; h_status := h_status h;
     h_started_at := h_started_at h; h_completed_at := h_completed_at h;
     h_execution_time_seconds := h_execution_time_seconds h;
     h_file_path := h_file_path h;
     h_file_size_bytes := h_file_size_bytes h;
     h_checksum_sha256 := h_checksum_sha256 h;
     h_error_message := h_error_message h;
     h_triggered_by := h_triggered_by h;
     h_retry_count := h_retry_count h + 1 |}.

Definition audit (ev : audit_event) : M World unit :=
  modify (fun w => with_audit (w_audit w ++ [ev]) w).

Definition empty_result (device : Device) : Result :=
  {| success := false; history_id := None; file_path := None;
     checksum := None; error := None; device_id := id device;
     device_name := name device |}.

Definition failed (device : Device) (hid : option Z) (msg : option str) : Result :=
  {| success := false; history_id := hid; file_path := None;
     checksum := None; error := msg; device_id := id device;
     device_name := name device |}.

(** [adapter.backup()] on a fresh object; the object is dropped after
    the call. *)
Definition run_adapter (a : Adapters.Adapter) : M World Adapters.BackupResult :=
  fun w => match Adapters.backup (a, w) with
           | (o, (_, w')) => (o, w')
           end.

(** [backup_device].  [depth] is the number of frames the interpreter
    still allows; the call raises [RecursionError] when none is left. *)
Fixpoint backup_device (depth : nat) (self : BackupCollector) (device : Device)
    (triggered_by : str) (retry : bool) : M World Result :=
  match depth with
  | O => raise (Exn RecursionError (u "maximum recursion depth exceeded"))
  | S depth' =>
    match _get_vendor_config self (vendor device) with
    | None =>
        ret (failed device None (Some (u "Unsupported vendor: " ++ vendor device)))
    | Some vendor_config =>
      if negb (bool_decide (connection_type device
                              ∈ Config.connection_types vendor_config))
      then ret (failed device None
                  (Some (u "Connection type " ++ connection_type device
                           ++ u " not supported for " ++ vendor device)))
      else
        audit (BackupStart (id device) (name device) triggered_by) ;;;
        history <- _create_backup_history self device triggered_by ;;
        hid <- gets (fun w => h ← w_histories w !! history; h_id h) ;;
        let device_info := _prepare_device_info device in
        match Adapters.get_adapter (vendor device) device_info with
        | Raise e =>
            if decide (exn_cls e = ValueError)
            then
              _update_backup_history history false None None None None
                (Some (exn_str e)) ;;;
              _update_device_status device (status_value FAILED) ;;;
              audit (BackupComplete (id device) (name device) false
                       (Some (exn_str e))) ;;;
              ret (failed device hid (Some (exn_str e)))
            else raise e
        | Ret adapter =>
          backup_result <- run_adapter adapter ;;
          if Adapters.success backup_result
          then
            storage_result <-
              Storage.save_backup (storage self) (vendor device) (id device)
                (name device) (ip_address device) (connection_type device)
                (Config.backup_command vendor_config)
                (str_of_opt (Adapters.output backup_result))
                (Config.output_extension vendor_config)
                (Adapters.execution_time backup_result) None ;;
            if Storage.success storage_result
            then
              _update_backup_history history true
                (Some (Adapters.execution_time backup_result))
                (Storage.file_path storage_result)
                (Storage.file_size storage_result)
                (Storage.checksum storage_result) None ;;;
              _update_device_status device (status_value SUCCESS) ;;;
              audit (BackupComplete (id device) (name device) true
                       (Storage.checksum storage_result)) ;;;
              ret {| success := true; history_id := hid;
                     file_path := Storage.file_path storage_result;
                     checksum := Storage.checksum storage_result;
                     error := None; device_id := id device;
                     device_name := name device |}
            else
              let msg := u "Storage error: "
                           ++ str_of_opt (Storage.error storage_result) in
              _update_backup_history history false None None None None
                (Some msg) ;;;
              _update_device_status device (status_value FAILED) ;;;
              audit (BackupComplete (id device) (name device) false (Some msg)) ;;;
              ret (failed device hid (Some msg))
          else
            let finish (msg : option str) : M World Result :=
              _update_backup_history history false
                (Some (Adapters.execution_time backup_result))
                None None None msg ;;;
              _update_device_status device (status_value FAILED) ;;;
              audit (BackupComplete (id device) (name device) false msg) ;;;
              ret (failed device hid msg) in
            retry_count <- gets (fun w =>
              default 0 (h_retry_count <$> w_histories w !! history)) ;;
            if retry && (retry_count <? Config.MAX_RETRY (config self))
            then
              modify (fun w =>
                with_histories (alter bump_retry_count history (w_histories w)) w) ;;;
              retry_result <- backup_device depth' self device triggered_by false ;;
              if success retry_result
              then ret retry_result
              else finish (Some (u "Failed after retry: "
                                   ++ str_of_opt (error retry_result)))
            else finish (Adapters.error backup_result)
        end
    end
  end.

End Collector.

(** ** app/ftp_server.py *)

Module FtpServer.
Import Py Host Models.
Open Scope py_scope.

(** [Path(file).parts]: the root is a part of an absolute path. *)
Definition parts (file : str) : list str :=
  if is_prefix (u "/") file then u "/" :: Fs.of_str file else Fs.of_str file.

(** [Path(file).name] *)
Definition name_of (file : str) : str := default [] (last (Fs.of_str file)).

(** [session.query(Device).filter(Device.name == n, Device.vendor == 'zte').first()] *)
Definition query_device (device_name : str) : M World (option Device) :=
  gets (fun w =>
    snd <$> list_find (fun d => name d = device_name ∧ vendor d = u "zte")
              (w_devices w)).

(** [session.flush()] with a new history row: the table declares
    [device_ip], [connection_type] and [backup_command] NOT NULL. *)
Definition session_flush (h : BackupHistory) : M World unit :=
  match h_device_ip h, h_connection_type h, h_backup_command h with
  | Some _, Some _, Some _ => ret tt
  | _, _, _ =>
      raise (Exn IntegrityError (u "NOT NULL constraint failed: backup_history"))
  end.

(** [storage.store_backup(device_id=..., vendor=..., content=...,
    filename_prefix=...)]: the attribute is looked up on the storage
    manager; no method of the class takes these keywords. *)
Definition call_store_backup (device_id : Z) (vendor content filename_prefix : str)
    : M World Fs.path :=
  match Storage.getattr "store_backup" with
  | None =>
      raise (Exn AttributeError
               (u "'StorageManager' object has no attribute 'store_backup'"))
  | Some _ =>
      raise (Exn TypeError (u "got an unexpected keyword argument 'content'"))
  end.

(** [session.commit()]: the pending history row and the device row reach
    the database. *)
Definition session_commit (h : BackupHistory) (d : Device) : M World unit :=
  modify (fun w =>
    with_devices (map (fun d' => if decide (id d' = id d) then d else d')
                    (w_devices w))
      (with_histories (w_histories w ++ [h]) w)).

(** The names a [from ... import name] finds in the package [app] (the
    globals of [app/__init__.py] and the submodules beside it), in
    [app.models] and in [app.storage]. *)
Definition app_names : list string :=
  [ "__version__"; "__description__"; "adapters"; "audit"; "auth";
    "collector"; "encryption"; "forms"; "ftp_server"; "models"; "routes";
    "scheduler"; "storage" ]%string.
Definition app_models_names : list string :=
  [ "datetime"; "create_engine"; "Column"; "Integer"; "String"; "Text";
    "DateTime"; "Boolean"; "ForeignKey"; "Enum"; "declarative_base";
    "relationship"; "sessionmaker"; "enum"; "Base"; "ConnectionType";
    "BackupStatus"; "ScheduleFrequency"; "VendorType"; "Admin"; "Device";
    "BackupSchedule"; "BackupHistory"; "AuditLog"; "init_db";
    "get_session" ]%string.
Definition app_storage_names : list string :=
  [ "os"; "json"; "hashlib"; "Path"; "datetime"; "Optional"; "Dict"; "List";
    "get_config"; "StorageManager"; "_storage_instance";
    "get_storage" ]%string.

(** [from module import name]; the interpreter adds the file of the module
    to the text of the error. *)
Definition import_from (module : string) (names : list string) (name : string)
    : M World unit :=
  if bool_decide (name ∈ names) then ret tt
  else raise (Exn ImportError
                (u "cannot import name '" ++ u name ++ u "' from '"
                   ++ u module ++ u "'")).

(** [_process_zte_backup].  The imports at its head come first; the calls
    [create_app()], [app.app_context()], [get_engine()] and
    [Session(engine)] that follow them stand between the imports and the
    query. *)
Definition _process_zte_backup (device_name : str) (file : str) : M World unit :=
  import_from "app.models" app_models_names "Device" ;;;
  import_from "app.models" app_models_names "BackupHistory" ;;;
  import_from "app.storage" app_storage_names "get_storage" ;;;
  import_from "app" app_names "create_app" ;;;
  import_from "app.models" app_models_names "get_engine" ;;;
  let file_path := Fs.of_str file in
  found <- query_device device_name ;;
  match found with
  | None => ret tt
  | Some device =>
      read <- try_except (c <- on_fs (Fs.read_bytes file_path) ;; ret (Some c))
                (fun _ => ret None) ;;
      match read with
      | None => ret tt
      | Some content =>
          started <- time_time ;;
          let history :=
            {| h_id := None; h_device_id := id device;
               h_device_name := name device; h_device_ip := None;
               h_vendor := vendor device; h_connection_type := None;
               h_backup_command := None; h_status := u "running";
               h_started_at := started; h_completed_at := None;
               h_execution_time_seconds := None; h_file_path := None;
               h_file_size_bytes := None; h_checksum_sha256 := None;
               h_error_message := None;
               h_triggered_by := u "ftp_ingestion"; h_retry_count := 0 |} in
          session_flush history ;;;
          stored <- try_except
                      (p <- call_store_backup (id device) (vendor device)
                              (default [] (decode_utf8 true content))
                              (u "zte_olt_" ++ name device) ;;
                       ret (inl p))
                      (fun e => ret (inr e)) ;;
          now <- time_time ;;
          match stored with
          | inl stored_path =>
              session_commit
                (Collector.completed now (Some (now - started)) (u "success")
                   (Some stored_path) (Some (Z.of_nat (length content)))
                   None None history)
                (Collector.set_status (u "success") now device)
          | inr e =>
              session_commit
                (Collector.completed now None (u "failed") None None None
                   (Some (exn_str e)) history)
                {| id := id device; name := name device;
                   vendor := vendor device; ip_address := ip_address device;
                   port := port device;
                   connection_type := connection_type device;
                   username := username device; password := password device;
                   enable_password := enable_password device;
                   last_backup_status := Some (u "failed");
                   last_backup_at := last_backup_at device |}
          end ;;;
          try_except (on_fs (Fs.remove file_path)) (fun _ => ret tt)
      end
  end.

(** [LeuitFTPHandler.on_file_received] *)
Definition on_file_received (file : str) : M World unit :=
  try_except
    (if negb (bool_decide (lower (name_of file) = u "startrun.dat"))
     then ret tt
     else
       let ps := parts file in
       if (length ps <? 2)%nat then ret tt
       else
         let device_name := default [] (rev ps !! 1%nat) in
         _process_zte_backup device_name file)
    (fun _ => ret tt).

(** [LeuitFTPHandler.on_incomplete_file_received]: the partial file is
    removed, and whatever that raises is dropped. *)
Definition on_incomplete_file_received (file : str) : M World unit :=
  try_except (on_fs (Fs.remove (Fs.of_str file))) (fun _ => ret tt).

End FtpServer.


(** ** Vocabulary of the statements *)

Module Logic.
Import Py.
Open Scope py_scope.

(** From a state satisfying [P] the computation ends, normally or by an
    exception, in an outcome and state satisfying [Q]. *)
Definition triple {S A} (P : S -> Prop) (m : M S A)
    (Q : outcome A -> S -> Prop) : Prop :=
  forall s, P s -> Q (m s).1 (m s).2.

(** A computation that always returns. *)
Definition returns {S A} (m : M S A) : Prop :=
  forall s, exists a, (m s).1 = Ret a.

(** A computation that moves the state along a relation. *)
Definition keeps {S A} (R : S -> S -> Prop) (m : M S A) : Prop :=
  forall s, R s (m s).2.

(** A character that is neither a blank nor a carriage return, as the
    characters of a hex digest are. *)
Definition hex_char (c : Z) : Prop := is_space c = false /\ c <> 13.

(** Every non-empty prefix of [comps] below [cur] is a directory. *)
Definition dir_chain (fs : Fs.t) (cur : Fs.path) (comps : list str) : Prop :=
  forall k, (0 < k <= length comps)%nat ->
    fs !! (cur ++ take k comps) = Some Fs.Dir.

(** The time stamp a call of [save_backup] works with: the one it is
    given, or now. *)
Definition effective (timestamp : option Datetime.datetime) (w : Host.World)
    : Datetime.datetime :=
  default (Datetime.utcfromtimestamp (Host.w_time w)) timestamp.

(** Two time stamps that agree down to the second. *)
Definition same_second (a b : Datetime.datetime) : Prop :=
  Datetime.year a = Datetime.year b /\ Datetime.month a = Datetime.month b
  /\ Datetime.day a = Datetime.day b /\ Datetime.hour a = Datetime.hour b
  /\ Datetime.minute a = Datetime.minute b
  /\ Datetime.second a = Datetime.second b.

(** The message [save_backup] gives for a directory that exists. *)
Definition immutability_violation : str :=
  u "Backup directory already exists (immutability violation)".

(** The commands that reached a device, in order. *)
Definition sent (tr : list Host.net_event) : list str :=
  omap (fun ev => match ev with
                  | Host.EvSend _ command => Some command
                  | _ => None
                  end) tr.

(** The sessions that a trace leaves open: opened and not closed since. *)
Fixpoint live_after (tr : list Host.net_event) (opened : list Z) : list Z :=
  match tr with
  | [] => opened
  | Host.EvOpen sid _ _ _ :: rest => live_after rest (sid :: opened)
  | Host.EvClose sid :: rest =>
      live_after rest (filter (fun s => s <> sid) opened)
  | _ :: rest => live_after rest opened
  end.
Definition live (tr : list Host.net_event) : list Z := live_after tr [].

(** What a capture attempt leaves alone: the database, the audit log, the
    outside and the count of attempts. *)
Definition same_registers (w0 w : Host.World) : Prop :=
  Host.w_histories w = Host.w_histories w0
  /\ Host.w_devices w = Host.w_devices w0
  /\ Host.w_audit w = Host.w_audit w0
  /\ Host.w_db_session w = Host.w_db_session w0
  /\ Host.w_behaviour w = Host.w_behaviour w0
  /\ Host.w_environ w = Host.w_environ w0
  /\ Host.w_decrypt w = Host.w_decrypt w0
  /\ Host.w_attempts w = Host.w_attempts w0.

(** The state of an adapter [a0] at work, started on the host [w0]: the
    object is the same but for its connection [k]; if no session was open
    at the start, the only session open is [k]; every command sent since
    the start satisfies [P]. *)
Definition attempt_inv (a0 : Adapters.Adapter) (w0 : Host.World)
    (P : str -> Prop) (k : option Z) (s : Adapters.Obj) : Prop :=
  Adapters.cls s.1 = Adapters.cls a0
  /\ Adapters.device_info s.1 = Adapters.device_info a0
  /\ Adapters.config s.1 = Adapters.config a0
  /\ Adapters.connection s.1 = k
  /\ same_registers w0 s.2
  /\ (live (Host.w_trace w0) = [] -> live (Host.w_trace s.2) = option_list k)
  /\ exists l, sent (Host.w_trace s.2) = sent (Host.w_trace w0) ++ l /\ Forall P l.

(** The trigger command of the relay family, for the address of the
    receiving host, the device and the credentials of the FTP service. *)
Definition relay_command (server_ip : str) (device_id : Z) (user password : str)
    : str :=
  u "file upload cfg-startup startrun.dat ftp ipaddress " ++ server_ip
    ++ u " path zte/" ++ str_of_int device_id ++ u "/ user " ++ user
    ++ u " password " ++ password.

(** The FTP credentials the environment of a host gives. *)
Definition ftp_user_of (w : Host.World) : str :=
  default (u "leuitcss") (Host.w_environ w !! u "LEUITCSS_FTP_USER").
Definition ftp_password_of (w : Host.World) : str :=
  default [] (Host.w_environ w !! u "LEUITCSS_FTP_PASSWORD").

(** A step that changes nothing on the host but files. *)
Definition only_fs (w w' : Host.World) : Prop :=
  w' = Host.with_fs (Host.w_fs w') w.

(** The history object [_create_backup_history] makes on host [w]. *)
Definition fresh_history (device : Models.Device)
    (vendor_config : Config.VendorProfile) (triggered_by : str)
    (w : Host.World) : Models.BackupHistory :=
  {| Models.h_id := if Host.w_db_session w
                    then Some (Z.of_nat (length (Host.w_histories w)) + 1)
                    else None;
     Models.h_device_id := Models.id device;
     Models.h_device_name := Models.name device;
     Models.h_device_ip := Some (Models.ip_address device);
     Models.h_vendor := Models.vendor device;
     Models.h_connection_type := Some (Models.connection_type device);
     Models.h_backup_command := Some (Config.backup_command vendor_config);
     Models.h_status := Models.status_value Models.RUNNING;
     Models.h_started_at := Host.w_time w;
     Models.h_completed_at := None;
     Models.h_execution_time_seconds := None;
     Models.h_file_path := None;
     Models.h_file_size_bytes := None;
     Models.h_checksum_sha256 := None;
     Models.h_error_message := None;
     Models.h_triggered_by := triggered_by;
     Models.h_retry_count := 0 |}.

(** The host at the moment [backup_device] asks for the adapter: the start
    is in the audit log and the history object exists. *)
Definition begun (device : Models.Device) (vendor_config : Config.VendorProfile)
    (triggered_by : str) (w : Host.World) : Host.World :=
  Host.with_histories
    (Host.w_histories w ++ [fresh_history device vendor_config triggered_by w])
    (Host.with_audit
       (Host.w_audit w
          ++ [Host.BackupStart (Models.id device) (Models.name device)
                triggered_by]) w).

(** The host after the three closing statements of [backup_device]. *)
Definition settled (history : nat) (device : Models.Device) (ok : bool)
    (execution_time : option Z) (file_path : option Fs.path)
    (file_size : option Z) (checksum msg : option str) (w : Host.World)
    : Host.World :=
  ((Collector._update_backup_history history ok execution_time file_path
      file_size checksum msg ;;;
    Collector._update_device_status device
      (Models.status_value (if ok then Models.SUCCESS else Models.FAILED)) ;;;
    Collector.audit
      (Host.BackupComplete (Models.id device) (Models.name device) ok
         (if ok then checksum else msg))) w).2.

(** The id the database gives the next history row; none without a
    session. *)
Definition next_id (w : Host.World) : option Z :=
  if Host.w_db_session w
  then Some (Z.of_nat (length (Host.w_histories w)) + 1) else None.

(** The two checks [backup_device] makes before it starts: the vendor has
    an entry in the command table, and the entry allows the connection
    type of the device. *)
Definition accepted (self : Collector.BackupCollector) (device : Models.Device)
    : Prop :=
  exists vendor_config,
    Collector._get_vendor_config self (Models.vendor device) = Some vendor_config
    /\ Models.connection_type device ∈ Config.connection_types vendor_config.

(** The registry has an adapter class for the vendor of the device. *)
Definition has_adapter (device : Models.Device) : Prop :=
  exists a,
    Adapters.get_adapter (Models.vendor device)
      (Collector._prepare_device_info device) = Ret a.

(** What a call of [backup_device] that makes no retry leaves behind.
    Either it refused the device before any history was made; or there is
    one more history, closed, never retried, whose id is the one returned,
    and the adapter, if there is one, ran once. *)
Definition single_pass (self : Collector.BackupCollector)
    (device : Models.Device) (w : Host.World) (r : Collector.Result)
    (w' : Host.World) : Prop :=
  Host.w_db_session w' = Host.w_db_session w
  /\ ((~ accepted self device
       /\ Host.w_histories w' = Host.w_histories w
       /\ Host.w_attempts w' = Host.w_attempts w
       /\ Collector.success r = false)
      \/ (accepted self device
          /\ exists h,
               Host.w_histories w' = Host.w_histories w ++ [h]
               /\ Models.h_retry_count h = 0
               /\ Collector.history_id r = Models.h_id h
               /\ Models.h_id h = next_id w
               /\ is_Some (Models.h_completed_at h)
               /\ (has_adapter device ->
                   Host.w_attempts w' = S (Host.w_attempts w))
               /\ (~ has_adapter device ->
                   Host.w_attempts w' = Host.w_attempts w
                   /\ Collector.success r = false)
               /\ (Collector.success r = true ->
                   Models.h_status h = Models.status_value Models.SUCCESS))).

(** The host after [history.retry_count += 1]. *)
Definition bumped (history : nat) (w : Host.World) : Host.World :=
  Host.with_histories
    (alter Collector.bump_retry_count history (Host.w_histories w)) w.

End Logic.

(** ** A small installation to run the code on *)

Module Scenario.
Import Py Host Models.

(** A device that answers. *)
Definition answering : behaviour :=
  {| b_connect := ConnOk; b_connect_secs := 1; b_enable := None;
     b_send := Ret (u "hostname R1"); b_send_secs := 2;
     b_disconnect := None; b_ftp_active := true;
     b_route_ip := Ret (u "10.0.0.1"); b_inbox := fun _ => None |}.

(** A device that refuses the login, on a host whose FTP service is
    down. *)
Definition refusing : behaviour :=
  {| b_connect := ConnAuthFail; b_connect_secs := 1; b_enable := None;
     b_send := Ret (u "hostname R1"); b_send_secs := 2;
     b_disconnect := None; b_ftp_active := false;
     b_route_ip := Ret (u "10.0.0.1"); b_inbox := fun _ => None |}.

(** A relay device whose file is complete ten seconds after the start. *)
Definition uploading : behaviour :=
  {| b_connect := ConnOk; b_connect_secs := 1; b_enable := None;
     b_send := Ret []; b_send_secs := 2;
     b_disconnect := None; b_ftp_active := true;
     b_route_ip := Ret (u "10.0.0.1");
     b_inbox := fun t => if t <? 1700000010 then None else Some (u "olt") |}.

(** An outside that refuses the first attempt and answers the later
    ones. *)
Definition recovering (attempt : nat) : behaviour :=
  match attempt with
  | O => refusing
  | S _ => answering
  end.

Definition router (vendor : string) (id : Z) : Device :=
  {| id := id; name := u "R1"; vendor := u vendor;
     ip_address := u "192.0.2.1"; port := None; connection_type := u "ssh";
     username := u "enc-user"; password := u "enc-pass";
     enable_password := None; last_backup_status := None;
     last_backup_at := None |}.

(** The host at 2023-11-14 22:13:20 UTC with an empty disk. *)
Definition world (outside : nat -> behaviour) : World :=
  {| w_fs := ∅; w_time := 1700000000;
     w_environ := {[ u "LEUITCSS_FTP_PASSWORD" := u "secret" ]};
     w_decrypt := fun c => Ret c; w_behaviour := outside; w_attempts := 0;
     w_sessions := 0; w_trace := []; w_db_session := true;
     w_histories := []; w_devices := [router "zte" 7]; w_audit := [] |}.

Definition store : Storage.StorageManager :=
  {| Storage.base_path := [u "var"; u "lib"; u "leuitcss"; u "storage"] |}.

Definition collector : Collector.BackupCollector :=
  {| Collector.config := Config.get_config; Collector.storage := store |}.

(** One save of [content] for device 7 of vendor cisco. *)
Definition save (content : str) (timestamp : option Datetime.datetime)
    : M World Storage.SaveResult :=
  Storage.save_backup store (u "cisco") 7 (u "R1") (u "192.0.2.1") (u "ssh")
    (u "show running-config") content (u ".txt") 3 timestamp.

Definition noon : Datetime.datetime :=
  {| Datetime.year := 2024; Datetime.month := 2; Datetime.day := 29;
     Datetime.hour := 12; Datetime.minute := 0; Datetime.second := 0;
     Datetime.microsecond := 0 |}.

Definition noon_and_a_half : Datetime.datetime :=
  {| Datetime.year := 2024; Datetime.month := 2; Datetime.day := 29;
     Datetime.hour := 12; Datetime.minute := 0; Datetime.second := 0;
     Datetime.microsecond := 500000 |}.

End Scenario.
(** * Facts *)

(** ** Reasoning about computations *)

Section Triples.
Import Py Logic.
Context {S : Type}.


Lemma triple_weaken {A} (P P' : S -> Prop) (m : M S A) (Q Q' : outcome A -> S -> Prop) :
  triple P' m Q' -> (forall s, P s -> P' s) -> (forall o s, Q' o s -> Q o s) ->
  triple P m Q.
Proof. intros H HP HQ s Hs. apply HQ, H, HP, Hs. Qed.

Lemma triple_ret {A} (P : S -> Prop) (a : A) (Q : outcome A -> S -> Prop) :
  (forall s, P s -> Q (Ret a) s) -> triple P (ret a) Q.
Proof. intros H s Hs. apply H, Hs. Qed.

Lemma triple_raise {A} (P : S -> Prop) e (Q : outcome A -> S -> Prop) :
  (forall s, P s -> Q (Raise e) s) -> triple P (raise e) Q.
Proof. intros H s Hs. apply H, Hs. Qed.

Lemma triple_gets {A} (P : S -> Prop) (f : S -> A) (Q : outcome A -> S -> Prop) :
  (forall s, P s -> Q (Ret (f s)) s) -> triple P (gets f) Q.
Proof. intros H s Hs. apply H, Hs. Qed.

Lemma triple_get (P : S -> Prop) (Q : outcome S -> S -> Prop) :
  (forall s, P s -> Q (Ret s) s) -> triple P get Q.
Proof. intros H s Hs. apply H, Hs. Qed.

Lemma triple_modify (P : S -> Prop) (f : S -> S) (Q : outcome unit -> S -> Prop) :
  (forall s, P s -> Q (Ret tt) (f s)) -> triple P (modify f) Q.
Proof. intros H s Hs. apply H, Hs. Qed.

Lemma triple_bind {A B} (P : S -> Prop) (m : M S A) (k : A -> M S B)
    (Q1 : outcome A -> S -> Prop) (Q : outcome B -> S -> Prop) :
  triple P m Q1 ->
  (forall a, triple (Q1 (Ret a)) (k a) Q) ->
  (forall e s, Q1 (Raise e) s -> Q (Raise e) s) ->
  triple P (bind m k) Q.
Proof.
  intros Hm Hk He s Hs. specialize (Hm s Hs). unfold bind.
  destruct (m s) as [[a|e] s']; simpl in *.
  - apply (Hk a s' Hm).
  - apply He, Hm.
Qed.

Lemma triple_try_except {A} (P : S -> Prop) (m : M S A) (h : exn -> M S A)
    (Q1 Q : outcome A -> S -> Prop) :
  triple P m Q1 ->
  (forall a s, Q1 (Ret a) s -> Q (Ret a) s) ->
  (forall e, triple (Q1 (Raise e)) (h e) Q) ->
  triple P (try_except m h) Q.
Proof.
  intros Hm Hr Hh s Hs. specialize (Hm s Hs). unfold try_except.
  destruct (m s) as [[a|e] s']; simpl in *.
  - apply Hr, Hm.
  - apply (Hh e s' Hm).
Qed.

Lemma triple_try_finally {A} (P : S -> Prop) (m : M S A) (f : M S unit)
    (Q1 Q : outcome A -> S -> Prop) :
  triple P m Q1 ->
  (forall o, triple (Q1 o) f
               (fun o' s => match o' with
                            | Ret _ => Q o s
                            | Raise e => Q (Raise e) s
                            end)) ->
  triple P (try_finally m f) Q.
Proof.
  intros Hm Hf s Hs. specialize (Hm s Hs). unfold try_finally.
  destruct (m s) as [o s']; simpl in *.
  specialize (Hf o s' Hm). destruct (f s') as [[[]|e] s'']; simpl in *; exact Hf.
Qed.


Lemma returns_try_except {A} (m : M S A) (h : exn -> M S A) :
  (forall e, returns (h e)) -> returns (try_except m h).
Proof.
  intros Hh s. unfold try_except. destruct (m s) as [[a|e] s']; simpl; [eauto|].
  apply Hh.
Qed.

Lemma returns_try_finally {A} (m : M S A) (f : M S unit) :
  returns m -> returns f -> returns (try_finally m f).
Proof.
  intros Hm Hf s. unfold try_finally. destruct (Hm s) as [a Ha].
  destruct (m s) as [o s']; simpl in *; subst.
  destruct (Hf s') as [[] Hu]. destruct (f s') as [o' s'']; simpl in *; subst.
  eauto.
Qed.

Lemma returns_bind {A B} (m : M S A) (k : A -> M S B) :
  returns m -> (forall a, returns (k a)) -> returns (bind m k).
Proof.
  intros Hm Hk s. unfold bind. destruct (Hm s) as [a Ha].
  destruct (m s) as [o s']; simpl in *; subst. apply Hk.
Qed.

Lemma returns_ret {A} (a : A) : returns (ret (S := S) a).
Proof. intros s. eauto. Qed.

Lemma returns_gets {A} (f : S -> A) : returns (gets f).
Proof. intros s. eauto. Qed.

Lemma returns_modify (f : S -> S) : returns (modify f).
Proof. intros s. eauto. Qed.


Section Keeps.
Context (R : S -> S -> Prop) `{!Reflexive R} `{!Transitive R}.

Lemma keeps_ret {A} (a : A) : keeps R (ret a).
Proof. intros s. simpl. reflexivity. Qed.

Lemma keeps_raise {A} e : keeps R (raise (A := A) e).
Proof. intros s. simpl. reflexivity. Qed.

Lemma keeps_gets {A} (f : S -> A) : keeps R (gets f).
Proof. intros s. simpl. reflexivity. Qed.

Lemma keeps_pure {A} (o : outcome A) : keeps R (fun s => (o, s)).
Proof. intros s. simpl. reflexivity. Qed.

Lemma keeps_modify (f : S -> S) : (forall s, R s (f s)) -> keeps R (modify f).
Proof. intros H s. apply H. Qed.

Lemma keeps_bind {A B} (m : M S A) (k : A -> M S B) :
  keeps R m -> (forall a, keeps R (k a)) -> keeps R (bind m k).
Proof.
  intros Hm Hk s. specialize (Hm s). unfold bind.
  destruct (m s) as [[a|e] s']; simpl in *; [|done].
  etrans; [exact Hm | apply Hk].
Qed.

Lemma keeps_try_except {A} (m : M S A) (h : exn -> M S A) :
  keeps R m -> (forall e, keeps R (h e)) -> keeps R (try_except m h).
Proof.
  intros Hm Hh s. specialize (Hm s). unfold try_except.
  destruct (m s) as [[a|e] s']; simpl in *; [done|].
  etrans; [exact Hm | apply Hh].
Qed.

Lemma keeps_try_finally {A} (m : M S A) (f : M S unit) :
  keeps R m -> keeps R f -> keeps R (try_finally m f).
Proof.
  intros Hm Hf s. specialize (Hm s). unfold try_finally.
  destruct (m s) as [o s']; simpl in *. specialize (Hf s').
  destruct (f s') as [[[]|e] s'']; simpl in *; etrans; eauto.
Qed.
End Keeps.

End Triples.

Lemma keeps_zoom {S T A} (R : S -> S -> Prop) (R' : T -> T -> Prop)
    (rd : T -> S) (wr : S -> T -> T) (m : Py.M S A) :
  Logic.keeps R m -> (forall t s', R (rd t) s' -> R' t (wr s' t)) ->
  Logic.keeps R' (Py.zoom rd wr m).
Proof.
  intros Hm H t. unfold Py.zoom. specialize (Hm (rd t)).
  destruct (m (rd t)) as [o s']; simpl in *. apply H, Hm.
Qed.

(** ** The relay poll loop *)


(** ** The relay poll loop *)

Section Polling.
Import Py Host Adapters.

Lemma poll_loop_unfold inbox target start now :
  poll_loop inbox target start now =
    if decide (now - start < FTP_POLL_TIMEOUT) then
      match inbox now with
      | None => poll_loop inbox target start (now + FTP_POLL_INTERVAL)
      | Some _ =>
          match inbox (now + 1) with
          | None => (Raise (Fs.ENOENT target), now + 1)
          | Some content =>
              if decide (0 < Z.of_nat (length content))
              then (Ret (Some target), now + 1)
              else poll_loop inbox target start (now + 1 + FTP_POLL_INTERVAL)
          end
      end
    else (Ret None, now).
Proof.
  set (r1 := poll_loop inbox target start (now + FTP_POLL_INTERVAL)).
  set (r2 := poll_loop inbox target start (now + 1 + FTP_POLL_INTERVAL)).
  simp poll_loop.
  destruct (decide (now - start < FTP_POLL_TIMEOUT)); simpl; [|reflexivity].
  destruct (inbox now); simpl; [|reflexivity].
  destruct (inbox (now + 1)) as [content|]; simpl; [|reflexivity].
  destruct (decide (0 < Z.of_nat (length content))); reflexivity.
Qed.

(** With nothing ever in the drop location, [k] rounds before the budget
    is spent the loop still has exactly [k] sleeps to go. *)
Lemma poll_loop_absent inbox target start (k : nat) now :
  (forall t, inbox t = None) ->
  now - start = FTP_POLL_TIMEOUT - FTP_POLL_INTERVAL * Z.of_nat k ->
  poll_loop inbox target start now = (Ret None, start + FTP_POLL_TIMEOUT).
Proof.
  intros Hnone. revert now. induction k as [|k IH]; intros now Hnow.
  - rewrite poll_loop_unfold. unfold FTP_POLL_TIMEOUT, FTP_POLL_INTERVAL in *.
    destruct (decide _); [lia|]. f_equal. lia.
  - rewrite poll_loop_unfold. unfold FTP_POLL_TIMEOUT, FTP_POLL_INTERVAL in *.
    destruct (decide _); [|lia]. rewrite Hnone. apply IH. lia.
Qed.

(** Whatever the drop location shows, the loop ends less than one round
    (settle wait and sleep) past the budget, and a time-out is reported
    no earlier than the budget. *)
Lemma poll_loop_deadline inbox target start now :
  now - start < FTP_POLL_TIMEOUT + FTP_POLL_INTERVAL + 1 ->
  let r := poll_loop inbox target start now in
  r.2 - start < FTP_POLL_TIMEOUT + FTP_POLL_INTERVAL + 1
  /\ (r.1 = Ret None -> FTP_POLL_TIMEOUT <= r.2 - start).
Proof.
  funelim (poll_loop inbox target start now); clear Heqcall; simpl; intros Hnow.
  - split; [done | lia].
  - apply H. unfold FTP_POLL_TIMEOUT, FTP_POLL_INTERVAL in *. lia.
  - split; [|done]. unfold FTP_POLL_TIMEOUT, FTP_POLL_INTERVAL in *. lia.
  - split; [|done]. unfold FTP_POLL_TIMEOUT, FTP_POLL_INTERVAL in *. lia.
  - apply H. unfold FTP_POLL_TIMEOUT, FTP_POLL_INTERVAL in *. lia.
Qed.

(** What the loop accepts was there, and a second later had content. *)
Lemma poll_loop_accepts inbox target start now p t' :
  poll_loop inbox target start now = (Ret (Some p), t') ->
  p = target /\ now + 1 <= t' /\ is_Some (inbox (t' - 1))
  /\ exists content, inbox t' = Some content /\ 0 < Z.of_nat (length content).
Proof.
  funelim (poll_loop inbox target start now); clear Heqcall.
  - discriminate.
  - intros Heq'. destruct (H _ _ Heq') as (? & ? & ? & ?).
    unfold FTP_POLL_INTERVAL in *. repeat split; [done | lia | done | done].
  - discriminate.
  - intros [= <- <-]. replace (now + 1 - 1) with now by lia.
    repeat split; [lia | eauto | eauto].
  - intros Heq'. destruct (H _ _ Heq') as (? & ? & ? & ?).
    unfold FTP_POLL_INTERVAL in *. repeat split; [done | lia | done | done].
Qed.

End Polling.

(** ** UTF-8 *)

Section Utf8.
Import Py.

Local Ltac divmod_lia := Z.div_mod_to_equations; lia.

Local Ltac split_tests :=
  repeat match goal with
    | |- context [?a <? ?b] => destruct (Z.ltb_spec a b); try divmod_lia
    | |- context [?a <=? ?b] => destruct (Z.leb_spec a b); try divmod_lia
    | |- context [?a =? ?b] => destruct (Z.eqb_spec a b); try divmod_lia
    end; simpl.

Local Ltac same_cp :=
  match goal with
  | |- cons ?x <$> _ = cons ?c <$> _ => replace x with c by divmod_lia; reflexivity
  end.

(** The strict decoder reads back what the encoder wrote for one code
    point. *)
Lemma decode_encode_cp c b rest :
  encode_cp c = Some b ->
  decode_utf8 false (b ++ rest) = cons c <$> decode_utf8 false rest.
Proof.
  unfold encode_cp.
  destruct (Z.ltb_spec c 0); [done|].
  destruct (Z.ltb_spec c 128).
  { intros [= <-]. simpl. unfold between. split_tests. done. }
  destruct (Z.ltb_spec c 2048).
  { intros [= <-]. simpl. unfold between, lead_info. split_tests. same_cp. }
  destruct (Z.ltb_spec c 65536).
  { destruct (Z.leb_spec 55296 c); destruct (Z.leb_spec c 57343); simpl;
      try done; intros [= <-]; simpl; unfold between, lead_info;
      split_tests; same_cp. }
  destruct (Z.ltb_spec c 1114112); [|done].
  intros [= <-]. simpl. unfold between, lead_info. split_tests; same_cp.
Qed.

(** [s.encode('utf-8').decode('utf-8') == s] *)
Lemma decode_encode_utf8 s b :
  encode_utf8 s = Some b -> decode_utf8 false b = Some s.
Proof.
  revert b. induction s as [|c s IH]; intros b; simpl.
  - intros [= <-]. done.
  - destruct (encode_cp c) as [bc|] eqn:Hc; [|done].
    destruct (encode_utf8 s) as [bs|]; [|done].
    intros [= <-]. rewrite (decode_encode_cp _ _ _ Hc), (IH bs eq_refl). done.
Qed.

(** Line-end translation leaves a text without carriage returns as it
    is. *)
Lemma universal_newlines_id s : 13 ∉ s -> universal_newlines s = s.
Proof.
  induction s as [|c s IH]; [done|]. intros Hs.
  apply not_elem_of_cons in Hs as [Hc Hs]. simpl.
  destruct (Z.eqb_spec c 13); [congruence|]. by rewrite IH.
Qed.

Lemma universal_newlines_app s r :
  13 ∉ s -> universal_newlines (s ++ r) = s ++ universal_newlines r.
Proof.
  induction s as [|c s IH]; [done|]. intros Hs.
  apply not_elem_of_cons in Hs as [Hc Hs]. simpl.
  destruct (Z.eqb_spec c 13); [congruence|]. by rewrite IH.
Qed.

(** A text read back from a file it was written to. *)
Lemma text_read_write s b :
  text_write s = Some b -> text_read b = Some (universal_newlines s).
Proof.
  unfold text_write, text_read. intros H.
  by rewrite (decode_encode_utf8 _ _ H).
Qed.

Lemma encode_utf8_app s1 s2 b :
  encode_utf8 (s1 ++ s2) = Some b ->
  exists b1 b2, encode_utf8 s1 = Some b1 /\ encode_utf8 s2 = Some b2 /\ b = b1 ++ b2.
Proof.
  revert b. induction s1 as [|c s1 IH]; intros b; simpl.
  - intros H. exists [], b. done.
  - destruct (encode_cp c) as [bc|]; [|done].
    destruct (encode_utf8 (s1 ++ s2)) as [br|] eqn:Hr; [|done].
    intros [= <-]. destruct (IH br eq_refl) as (b1 & b2 & -> & -> & ->).
    exists (bc ++ b1), b2. by rewrite app_assoc.
Qed.

(** The first word of a text that starts with a non-empty run of
    non-blank characters followed by a blank. *)
Lemma split_go_word cur w r :
  Forall (fun c => is_space c = false) w ->
  split_go cur (w ++ 32 :: r) = rev (rev w ++ cur) :: split_go [] r \/
  (w = [] /\ cur = []).
Proof.
  revert cur. induction w as [|c w IH]; intros cur Hw; simpl.
  - destruct cur; [right; done | left; done].
  - apply Forall_cons in Hw as [Hc Hw]. rewrite Hc. left.
    destruct (IH (c :: cur) Hw) as [-> | [_ ?]]; [|done].
    by rewrite <- app_assoc.
Qed.

Lemma split_first_word w r :
  w <> [] -> Forall (fun c => is_space c = false) w ->
  exists rest, split (w ++ 32 :: r) = w :: rest.
Proof.
  intros Hne Hw. unfold split.
  destruct (split_go_word [] w r Hw) as [-> | [? _]]; [|done].
  rewrite app_nil_r, rev_involutive. eauto.
Qed.

End Utf8.

(** ** The shape of a digest *)

Section Digest.
Import Py Hashlib Logic.

Lemma round_length st kw : length st = 8%nat -> length (round st kw) = 8%nat.
Proof.
  intros H. do 9 (destruct st as [|? st]; try discriminate). reflexivity.
Qed.

Lemma compress_length h block : length h = 8%nat -> length (compress h block) = 8%nat.
Proof.
  intros H. unfold compress. rewrite length_zip_with.
  assert (Hfold : forall l st, length st = 8%nat -> length (foldl round st l) = 8%nat).
  { induction l as [|kw l IH]; intros st Hst; simpl; [done|].
    apply IH, round_length, Hst. }
  rewrite (Hfold _ _ H), H. reflexivity.
Qed.

Lemma blocks_length n h ws : length h = 8%nat -> length (blocks n h ws) = 8%nat.
Proof.
  revert h ws. induction n as [|n IH]; intros h ws H; simpl; [done|].
  apply IH, compress_length, H.
Qed.

Lemma sha256_length msg : length (sha256 msg) = 8%nat.
Proof. unfold sha256. apply blocks_length. reflexivity. Qed.

Lemma hex_digit_char x : hex_char (hex_digit (Z.land x 15)).
Proof.
  assert (H : 0 <= Z.land x 15 < 16).
  { change 15 with (Z.ones 4). rewrite Z.land_ones by lia.
    apply Z.mod_pos_bound. lia. }
  unfold hex_digit, hex_char, is_space.
  destruct (Z.ltb_spec (Z.land x 15) 10); split; try lia.
  all: repeat match goal with
         | |- context [?a <=? ?b] => destruct (Z.leb_spec a b); try lia
         | |- context [?a =? ?b] => destruct (Z.eqb_spec a b); try lia
         end; reflexivity.
Qed.

Lemma hex_word_chars n x : Forall hex_char (hex_word n x).
Proof.
  induction n as [|n IH]; simpl; constructor; [apply hex_digit_char | apply IH].
Qed.

Lemma hexdigest_chars msg : Forall hex_char (hexdigest msg).
Proof.
  unfold hexdigest. apply Forall_concat, Forall_forall.
  intros l Hl. apply list_elem_of_fmap in Hl as (w & -> & _).
  apply hex_word_chars.
Qed.

Lemma hexdigest_nonempty msg : hexdigest msg <> [].
Proof.
  unfold hexdigest. pose proof (sha256_length msg) as H.
  destruct (sha256 msg) as [|w ws]; [discriminate|]. simpl. discriminate.
Qed.

(** [text.split()[0]] of a checksum record is the digest. *)
Lemma checksum_record_first_word msg name :
  exists rest,
    split (universal_newlines (hexdigest msg ++ u "  " ++ name ++ [10]))
      = hexdigest msg :: rest.
Proof.
  pose proof (hexdigest_chars msg) as Hc.
  rewrite universal_newlines_app.
  2: { intros Hin. rewrite Forall_forall in Hc. destruct (Hc _ Hin). done. }
  change (u "  " ++ name ++ [10]) with (32 :: 32 :: name ++ [10]).
  assert (universal_newlines (32 :: 32 :: name ++ [10])
          = 32 :: universal_newlines (32 :: name ++ [10])) as -> by reflexivity.
  apply split_first_word; [apply hexdigest_nonempty|].
  eapply Forall_impl; [exact Hc|]. intros c [H _]. exact H.
Qed.

End Digest.

Arguments Hashlib.hexdigest : simpl never.
Arguments Hashlib.sha256 : simpl never.
Arguments Json.dumps : simpl never.
Arguments Datetime.strftime_compact : simpl never.
Arguments Datetime.isoformat : simpl never.
Arguments Datetime.utcfromtimestamp : simpl never.
Arguments Py.str_of_int : simpl never.
Arguments Py.u : simpl never.
Arguments Py.encode_utf8 : simpl never.
Arguments Py.decode_utf8 : simpl never.
Arguments Py.universal_newlines : simpl never.
Arguments Py.split : simpl never.
Arguments Logic.live : simpl never.
Arguments Logic.sent : simpl never.

(** ** Running computations backwards *)

Section Inversion.
Import Py Host.

Lemma bind_Ret {S A B} (m : M S A) (k : A -> M S B) s b s' :
  bind m k s = (Ret b, s') ->
  exists a s1, m s = (Ret a, s1) /\ k a s1 = (Ret b, s').
Proof.
  unfold bind. destruct (m s) as [[a|e] s1]; [eauto | discriminate].
Qed.

Lemma bind_run {S A B} (m : M S A) (k : A -> M S B) s a s1 :
  m s = (Ret a, s1) -> bind m k s = k a s1.
Proof. unfold bind. by intros ->. Qed.

Lemma bind_run_raise {S A B} (m : M S A) (k : A -> M S B) s e s1 :
  m s = (Raise e, s1) -> bind m k s = (Raise e, s1).
Proof. unfold bind. by intros ->. Qed.

Lemma on_fs_Ret {A} (m : M Fs.t A) w a w' :
  on_fs m w = (Ret a, w') ->
  exists fs', m (w_fs w) = (Ret a, fs') /\ w' = with_fs fs' w.
Proof.
  unfold on_fs, zoom. destruct (m (w_fs w)) as [o fs'].
  intros [= -> <-]. eauto.
Qed.

Lemma on_fs_run {A} (m : M Fs.t A) w o fs' :
  m (w_fs w) = (o, fs') -> on_fs m w = (o, with_fs fs' w).
Proof. unfold on_fs, zoom. by intros ->. Qed.

Lemma with_fs_with_fs f1 f2 w : with_fs f2 (with_fs f1 w) = with_fs f2 w.
Proof. reflexivity. Qed.

Lemma with_fs_same w : with_fs (w_fs w) w = w.
Proof. by destruct w. Qed.

End Inversion.

(** ** The file system *)

Section FsFacts.
Import Py Fs Logic.

Lemma parent_child (dir : path) (c : str) : parent (dir ++ [c]) = dir.
Proof. unfold parent. apply removelast_last. Qed.

Lemma child_not_root (dir : path) (c : str) : dir ++ [c] <> [].
Proof. by destruct dir. Qed.

Lemma stat_child (fs : t) (dir : path) (c : str) : stat fs (dir ++ [c]) = fs !! (dir ++ [c]).
Proof. unfold stat. by destruct dir. Qed.

Lemma child_inj (dir : path) (a b : str) : dir ++ [a] = dir ++ [b] -> a = b.
Proof. intros H. apply app_inv_head in H. congruence. Qed.

Lemma relative_to_app (base rest : path) : relative_to (base ++ rest) base = Some rest.
Proof.
  induction base as [|b base IH]; simpl; [done|].
  destruct (decide (b = b)); [exact IH | congruence].
Qed.

Lemma dir_chain_cons (fs : t) (cur : path) (c : str) (rest : list str) :
  dir_chain fs cur (c :: rest) <->
  fs !! (cur ++ [c]) = Some Dir /\ dir_chain fs (cur ++ [c]) rest.
Proof.
  unfold dir_chain. split.
  - intros H. split.
    + apply (H 1%nat). simpl. lia.
    + intros k Hk. rewrite <- app_assoc. apply (H (S k)). simpl. lia.
  - intros [H1 H2] k Hk. destruct k as [|k]; [lia|]. simpl.
    destruct k as [|k].
    + rewrite take_0. exact H1.
    + change (c :: take (S k) rest) with ([c] ++ take (S k) rest).
      rewrite app_assoc. apply H2. simpl in Hk. lia.
Qed.

Lemma mkdir_walk_cons (exist_ok : bool) (target cur : path) (c : str)
    (rest : list str) (fs : t) :
  mkdir_walk exist_ok target cur (c :: rest) fs =
    match rest with
    | [] =>
        match fs !! (cur ++ [c]) with
        | None => (Ret tt, <[cur ++ [c] := Dir]> fs)
        | Some Dir =>
            if exist_ok then (Ret tt, fs) else (Raise (EEXIST target), fs)
        | Some (File _ _) => (Raise (EEXIST target), fs)
        end
    | _ :: _ =>
        match fs !! (cur ++ [c]) with
        | None => mkdir_walk exist_ok target (cur ++ [c]) rest (<[cur ++ [c] := Dir]> fs)
        | Some Dir => mkdir_walk exist_ok target (cur ++ [c]) rest fs
        | Some (File _ _) => (Raise (ENOTDIR target), fs)
        end
    end.
Proof. destruct rest; reflexivity. Qed.

(** The walk only adds directories: what was there stays. *)
Lemma mkdir_walk_keeps (exist_ok : bool) (target cur : path) (comps : list str)
    (fs : t) (p : path) (n : node) :
  fs !! p = Some n -> (mkdir_walk exist_ok target cur comps fs).2 !! p = Some n.
Proof.
  revert cur fs. induction comps as [|c rest IH]; intros cur fs Hp.
  - simpl. by destruct exist_ok.
  - rewrite mkdir_walk_cons.
    destruct rest as [|c' rest']; cbv iota beta;
      destruct (fs !! (cur ++ [c])) as [[|]|] eqn:E; try done.
    + by destruct exist_ok.
    + cbn [snd]. rewrite lookup_insert_ne; [done | congruence].
    + by apply IH.
    + apply IH. rewrite lookup_insert_ne; [done | congruence].
Qed.

(** A creation that succeeds leaves the whole chain in place. *)
Lemma mkdir_walk_Ret (target cur : path) (comps : list str) (fs fs' : t) :
  mkdir_walk false target cur comps fs = (Ret tt, fs') ->
  dir_chain fs' cur comps.
Proof.
  revert cur fs. induction comps as [|c rest IH]; intros cur fs.
  - discriminate.
  - rewrite mkdir_walk_cons.
    destruct rest as [|c' rest']; cbv iota beta;
      destruct (fs !! (cur ++ [c])) as [[|]|] eqn:E; try discriminate.
    + intros [= <-]. apply dir_chain_cons. split.
      * apply lookup_insert_eq.
      * intros k Hk. simpl in Hk. lia.
    + intros H. apply dir_chain_cons. split; [|exact (IH _ _ H)].
      pose proof (mkdir_walk_keeps false target (cur ++ [c]) (c' :: rest') fs
                    _ _ E) as Hk.
      by rewrite H in Hk.
    + intros H. apply dir_chain_cons. split; [|exact (IH _ _ H)].
      pose proof (mkdir_walk_keeps false target (cur ++ [c]) (c' :: rest')
                    (<[cur ++ [c] := Dir]> fs) (cur ++ [c]) Dir
                    (lookup_insert_eq _ _ _)) as Hk.
      by rewrite H in Hk.
Qed.

(** Where the whole chain is in place, the exclusive creation is
    refused and nothing changes. *)
Lemma mkdir_walk_exists (target cur : path) (comps : list str) (fs : t) :
  dir_chain fs cur comps ->
  mkdir_walk false target cur comps fs = (Raise (EEXIST target), fs).
Proof.
  revert cur. induction comps as [|c rest IH]; intros cur H; [done|].
  rewrite mkdir_walk_cons.
  apply dir_chain_cons in H as [H1 H2]. rewrite H1.
  destruct rest as [|c' rest']; [done|]. by apply IH.
Qed.

Lemma write_text_Ret (p : path) (s : str) (fs fs' : t) :
  write_text p s fs = (Ret tt, fs') ->
  exists b mode, text_write s = Some b /\ fs' = <[p := File b mode]> fs.
Proof.
  unfold write_text. intros H. apply bind_Ret in H as ([] & fs1 & Ho & Hw).
  unfold open_w in Ho. unfold write in Hw.
  destruct (text_write s) as [b|]; [|discriminate]. exists b.
  destruct p as [|c p]; [discriminate|].
  destruct (stat fs (parent (c :: p))) as [[|]|]; try discriminate.
  destruct (fs !! (c :: p)) as [[|d mode]|] eqn:E; try discriminate.
  - destruct (owner_may_write mode); [|discriminate].
    injection Ho as <-. rewrite lookup_insert_eq in Hw. injection Hw as <-.
    exists mode. by rewrite insert_insert_eq.
  - injection Ho as <-. rewrite lookup_insert_eq in Hw. injection Hw as <-.
    exists 420. by rewrite insert_insert_eq.
Qed.

Lemma chmod_Ret_file (p : path) (mode : Z) (d : bytes) (m : Z) (fs fs' : t) :
  p <> [] -> fs !! p = Some (File d m) ->
  chmod p mode fs = (Ret tt, fs') -> fs' = <[p := File d mode]> fs.
Proof.
  intros Hp E. unfold chmod, stat. destruct p; [done|]. rewrite E. by intros [= <-].
Qed.

End FsFacts.

(** ** The storage manager *)

Section StorageFacts.
Import Py Host Storage Logic.

Lemma write_text_Ret' (p : Fs.path) (s : str) (fs fs' : Fs.t) :
  Fs.write_text p s fs = (Ret tt, fs') ->
  fs !! p <> Some Fs.Dir.
Proof.
  unfold Fs.write_text. intros H. apply bind_Ret in H as ([] & fs1 & Ho & _).
  unfold Fs.open_w in Ho. destruct p as [|c p]; [discriminate|].
  destruct (Fs.stat fs (Fs.parent (c :: p))) as [[|]|]; try discriminate.
  destruct (fs !! (c :: p)) as [[|d mode]|] eqn:E; done.
Qed.

Lemma encode_Ret {S} (s : str) (w : S) (b : bytes) (w' : S) :
  encode s w = (Ret b, w') -> encode_utf8 s = Some b /\ w' = w.
Proof.
  unfold encode. destruct (encode_utf8 s); [|discriminate].
  by intros [= -> ->].
Qed.

(** What a [try] body that returns has done. *)
Lemma save_backup_body_Ret self vendor device_id device_name device_ip
    connection_type backup_command config_output output_extension
    execution_time timestamp (w : World) (r : SaveResult) (w' : World) :
  save_backup_body self vendor device_id device_name device_ip connection_type
    backup_command config_output output_extension execution_time timestamp w
    = (Ret r, w') ->
  let dir := _get_backup_path self vendor device_id (effective timestamp w) in
  let name := u "config" ++ output_extension in
  let rel := [vendor; str_of_int device_id;
              Datetime.strftime_compact (effective timestamp w)] in
  exists (fs1 fsf : Fs.t) (enc record meta : bytes),
    Fs.mkdir_parents false dir (w_fs w) = (Ret tt, fs1)
    /\ encode_utf8 config_output = Some enc
    /\ text_write (Hashlib.hexdigest enc ++ u "  " ++ name ++ [10]) = Some record
    /\ r = {| success := true;
              file_path := Some (rel ++ [name]);
              metadata_path := Some (rel ++ [u "metadata.json"]);
              checksum_path := Some (rel ++ [u "checksum.sha256"]);
              checksum := Some (Hashlib.hexdigest enc);
              error := None;
              file_size := Some (Z.of_nat (length enc)) |}
    /\ w' = with_fs fsf w
    /\ fsf !! (dir ++ [name]) = Some (Fs.File enc 292)
    /\ fsf !! (dir ++ [u "metadata.json"]) = Some (Fs.File meta 292)
    /\ fsf !! (dir ++ [u "checksum.sha256"]) = Some (Fs.File record 292)
    /\ (forall p n, fs1 !! p = Some n ->
          p <> dir ++ [name] -> p <> dir ++ [u "metadata.json"] ->
          p <> dir ++ [u "checksum.sha256"] -> fsf !! p = Some n)
    /\ (forall p, fs1 !! p = Some Fs.Dir -> fsf !! p = Some Fs.Dir).
Proof.
  intros H dir name rel. unfold save_backup_body in H.
  apply bind_Ret in H as (ts & w1 & Hts & H).
  assert (ts = effective timestamp w /\ w1 = w) as [-> ->].
  { destruct timestamp; unfold ret, utcnow, gets in Hts; by injection Hts as <- <-. }
  fold dir in H.
  apply bind_Ret in H as ([] & w2 & Hmk & H).
  apply on_fs_Ret in Hmk as (fs1 & Hmk & ->).
  apply bind_Ret in H as (enc & w3 & Henc & H).
  apply encode_Ret in Henc as [Henc ->].
  fold name in H.
  apply bind_Ret in H as ([] & w4 & Hw1 & H).
  apply on_fs_Ret in Hw1 as (fs2 & Hw1 & ->). cbn [w_fs with_fs] in Hw1.
  pose proof (write_text_Ret' _ _ _ _ Hw1) as Hn1.
  apply write_text_Ret in Hw1 as (b1 & m1 & Hb1 & ->).
  unfold text_write in Hb1. rewrite Henc in Hb1. injection Hb1 as <-.
  apply bind_Ret in H as ([] & w5 & Hw2 & H).
  apply on_fs_Ret in Hw2 as (fs3 & Hw2 & ->). cbn [w_fs with_fs] in Hw2.
  pose proof (write_text_Ret' _ _ _ _ Hw2) as Hn2.
  apply write_text_Ret in Hw2 as (meta & m2 & Hmeta & ->).
  apply bind_Ret in H as ([] & w6 & Hw3 & H).
  apply on_fs_Ret in Hw3 as (fs4 & Hw3 & ->). cbn [w_fs with_fs] in Hw3.
  pose proof (write_text_Ret' _ _ _ _ Hw3) as Hn3.
  apply write_text_Ret in Hw3 as (record & m3 & Hrecord & ->).
  assert (Hcm : dir ++ [name] <> dir ++ [u "metadata.json"]).
  { intros Heq. apply child_inj in Heq. discriminate Heq. }
  assert (Hcc : dir ++ [name] <> dir ++ [u "checksum.sha256"]).
  { intros Heq. apply child_inj in Heq. discriminate Heq. }
  assert (Hmc : dir ++ [u "metadata.json"] <> dir ++ [u "checksum.sha256"]).
  { intros Heq. apply child_inj in Heq. discriminate Heq. }
  apply bind_Ret in H as ([] & w7 & Hc1 & H).
  apply on_fs_Ret in Hc1 as (fs5 & Hc1 & ->). cbn [w_fs with_fs] in Hc1.
  match type of Hc1 with
  | Fs.chmod ?p _ ?fs = _ =>
      assert (L5 : fs !! p = Some (Fs.File enc m1))
        by (rewrite ?lookup_insert_ne by done; apply lookup_insert_eq)
  end.
  apply (chmod_Ret_file _ _ _ _ _ _ (child_not_root _ _) L5) in Hc1. subst fs5.
  apply bind_Ret in H as ([] & w8 & Hc2 & H).
  apply on_fs_Ret in Hc2 as (fs6 & Hc2 & ->). cbn [w_fs with_fs] in Hc2.
  match type of Hc2 with
  | Fs.chmod ?p _ ?fs = _ =>
      assert (L6 : fs !! p = Some (Fs.File meta m2))
        by (rewrite ?lookup_insert_ne by done; apply lookup_insert_eq)
  end.
  apply (chmod_Ret_file _ _ _ _ _ _ (child_not_root _ _) L6) in Hc2. subst fs6.
  apply bind_Ret in H as ([] & w9 & Hc3 & H).
  apply on_fs_Ret in Hc3 as (fs7 & Hc3 & ->). cbn [w_fs with_fs] in Hc3.
  match type of Hc3 with
  | Fs.chmod ?p _ ?fs = _ =>
      assert (L7 : fs !! p = Some (Fs.File record m3))
        by (rewrite ?lookup_insert_ne by done; apply lookup_insert_eq)
  end.
  apply (chmod_Ret_file _ _ _ _ _ _ (child_not_root _ _) L7) in Hc3. subst fs7.
  unfold dir, _get_backup_path in H. rewrite relative_to_app in H.
  apply bind_Ret in H as (enc' & w10 & Henc' & H).
  apply encode_Ret in Henc' as [Henc' ->]. rewrite Henc in Henc'.
  injection Henc' as <-. unfold ret in H. injection H as <- <-.
  fold rel. fold dir name.
  assert (Hother : forall p n, fs1 !! p = Some n ->
            p <> dir ++ [name] -> p <> dir ++ [u "metadata.json"] ->
            p <> dir ++ [u "checksum.sha256"] ->
            (<[dir ++ [u "checksum.sha256"] := Fs.File record 292]>
               (<[dir ++ [u "metadata.json"] := Fs.File meta 292]>
                  (<[dir ++ [name] := Fs.File enc 292]>
                     (<[dir ++ [u "checksum.sha256"] := Fs.File record m3]>
                        (<[dir ++ [u "metadata.json"] := Fs.File meta m2]>
                           (<[dir ++ [name] := Fs.File enc m1]> fs1))))))
              !! p = Some n).
  { intros p n Hp H1 H2 H3. by rewrite !lookup_insert_ne. }
  eexists fs1, _, enc, record, meta. repeat split; try done.
  - rewrite !lookup_insert_ne by done. apply lookup_insert_eq.
  - rewrite lookup_insert_ne by done. apply lookup_insert_eq.
  - apply lookup_insert_eq.
  - intros p Hp. apply Hother; try done.
    + intros ->. apply Hn1, Hp.
    + intros ->. apply Hn2. rewrite lookup_insert_ne by done. exact Hp.
    + intros ->. apply Hn3. rewrite !lookup_insert_ne by done. exact Hp.
Qed.

Lemma same_second_strftime a b :
  same_second a b -> Datetime.strftime_compact a = Datetime.strftime_compact b.
Proof.
  intros (Hy & Hm & Hd & Hh & Hmi & Hs). unfold Datetime.strftime_compact.
  by rewrite Hy, Hm, Hd, Hh, Hmi, Hs.
Qed.

Lemma save_backup_run self vendor device_id device_name device_ip
    connection_type backup_command config_output output_extension
    execution_time timestamp (w : World) :
  save_backup self vendor device_id device_name device_ip connection_type
    backup_command config_output output_extension execution_time timestamp w
  = match save_backup_body self vendor device_id device_name device_ip
            connection_type backup_command config_output output_extension
            execution_time timestamp w with
    | (Ret r, w') => (Ret r, w')
    | (Raise e, w') => save_backup_handler e w'
    end.
Proof. reflexivity. Qed.

(** A save whose directory chain is already there is refused as an
    immutability violation and changes nothing. *)
Lemma save_backup_exists self vendor device_id device_name device_ip
    connection_type backup_command config_output output_extension
    execution_time timestamp (w : World) :
  dir_chain (w_fs w) []
    (_get_backup_path self vendor device_id (effective timestamp w)) ->
  save_backup self vendor device_id device_name device_ip connection_type
    backup_command config_output output_extension execution_time timestamp w
  = (Ret (with_error immutability_violation initial_result), w).
Proof.
  intros Hchain. rewrite save_backup_run. unfold save_backup_body.
  assert (Hts : match timestamp with
                | Some ts => ret ts
                | None => utcnow
                end w = (Ret (effective timestamp w), w)).
  { by destruct timestamp. }
  rewrite (bind_run _ _ _ _ _ Hts).
  erewrite bind_run_raise.
  2: { apply on_fs_run. apply mkdir_walk_exists, Hchain. }
  rewrite with_fs_same. reflexivity.
Qed.

End StorageFacts.

(** C10. [save_backup] never raises: for every input and every state of
    the host it returns a result; a result that is not a success carries
    an error string, and a success carries none. *)
Theorem save_backup_returns_result self vendor device_id device_name device_ip
    connection_type backup_command config_output output_extension
    execution_time timestamp (w : Host.World) :
  exists r w',
    Storage.save_backup self vendor device_id device_name device_ip
      connection_type backup_command config_output output_extension
      execution_time timestamp w = (Py.Ret r, w')
    /\ (Storage.success r = false -> exists msg, Storage.error r = Some msg)
    /\ (Storage.success r = true -> Storage.error r = None).
Proof.
  rewrite save_backup_run.
  destruct (Storage.save_backup_body _ _ _ _ _ _ _ _ _ _ _ w) as [[r|e] w1] eqn:Hb.
  - apply save_backup_body_Ret in Hb as (? & ? & ? & ? & ? & _ & _ & _ & -> & _).
    eexists _, _. split; [reflexivity|]. split; [discriminate | reflexivity].
  - unfold Storage.save_backup_handler.
    destruct (decide _); eexists _, _; (split; [reflexivity|]);
      (split; [intros _; eexists; reflexivity | discriminate]).
Qed.

(** C4. After a save for a vendor, device id and time stamp has succeeded,
    a save for the same vendor and device id at a time stamp in the same
    second, made while the directories of the first are still there, does
    not succeed: it returns the immutability-violation error and changes
    nothing on the host, so the three files of the first save stay as they
    were written. *)
Theorem save_backup_same_second_refused self vendor device_id
    device_name1 device_ip1 connection_type1 backup_command1 config_output1
    output_extension1 execution_time1 timestamp1
    device_name2 device_ip2 connection_type2 backup_command2 config_output2
    output_extension2 execution_time2 timestamp2
    (w : Host.World) (r1 : Storage.SaveResult) (w1 w2 : Host.World) :
  Storage.save_backup self vendor device_id device_name1 device_ip1
    connection_type1 backup_command1 config_output1 output_extension1
    execution_time1 timestamp1 w = (Py.Ret r1, w1) ->
  Storage.success r1 = true ->
  Logic.same_second (Logic.effective timestamp1 w) (Logic.effective timestamp2 w2) ->
  (forall p, Host.w_fs w1 !! p = Some Fs.Dir -> Host.w_fs w2 !! p = Some Fs.Dir) ->
  Storage.save_backup self vendor device_id device_name2 device_ip2
    connection_type2 backup_command2 config_output2 output_extension2
    execution_time2 timestamp2 w2
  = (Py.Ret {| Storage.success := false; Storage.file_path := None;
               Storage.metadata_path := None; Storage.checksum_path := None;
               Storage.checksum := None;
               Storage.error := Some Logic.immutability_violation;
               Storage.file_size := None |}, w2).
Proof.
  intros H1 Hok Hsame Hkept. rewrite save_backup_run in H1.
  destruct (Storage.save_backup_body _ _ _ _ _ _ _ _ _ _ _ w) as [[r|e] w'] eqn:Hb.
  - injection H1 as -> ->.
    apply save_backup_body_Ret in Hb
      as (fs1 & fsf & enc & record & meta & Hmk & _ & _ & _ & -> & _ & _ & _ & _ & Hdirs).
    apply save_backup_exists.
    unfold Storage._get_backup_path in *.
    rewrite <- (same_second_strftime _ _ Hsame).
    intros k Hk. apply Hkept. cbn [Host.w_fs Host.with_fs]. apply Hdirs.
    exact (mkdir_walk_Ret _ _ _ _ _ Hmk k Hk).
  - unfold Storage.save_backup_handler in H1.
    destruct (decide _); injection H1 as <- <-; discriminate.
Qed.

Lemma save_backup_same_second_refused_witness :
  (Scenario.save (Py.u "second") (Some Scenario.noon_and_a_half)
     (Scenario.save (Py.u "first") (Some Scenario.noon)
        (Scenario.world (fun _ => Scenario.answering))).2).1
  = Py.Ret {| Storage.success := false; Storage.file_path := None;
              Storage.metadata_path := None; Storage.checksum_path := None;
              Storage.checksum := None;
              Storage.error := Some Logic.immutability_violation;
              Storage.file_size := None |}.
Proof.
  destruct (Scenario.save (Py.u "first") (Some Scenario.noon)
              (Scenario.world (fun _ => Scenario.answering))) as [o1 w1] eqn:H1.
  assert (Ho : exists r1, o1 = Py.Ret r1 /\ Storage.success r1 = true).
  { replace o1 with (Scenario.save (Py.u "first") (Some Scenario.noon)
                       (Scenario.world (fun _ => Scenario.answering))).1
      by (rewrite H1; reflexivity).
    vm_compute. eexists. split; reflexivity. }
  destruct Ho as (r1 & -> & Hok). cbn [snd]. unfold Scenario.save in *.
  erewrite save_backup_same_second_refused;
    [reflexivity | exact H1 | exact Hok | repeat split | intros p Hp; exact Hp].
Defined.

(** ** Reading back and verifying *)

Section FsRuns.
Import Py Fs.

Lemma exists_child (fs : t) (dir : path) (c : str) (n : node) :
  fs !! (dir ++ [c]) = Some n -> exists_ (dir ++ [c]) fs = (Ret true, fs).
Proof.
  intros H. unfold exists_, gets. rewrite stat_child, H.
  by rewrite bool_decide_eq_true_2.
Qed.

Lemma read_bytes_child (fs : t) (dir : path) (c : str) (data : bytes) (mode : Z) :
  fs !! (dir ++ [c]) = Some (File data mode) -> owner_may_read mode = true ->
  read_bytes (dir ++ [c]) fs = (Ret data, fs).
Proof. intros H Hm. unfold read_bytes. by rewrite stat_child, H, Hm. Qed.

Lemma read_text_child (fs : t) (dir : path) (c : str) (data : bytes) (mode : Z)
    (s : str) :
  fs !! (dir ++ [c]) = Some (File data mode) -> owner_may_read mode = true ->
  text_read data = Some s ->
  read_text (dir ++ [c]) fs = (Ret s, fs).
Proof.
  intros H Hm Hs. unfold read_text.
  rewrite (bind_run _ _ _ _ _ (read_bytes_child _ _ _ _ _ H Hm)). by rewrite Hs.
Qed.

End FsRuns.

Section ReadBack.
Import Py Host Storage Logic.

Context (self : StorageManager) (vendor : str) (device_id : Z)
  (device_name device_ip connection_type backup_command : str)
  (config_output output_extension : str) (execution_time : Z)
  (timestamp : option Datetime.datetime)
  (w : World) (r : SaveResult) (w1 : World).

Hypothesis Hsave :
  save_backup self vendor device_id device_name device_ip connection_type
    backup_command config_output output_extension execution_time timestamp w
  = (Ret r, w1).
Hypothesis Hok : success r = true.

Let dir := _get_backup_path self vendor device_id (effective timestamp w).
Let name := u "config" ++ output_extension.

(** What a successful save leaves behind. *)
Lemma save_backup_success :
  exists (enc record : bytes),
    encode_utf8 config_output = Some enc
    /\ text_write (Hashlib.hexdigest enc ++ u "  " ++ name ++ [10]) = Some record
    /\ checksum r = Some (Hashlib.hexdigest enc)
    /\ (exists p, file_path r = Some p /\ base_path self ++ p = dir ++ [name])
    /\ w_fs w1 !! (dir ++ [name]) = Some (Fs.File enc 292)
    /\ w_fs w1 !! (dir ++ [u "checksum.sha256"]) = Some (Fs.File record 292).
Proof.
  rewrite save_backup_run in Hsave.
  destruct (save_backup_body _ _ _ _ _ _ _ _ _ _ _ w) as [[r'|e] w'] eqn:Hb.
  - injection Hsave as -> ->.
    apply save_backup_body_Ret in Hb
      as (fs1 & fsf & enc & record & meta & _ & Henc & Hrec & -> & -> & H1 & _ & H3 & _).
    exists enc, record. repeat split; try done.
    eexists. split; [reflexivity|]. unfold dir, _get_backup_path.
    by rewrite <- !app_assoc.
  - unfold save_backup_handler in Hsave.
    destruct (decide _); injection Hsave as <- <-; discriminate.
Qed.

(** [get_backup] on the path the save returned gives the saved text with
    its line ends translated. *)
Lemma get_backup_after_save p :
  file_path r = Some p ->
  get_backup self p w1 = (Ret (Some (universal_newlines config_output)), w1).
Proof.
  intros Hp.
  destruct save_backup_success as (enc & record & Henc & _ & _ & (p' & Hp' & Hfull) & Hcfg & _).
  rewrite Hp in Hp'. injection Hp' as <-.
  unfold get_backup. rewrite Hfull.
  rewrite (bind_run _ _ _ _ _ (on_fs_run _ _ _ _ (exists_child _ _ _ _ Hcfg))).
  rewrite with_fs_same. cbn [negb].
  rewrite (bind_run _ _ _ _ _
             (on_fs_run _ _ _ _
                (read_text_child _ _ _ _ _ _ Hcfg eq_refl (text_read_write _ _ Henc)))).
  by rewrite !with_fs_same.
Qed.

(** A text without carriage returns comes back as it was saved. *)
Lemma get_backup_round_trip p :
  file_path r = Some p -> 13 ∉ config_output ->
  get_backup self p w1 = (Ret (Some config_output), w1).
Proof.
  intros Hp Hcr. rewrite (get_backup_after_save p Hp).
  by rewrite universal_newlines_id.
Qed.

(** Whatever bytes [content] the stored file holds afterwards (the
    checksum record being as it was written), [verify_checksum] compares
    their digest with the recorded one. *)
Lemma verify_checksum_compares p (w2 : World) (content : bytes) (mode : Z) enc :
  file_path r = Some p ->
  encode_utf8 config_output = Some enc ->
  w_fs w2 !! (dir ++ [name]) = Some (Fs.File content mode) ->
  Fs.owner_may_read mode = true ->
  w_fs w2 !! (dir ++ [u "checksum.sha256"]) = w_fs w1 !! (dir ++ [u "checksum.sha256"]) ->
  verify_checksum self p w2
  = (Ret (bool_decide (Hashlib.hexdigest enc = Hashlib.hexdigest content)), w2).
Proof.
  intros Hp Henc Hcfg Hmode Hsame.
  destruct save_backup_success as (enc' & record & Henc' & Hrec & _ & (p' & Hp' & Hfull) & _ & Hchk).
  rewrite Henc in Henc'. injection Henc' as <-.
  rewrite Hp in Hp'. injection Hp' as <-.
  rewrite <- Hsame in Hchk.
  unfold verify_checksum. rewrite Hfull, parent_child.
  rewrite (bind_run _ _ _ _ _ (on_fs_run _ _ _ _ (exists_child _ _ _ _ Hcfg))).
  rewrite with_fs_same.
  rewrite (bind_run _ _ _ _ _ (on_fs_run _ _ _ _ (exists_child _ _ _ _ Hchk))).
  rewrite with_fs_same. cbn [negb orb].
  rewrite (bind_run _ _ _ _ _
             (on_fs_run _ _ _ _
                (read_text_child _ _ _ _ _ _ Hchk eq_refl (text_read_write _ _ Hrec)))).
  rewrite with_fs_same.
  destruct (checksum_record_first_word enc name) as [rest ->].
  rewrite (bind_run _ _ _ _ _
             (on_fs_run _ _ _ _ (read_bytes_child _ _ _ _ _ Hcfg Hmode))).
  by rewrite with_fs_same.
Qed.

(** Right after the save the check passes. *)
Lemma verify_checksum_after_save p :
  file_path r = Some p -> verify_checksum self p w1 = (Ret true, w1).
Proof.
  intros Hp.
  destruct save_backup_success as (enc & record & Henc & _ & _ & _ & Hcfg & _).
  rewrite (verify_checksum_compares p w1 enc 292 enc Hp Henc Hcfg eq_refl eq_refl).
  by rewrite bool_decide_eq_true_2.
Qed.

(** Bytes with another digest in the stored file make the check fail. *)
Lemma verify_checksum_detects p (content : bytes) enc :
  file_path r = Some p ->
  encode_utf8 config_output = Some enc ->
  Hashlib.hexdigest content <> Hashlib.hexdigest enc ->
  let w2 := with_fs (<[dir ++ [name] := Fs.File content 292]> (w_fs w1)) w1 in
  verify_checksum self p w2 = (Ret false, w2).
Proof.
  intros Hp Henc Hne w2.
  rewrite (verify_checksum_compares p w2 content 292 enc Hp Henc).
  - by rewrite bool_decide_eq_false_2.
  - unfold w2. cbn [w_fs with_fs]. apply lookup_insert_eq.
  - reflexivity.
  - unfold w2. cbn [w_fs with_fs]. rewrite lookup_insert_ne; [done|].
    intros Heq. apply child_inj in Heq. discriminate Heq.
Qed.

End ReadBack.

(** C5, at a text with a DOS line end.  The save succeeds and the check
    passes, but [get_backup] hands back another text than the one saved:
    the file holds the four octets of "a\r\nb" and the reader makes "a\nb"
    of them. *)
Theorem get_backup_alters_line_ends :
  let saved := Py.u "a" ++ [13; 10] ++ Py.u "b" in
  let run := Scenario.save saved None (Scenario.world (fun _ => Scenario.answering)) in
  exists r p,
    run.1 = Py.Ret r /\ Storage.success r = true /\ Storage.file_path r = Some p
    /\ Host.w_fs run.2 !! (Storage.base_path Scenario.store ++ p)
       = Some (Fs.File [97; 13; 10; 98] 292)
    /\ (Storage.verify_checksum Scenario.store p run.2).1 = Py.Ret true
    /\ (Storage.get_backup Scenario.store p run.2).1
       = Py.Ret (Some (Py.u "a" ++ [10] ++ Py.u "b"))
    /\ Py.u "a" ++ [10] ++ Py.u "b" <> saved.
Proof.
  eexists _, _. split; [vm_compute; reflexivity|].
  split; [reflexivity|]. split; [reflexivity|].
  split; [vm_compute; reflexivity|]. split; [vm_compute; reflexivity|].
  split; [vm_compute; reflexivity|]. vm_compute. discriminate.
Qed.

(** ** Invariants of a capture attempt *)

Section Preserved.
Import Py Logic.
Context {S : Type} (I : S -> Prop).

Lemma pres_ret {A} (a : A) : triple I (ret a) (fun _ => I).
Proof. by apply triple_ret. Qed.

Lemma pres_raise {A} e : triple I (raise (A := A) e) (fun _ => I).
Proof. by apply triple_raise. Qed.

Lemma pres_gets {A} (f : S -> A) : triple I (gets f) (fun _ => I).
Proof. by apply triple_gets. Qed.

Lemma pres_pure {A} (o : outcome A) : triple I (fun s => (o, s)) (fun _ => I).
Proof. intros s Hs. exact Hs. Qed.

Lemma pres_bind {A B} (m : M S A) (k : A -> M S B) :
  triple I m (fun _ => I) -> (forall a, triple I (k a) (fun _ => I)) ->
  triple I (bind m k) (fun _ => I).
Proof. intros Hm Hk. eapply triple_bind; [exact Hm | exact Hk | done]. Qed.

Lemma pres_try_except {A} (m : M S A) (h : exn -> M S A) :
  triple I m (fun _ => I) -> (forall e, triple I (h e) (fun _ => I)) ->
  triple I (try_except m h) (fun _ => I).
Proof. intros Hm Hh. eapply triple_try_except; [exact Hm | done | exact Hh]. Qed.

Lemma triple_exists {A X} (P : X -> S -> Prop) (m : M S A) Q :
  (forall x, triple (P x) m Q) -> triple (fun s => exists x, P x s) m Q.
Proof. intros H s [x Hx]. by apply (H x). Qed.

Lemma triple_pre {A} (P P' : S -> Prop) (m : M S A) Q :
  (forall s, P s -> P' s) -> triple P' m Q -> triple P m Q.
Proof. intros HP H s Hs. apply H, HP, Hs. Qed.

Lemma triple_post {A} (P : S -> Prop) (m : M S A) (Q Q' : outcome A -> S -> Prop) :
  (forall o s, Q' o s -> Q o s) -> triple P m Q' -> triple P m Q.
Proof. intros HQ H s Hs. apply HQ, H, Hs. Qed.

Lemma triple_assume {A} (F : Prop) (P : S -> Prop) (m : M S A) Q :
  (F -> triple P m Q) -> triple (fun s => F /\ P s) m Q.
Proof. intros H s [HF Hs]. by apply H. Qed.

Lemma triple_any {A} (P : S -> Prop) (m : M S A) :
  triple P m (fun _ _ => True).
Proof. done. Qed.

End Preserved.

Section Traces.
Import Host Logic.

Lemma live_after_app t1 t2 opened :
  live_after (t1 ++ t2) opened = live_after t2 (live_after t1 opened).
Proof.
  revert opened. induction t1 as [|ev t1 IH]; intros opened; [done|].
  destruct ev; simpl; apply IH.
Qed.

Lemma live_snoc tr ev :
  live (tr ++ [ev]) =
    match ev with
    | EvOpen sid _ _ _ => sid :: live tr
    | EvClose sid => filter (fun s => s <> sid) (live tr)
    | _ => live tr
    end.
Proof. unfold live. rewrite live_after_app. by destruct ev. Qed.

Lemma sent_snoc tr ev :
  sent (tr ++ [ev]) =
    match ev with
    | EvSend _ command => sent tr ++ [command]
    | _ => sent tr
    end.
Proof.
  unfold sent. rewrite omap_app. destruct ev; simpl; by rewrite ?app_nil_r.
Qed.

End Traces.

Section Attempt.
Import Py Host Adapters Logic.
Context (a0 : Adapter) (w0 : World) (P : str -> Prop).

Local Abbreviation Inv := (attempt_inv a0 w0 P).

(** A step of the host that leaves the registers and the trace alone
    leaves the invariant alone. *)
Lemma inv_quiet k (s : Obj) (w' : World) :
  Inv k s -> same_registers s.2 w' -> w_trace w' = w_trace s.2 ->
  Inv k (s.1, w').
Proof.
  intros (? & ? & ? & ? & Hreg & ? & ?) Hreg' Htr.
  unfold attempt_inv. cbn [fst snd]. rewrite Htr.
  repeat split; try done.
  all: unfold same_registers in *; destruct_and!; congruence.
Qed.

Lemma pres_host_quiet {A} k (m : M World A) :
  (forall w, same_registers w (m w).2 /\ w_trace (m w).2 = w_trace w) ->
  triple (Inv k) (host m) (fun _ => Inv k).
Proof.
  intros Hm s Hs. unfold host, zoom. destruct (Hm s.2) as [Hreg Htr].
  destruct (m s.2) as [o w']. cbn [fst snd] in *. by apply inv_quiet.
Qed.

Lemma same_registers_refl w : same_registers w w.
Proof. by repeat split. Qed.

Lemma pres_sleep k n : triple (Inv k) (host (sleep n)) (fun _ => Inv k).
Proof. apply pres_host_quiet. intros w. by split; [repeat split|]. Qed.

Lemma pres_time_time k : triple (Inv k) (host time_time) (fun _ => Inv k).
Proof. apply pres_host_quiet. intros w. by split; [repeat split|]. Qed.

Lemma pres_utcnow k : triple (Inv k) (host utcnow) (fun _ => Inv k).
Proof. apply pres_host_quiet. intros w. by split; [repeat split|]. Qed.

Lemma pres_environ_get k key dflt :
  triple (Inv k) (host (environ_get key dflt)) (fun _ => Inv k).
Proof. apply pres_host_quiet. intros w. by split; [repeat split|]. Qed.

Lemma pres_on_fs {A} (k : option Z) (m : M Fs.t A) :
  triple (Inv k) (host (on_fs m)) (fun _ => Inv k).
Proof.
  apply pres_host_quiet. intros w. unfold on_fs, zoom.
  destruct (m (w_fs w)) as [o fs']. by split; [repeat split|].
Qed.

Lemma pres_self k : triple (Inv k) self (fun _ => Inv k).
Proof. apply pres_gets. Qed.

Lemma pres_decrypt k c : triple (Inv k) (decrypt_credential c) (fun _ => Inv k).
Proof. intros s Hs. exact Hs. Qed.

(** An event that is neither the opening nor the closing of a session,
    and no command outside [P]. *)
Lemma pres_emit k ev :
  match ev with
  | EvOpen _ _ _ _ | EvClose _ => False
  | EvSend _ command => P command
  | _ => True
  end ->
  triple (Inv k) (host (emit ev)) (fun _ => Inv k).
Proof.
  intros Hev s (? & ? & ? & ? & Hreg & Hlive & l & Hsent & Hl).
  destruct Hreg as (? & ? & ? & ? & ? & ? & ? & ?).
  unfold attempt_inv, same_registers, host, zoom, emit, modify. cbn.
  rewrite live_snoc, sent_snoc. split_and!; try done.
  - intros Hquiet. specialize (Hlive Hquiet). by destruct ev.
  - destruct ev; try (by exists l).
    exists (l ++ [command]). rewrite Hsent, app_assoc. split; [done|].
    apply Forall_app. split; [done|]. by constructor.
Qed.

Local Ltac pres :=
  repeat first
    [ apply pres_bind; [|intros ?]
    | apply pres_try_except; [|intros ?]
    | apply pres_ret | apply pres_raise | apply pres_gets | apply pres_pure
    | apply pres_self | apply pres_decrypt | apply pres_sleep
    | apply pres_time_time | apply pres_utcnow | apply pres_environ_get
    | apply pres_on_fs
    | match goal with
      | |- triple _ (match ?x with _ => _ end) _ => destruct x
      | |- triple _ (if ?x then _ else _) _ => destruct x
      end ].

Lemma pres_get_connection_params k :
  triple (Inv k) _get_connection_params (fun _ => Inv k).
Proof. unfold _get_connection_params. cbv zeta. pres. Qed.

(** Opening a session: from no connection to the one just opened, or to
    none when the device refuses. *)
Lemma connect_handler_assign env params :
  triple (Inv None)
    (bind (ConnectHandler env params)
       (fun sid => bind (assign_connection (Some sid)) (fun _ => ret true)))
    (fun _ s => exists k, Inv k s).
Proof.
  intros s (? & ? & ? & ? & Hreg & Hlive & l & Hsent & Hl).
  destruct Hreg as (? & ? & ? & ? & ? & ? & ? & ?).
  unfold ConnectHandler, assign_connection, bind, host, zoom, sleep, emit,
    modify, gets, ret, raise.
  destruct (b_connect env); cbn.
  - exists (Some (w_sessions s.2)).
    unfold attempt_inv, same_registers. cbn. rewrite live_snoc, sent_snoc.
    split_and!; try done; [|by exists l]. intros Hquiet. by rewrite (Hlive Hquiet).
  - exists None. unfold attempt_inv, same_registers. cbn. split_and!; try done.
    by exists l.
  - exists None. unfold attempt_inv, same_registers. cbn. split_and!; try done.
    by exists l.
  - exists None. unfold attempt_inv, same_registers. cbn. split_and!; try done.
    by exists l.
Qed.

Lemma base_connect_spec env :
  triple (Inv None) (base_connect env) (fun _ s => exists k, Inv k s).
Proof.
  unfold base_connect.
  eapply triple_bind; [apply pres_self | intros a | intros e s Hs; by exists None].
  eapply triple_try_except with (Q1 := fun _ s => exists k, Inv k s).
  - eapply triple_bind; [apply pres_get_connection_params | intros params | ].
    + apply connect_handler_assign.
    + intros e s Hs. by exists None.
  - done.
  - intros e. apply triple_exists. intros k.
    eapply triple_weaken with (Q' := fun _ => Inv k);
      [| done | intros o s Hs; by exists k].
    pres.
Qed.

Lemma pres_enable k env : triple (Inv k) (enable env) (fun _ => Inv k).
Proof.
  unfold enable.
  eapply triple_bind; [apply pres_self | intros a | done].
  destruct (connection a); [|apply pres_raise].
  apply pres_bind; [by apply pres_emit | intros _].
  destruct (b_enable env); [apply pres_raise | apply pres_ret].
Qed.

Lemma connect_spec env :
  triple (Inv None) (connect env) (fun _ s => exists k, Inv k s).
Proof.
  unfold connect.
  eapply triple_bind; [apply pres_self | intros a | intros e s Hs; by exists None].
  destruct (cls a); try apply base_connect_spec.
  eapply triple_bind; [apply base_connect_spec | intros result | done].
  apply triple_exists. intros k.
  eapply triple_weaken with (Q' := fun _ => Inv k);
    [| done | intros o s Hs; by exists k].
  apply pres_bind; [|intros _; apply pres_ret].
  destruct (truthy_str _); [apply pres_enable | apply pres_ret].
Qed.

(** [disconnect] returns, and leaves no connection and no session open. *)
Lemma disconnect_spec k env :
  triple (Inv k) (disconnect env) (fun o s => o = Ret tt /\ Inv None s).
Proof.
  intros s (? & ? & ? & Hk & Hreg & Hlive & l & Hsent & Hl).
  destruct Hreg as (? & ? & ? & ? & ? & ? & ? & ?).
  unfold disconnect, bind, self, gets. cbn. rewrite Hk.
  destruct k as [sid|]; cbn.
  - unfold try_finally, try_except, bind, host, zoom, emit, modify,
      assign_connection, ret, raise. cbn.
    destruct (b_disconnect env); cbn; (split; [done|]);
      unfold attempt_inv, same_registers; cbn;
      rewrite live_snoc, sent_snoc;
      (split_and!; try done; [|by exists l]);
      intros Hquiet; rewrite (Hlive Hquiet); cbn;
      by rewrite decide_False by (intros Hne; by apply Hne).
  - split; [done|]. unfold attempt_inv, same_registers. split_and!; try done.
    by exists l.
Qed.

Lemma pres_send_command k env command :
  P command -> triple (Inv k) (send_command env command) (fun _ => Inv k).
Proof.
  intros HP. unfold send_command.
  eapply triple_bind; [apply pres_self | intros a | done].
  destruct (connection a); [|apply pres_raise].
  apply pres_bind; [by apply pres_emit | intros _].
  apply pres_bind; [apply pres_sleep | intros _]. apply pres_pure.
Qed.

Lemma pres_execute_backup k env :
  P (backup_command (cls a0)) ->
  triple (Inv k) (execute_backup env) (fun _ => Inv k).
Proof.
  intros HP. unfold execute_backup.
  eapply triple_bind with (Q1 := fun o s => Inv k s /\ forall a, o = Ret a -> cls a = cls a0).
  - intros s Hs. split; [exact Hs|]. intros a [= <-]. apply Hs.
  - intros a. cbn beta.
    eapply triple_weaken with (P' := fun s => cls a = cls a0 /\ Inv k s)
                              (Q' := fun _ => Inv k); [| |done].
    2: { intros s [Hs Ha]. split; [by apply Ha | done]. }
    intros s [Ha Hs]. revert s Hs.
    change (triple (Inv k)
              match connection a with
              | Some _ =>
                  bind (host time_time) (fun start_time =>
                  bind (send_command env (backup_command (cls a))) (fun output =>
                  bind (host time_time) (fun now => ret (output, now - start_time))))
              | None => raise (Exn RuntimeError (u "Not connected to device"))
              end (fun _ => Inv k)).
    rewrite Ha. destruct (connection a); [|apply pres_raise].
    apply pres_bind; [apply pres_time_time | intros start_time].
    apply pres_bind; [by apply pres_send_command | intros output].
    pres.
  - intros e s [Hs _]. exact Hs.
Qed.

Lemma pres_encode k (s : str) : triple (Inv k) (Storage.encode s) (fun _ => Inv k).
Proof. unfold Storage.encode. pres. Qed.

(** [VendorAdapter.backup] returns a result and closes what it opened. *)
Lemma base_backup_spec env :
  P (backup_command (cls a0)) ->
  triple (Inv None) (base_backup env)
    (fun o s => (exists r, o = Ret r) /\ Inv None s).
Proof.
  intros HP. unfold base_backup.
  eapply triple_bind with (Q1 := fun o s => (exists now, o = Ret now) /\ Inv None s).
  { intros s Hs. split; [by eexists | exact Hs]. }
  2: { intros e s [[? [=]] _]. }
  intros now. cbv zeta.
  apply (triple_pre _ (Inv None)); [by intros s [_ Hs]|].
  eapply triple_try_finally
    with (Q1 := fun o s => (exists r, o = Ret r) /\ exists k, Inv k s).
  - eapply triple_try_except
      with (Q1 := fun _ s => exists k, Inv k s).
    + eapply triple_bind; [apply connect_spec | intros ? | done].
      apply triple_exists. intros k.
      eapply triple_weaken with (Q' := fun _ => Inv k);
        [| done | intros o s Hs; by exists k].
      apply pres_bind; [by apply pres_execute_backup | intros r].
      apply pres_bind; [apply pres_encode | intros encoded]. apply pres_ret.
    + intros r s Hs. split; [by eexists | done].
    + intros e s Hs. split; [by eexists | done].
  - intros o s [[r ->] [k Hs]].
    destruct (disconnect_spec k env s Hs) as [Hd Hinv].
    rewrite Hd. split; [by eexists | done].
Qed.

(** *** The relay family *)

(** [_get_ftp_config] reads the credentials from the environment. *)
Lemma get_ftp_config_spec k env :
  triple (Inv k) (_get_ftp_config env)
    (fun o s => Inv k s /\
       forall c, o = Ret c ->
         ftp_enabled c = b_ftp_active env /\ ftp_user c = ftp_user_of w0
         /\ ftp_password c = ftp_password_of w0).
Proof.
  intros s Hs. pose proof Hs as (_ & _ & _ & _ & Hreg & _).
  destruct Hreg as (_ & _ & _ & _ & _ & Henv & _).
  unfold _get_ftp_config, _is_ftp_service_running, bind, ret, raise, host,
    zoom, environ_get, gets. cbn.
  destruct (int_of_str _); cbn; (split; [by destruct s|]); [|done].
  intros c [= <-]. cbn. unfold ftp_user_of, ftp_password_of.
  by rewrite Henv.
Qed.

Lemma pres_get_ftp_config k env :
  triple (Inv k) (_get_ftp_config env) (fun _ => Inv k).
Proof.
  eapply triple_post; [|apply get_ftp_config_spec]. by intros o s [Hs _].
Qed.

Lemma pres_get_server_ip k env :
  triple (Inv k) (_get_server_ip env) (fun _ => Inv k).
Proof. unfold _get_server_ip. cbv zeta. pres. Qed.

Lemma pres_get_ftp_inbox_path k env device_id :
  triple (Inv k) (_get_ftp_inbox_path env device_id) (fun _ => Inv k).
Proof.
  unfold _get_ftp_inbox_path.
  apply pres_bind; [apply pres_get_ftp_config | intros c]. cbv zeta. pres.
Qed.

Lemma pres_clear_inbox k env inbox_path :
  triple (Inv k) (_clear_inbox env inbox_path) (fun _ => Inv k).
Proof.
  unfold _clear_inbox. cbv zeta.
  apply pres_bind; [apply pres_time_time | intros now].
  destruct (b_inbox env now); [by apply pres_emit | apply pres_ret].
Qed.

Lemma pres_poll_for_file k env inbox_path :
  triple (Inv k) (_poll_for_file env inbox_path) (fun _ => Inv k).
Proof.
  unfold _poll_for_file. cbv zeta.
  apply pres_bind; [apply pres_time_time | intros start_time].
  intros s Hs. cbn. destruct s as [a w]. apply (inv_quiet k (a, w)); [done| |done].
  by repeat split.
Qed.

Lemma pres_read_drop k env p :
  triple (Inv k) (read_drop env p) (fun _ => Inv k).
Proof. unfold read_drop. pres. Qed.

(** The command [_build_ftp_upload_command] builds. *)
Lemma build_ftp_upload_command_spec k env device_id :
  triple (Inv k) (_build_ftp_upload_command env device_id)
    (fun o s => Inv k s /\
       forall command, o = Ret command ->
         exists server_ip,
           command = relay_command server_ip device_id (ftp_user_of w0)
                       (ftp_password_of w0)).
Proof.
  unfold _build_ftp_upload_command.
  eapply triple_bind; [apply get_ftp_config_spec | intros c | by intros e s [Hs _]].
  cbv zeta.
  apply (triple_pre _ (fun s => (ftp_user c = ftp_user_of w0
                                 /\ ftp_password c = ftp_password_of w0) /\ Inv k s)).
  { intros s [Hs Hc]. split; [|done]. by destruct (Hc c eq_refl) as (_ & ? & ?). }
  intros s [[Hu Hp] Hs].
  pose proof (pres_get_server_ip k env s Hs) as Hip. revert Hip.
  unfold bind. destruct (_get_server_ip env s) as [[ip|e] s1]; cbn; intros Hs1.
  - split; [done|]. intros command [= <-]. exists ip.
    unfold relay_command. rewrite Hu, Hp.
    rewrite <- !app_assoc. reflexivity.
  - split; [done|]. discriminate.
Qed.

Context (HPrelay : forall server_ip,
  P (relay_command server_ip (device_id (device_info a0)) (ftp_user_of w0)
       (ftp_password_of w0))).

(** [ZTEAdapter.backup] returns a result and closes what it opened. *)
Lemma zte_backup_spec env :
  triple (Inv None) (zte_backup env)
    (fun o s => (exists r, o = Ret r) /\ Inv None s).
Proof.
  unfold zte_backup.
  eapply triple_bind with (Q1 := fun o s => (exists x, o = Ret x) /\ Inv None s).
  { intros s Hs. split; [by eexists | exact Hs]. }
  2: { intros e s [[? [=]] _]. }
  intros now. cbv zeta. apply (triple_pre _ (Inv None)); [by intros s [_ Hs]|].
  eapply triple_bind with (Q1 := fun o s => (exists x, o = Ret x) /\ Inv None s).
  { intros s Hs. split; [by eexists | exact Hs]. }
  2: { intros e s [[? [=]] _]. }
  intros start_time. apply (triple_pre _ (Inv None)); [by intros s [_ Hs]|].
  eapply triple_bind
    with (Q1 := fun o s => Inv None s /\ exists a, o = Ret a /\ device_info a = device_info a0).
  { intros s Hs. split; [exact Hs|]. exists s.1. split; [done|]. apply Hs. }
  2: { intros e s [_ (a & [=] & _)]. }
  intros a. apply (triple_pre _ (fun s => device_info a = device_info a0 /\ Inv None s)).
  { intros s [Hs (a' & [= <-] & Ha)]. done. }
  intros s [Ha Hs]. revert s Hs. rewrite Ha.
  change (triple (Inv None)
            (try_finally
               (try_except
                  (bind (_get_ftp_config env) (fun ftp_config =>
                   bind (if negb (ftp_enabled ftp_config)
                         then raise (Exn RuntimeError
                                (u "FTP server is not enabled. Enable it in Web UI (ZTE FTP Ingestion)"))
                         else ret tt) (fun _ =>
                   bind (if bool_decide (ftp_password ftp_config = [])
                         then raise (Exn RuntimeError (u "FTP password not configured in .env file"))
                         else ret tt) (fun _ =>
                   bind (_get_ftp_inbox_path env (device_id (device_info a0))) (fun inbox_path =>
                   bind (_clear_inbox env inbox_path) (fun _ =>
                   bind (connect env) (fun _ =>
                   bind (_build_ftp_upload_command env (device_id (device_info a0))) (fun upload_command =>
                   bind (send_command env upload_command) (fun _ =>
                   bind (disconnect env) (fun _ =>
                   bind (_poll_for_file env inbox_path) (fun received =>
                   match received with
                   | None =>
                       raise (Exn RuntimeError
                                (u "FTP file not received within "
                                   ++ str_of_int FTP_POLL_TIMEOUT ++ u " seconds"))
                   | Some received_file =>
                       bind (read_drop env received_file) (fun content =>
                       bind (host time_time) (fun finish =>
                       ret {| success := true;
                              output := decode_utf8 true content;
                              execution_time := finish - start_time;
                              checksum := Some (Hashlib.hexdigest content);
                              error := None;
                              timestamp := Datetime.isoformat now;
                              file_path := Some received_file |}))
                   end)))))))))))
                  (fun e =>
                     bind (host time_time) (fun finish =>
                     ret {| success := false; output := None;
                            execution_time := finish - start_time;
                            checksum := None; error := Some (exn_str e);
                            timestamp := Datetime.isoformat now;
                            file_path := None |})))
               (disconnect env))
            (fun o s => (exists r, o = Ret r) /\ Inv None s)).
  eapply triple_try_finally
    with (Q1 := fun o s => (exists r, o = Ret r) /\ exists k, Inv k s).
  - eapply triple_try_except with (Q1 := fun _ s => exists k, Inv k s).
    + eapply triple_bind with (Q1 := fun _ => Inv None);
        [apply pres_get_ftp_config | intros c | intros e s Hs; by exists None].
      eapply triple_bind with (Q1 := fun _ => Inv None);
        [pres | intros ? | intros e s Hs; by exists None].
      eapply triple_bind with (Q1 := fun _ => Inv None);
        [pres | intros ? | intros e s Hs; by exists None].
      eapply triple_bind with (Q1 := fun _ => Inv None);
        [apply pres_get_ftp_inbox_path | intros inbox_path
        | intros e s Hs; by exists None].
      eapply triple_bind with (Q1 := fun _ => Inv None);
        [apply pres_clear_inbox | intros ? | intros e s Hs; by exists None].
      eapply triple_bind; [apply connect_spec | intros ? | done].
      apply triple_exists. intros k.
      eapply triple_bind; [apply build_ftp_upload_command_spec | intros command
                          | intros e s [Hs _]; by exists k].
      apply (triple_pre _ (fun s => P command /\ Inv k s)).
      { intros s [Hs Hc]. destruct (Hc command eq_refl) as (ip & ->).
        split; [apply HPrelay | done]. }
      apply triple_assume. intros Hcmd.
      eapply triple_bind with (Q1 := fun _ => Inv k);
        [by apply pres_send_command | intros ? | intros e s Hs; by exists k].
      eapply triple_bind; [apply disconnect_spec | intros ?
                          | intros e s [[=] _]].
      apply (triple_pre _ (Inv None)); [by intros s [_ Hs]|].
      eapply triple_post with (Q' := fun _ => Inv None);
        [intros o s Hs; by exists None|].
      apply pres_bind; [apply pres_poll_for_file | intros received].
      destruct received; [|apply pres_raise].
      apply pres_bind; [apply pres_read_drop | intros content]. pres.
    + intros r s Hs. split; [by eexists | done].
    + intros e. apply triple_exists. intros k.
      eapply triple_bind with (Q1 := fun o s => (exists x, o = Ret x) /\ Inv k s).
      * intros s Hs. split; [by eexists | exact Hs].
      * intros finish s [_ Hs]. cbn. split; [by eexists | by exists k].
      * intros e' s [[? [=]] _].
  - intros o s [[r ->] [k Hs]].
    destruct (disconnect_spec k env s Hs) as [Hd Hinv].
    rewrite Hd. split; [by eexists | done].
Qed.

End Attempt.

(** ** One capture attempt *)

Section OneAttempt.
Import Py Host Adapters Logic.

Lemma initial_inv (a : Adapter) (w : World) (P : str -> Prop) :
  connection a = None -> attempt_inv a w P None (a, w).
Proof.
  intros Hc. unfold attempt_inv, same_registers. cbn. split_and!; try done.
  exists []. by rewrite app_nil_r.
Qed.

(** [backup] returns a result, whatever the outside does, and leaves the
    adapter in a state described by the attempt invariant. *)
Lemma backup_spec (a : Adapter) (w : World) (P : str -> Prop) :
  connection a = None ->
  (cls a <> ZTEAdapter -> P (backup_command (cls a))) ->
  (cls a = ZTEAdapter ->
   forall server_ip,
     P (relay_command server_ip (device_id (device_info a)) (ftp_user_of w)
          (ftp_password_of w))) ->
  exists r a' w',
    backup (a, w) = (Ret r, (a', w'))
    /\ attempt_inv a (with_attempts (Datatypes.S (w_attempts w)) w) P None (a', w').
Proof.
  intros Hc Hbase Hrelay.
  set (w0 := with_attempts (Datatypes.S (w_attempts w)) w).
  set (env := w_behaviour w (w_attempts w)).
  assert (Hrun : backup (a, w) =
                 match cls a with
                 | ZTEAdapter => zte_backup env (a, w0)
                 | _ => base_backup env (a, w0)
                 end).
  { unfold backup, bind, host, zoom, gets, modify, self. cbn.
    by destruct (cls a). }
  rewrite Hrun. pose proof (initial_inv a w0 P Hc) as Hinit.
  destruct (decide (cls a = ZTEAdapter)) as [Hz|Hz].
  - rewrite Hz. pose proof (zte_backup_spec a w0 P (Hrelay Hz) env _ Hinit) as Hs.
    destruct (zte_backup env (a, w0)) as [o [a' w']]. cbn [fst snd] in Hs.
    destruct Hs as [[r ->] Hinv]. by exists r, a', w'.
  - pose proof (base_backup_spec a w0 P env (Hbase Hz) _ Hinit) as Hs.
    assert (Hb : match cls a with
                 | ZTEAdapter => zte_backup env (a, w0)
                 | _ => base_backup env (a, w0)
                 end = base_backup env (a, w0)) by (by destruct (cls a)).
    rewrite Hb. destruct (base_backup env (a, w0)) as [o [a' w']].
    cbn [fst snd] in Hs. destruct Hs as [[r ->] Hinv]. by exists r, a', w'.
Qed.

(** [disconnect] always returns. *)
Lemma disconnect_returns env (s : Obj) : (disconnect env s).1 = Ret tt.
Proof.
  unfold disconnect, bind, self, gets. cbn. destruct (connection s.1); [|done].
  unfold try_finally, try_except, bind, host, zoom, emit, modify,
    assign_connection, ret, raise. cbn. by destruct (b_disconnect env).
Qed.

(** With nothing ever at the drop location [_poll_for_file] returns
    [None], after exactly the budget. *)
Lemma poll_for_file_absent env inbox_path (s : Obj) :
  (forall t, b_inbox env t = None) ->
  _poll_for_file env inbox_path s
  = (Ret None, (s.1, with_time (w_time s.2 + FTP_POLL_TIMEOUT) s.2)).
Proof.
  intros Hnone. unfold _poll_for_file, bind, host, zoom, time_time, gets. cbn.
  rewrite (poll_loop_absent _ _ _ 40 _ Hnone); [done|].
  unfold FTP_POLL_TIMEOUT, FTP_POLL_INTERVAL. lia.
Qed.

End OneAttempt.

(** C7. Every run of an adapter's [backup] from a fresh object returns a
    result instead of raising, and on return the connection field is
    [None]; if no session was open on the host before the call, none is
    open after it: the session the attempt opened has been closed. *)
Theorem backup_always_disconnects (a : Adapters.Adapter) (w : Host.World) :
  Adapters.connection a = None ->
  exists r a' w',
    Adapters.backup (a, w) = (Py.Ret r, (a', w'))
    /\ Adapters.connection a' = None
    /\ (Logic.live (Host.w_trace w) = [] -> Logic.live (Host.w_trace w') = []).
Proof.
  intros Hc.
  destruct (backup_spec a w (fun _ => True) Hc) as (r & a' & w' & Hrun & Hinv);
    [done | done |].
  exists r, a', w'. split; [exact Hrun|].
  destruct Hinv as (_ & _ & _ & Hk & _ & Hlive & _). by split.
Qed.

Lemma backup_always_disconnects_witness :
  exists r a' w',
    Adapters.backup
      ({| Adapters.cls := Adapters.CiscoAdapter;
          Adapters.config := Config.get_config;
          Adapters.device_info :=
            Collector._prepare_device_info (Scenario.router "cisco" 7);
          Adapters.connection := None |},
       Scenario.world (fun _ => Scenario.refusing))
    = (Py.Ret r, (a', w'))
    /\ Adapters.connection a' = None
    /\ (Logic.live (Host.w_trace (Scenario.world (fun _ => Scenario.refusing))) = []
        -> Logic.live (Host.w_trace w') = []).
Proof. apply backup_always_disconnects. reflexivity. Defined.

(** ** Runs of the adapter methods *)

Section AdapterRuns.
Import Py Host Adapters Logic.

Lemma host_run {A} (m : M World A) (a : Adapter) (w : World) o w' :
  m w = (o, w') -> host m (a, w) = (o, (a, w')).
Proof. unfold host, zoom. cbn [fst snd]. by intros ->. Qed.

(** With credentials that decrypt, the parameters are built and nothing
    changes. *)
Lemma get_connection_params_run (a : Adapter) (w : World) :
  (forall c, exists s, w_decrypt w c = Ret s) ->
  exists params,
    _get_connection_params (a, w) = (Ret params, (a, w))
    /\ p_host params = ip_address (device_info a)
    /\ p_device_type params
       = (if bool_decide (connection_type (device_info a) = u "telnet")
          then device_type (cls a) ++ u "_telnet" else device_type (cls a))
    /\ p_port params
       = (if truthy_int (port (device_info a))
          then default 0 (port (device_info a))
          else if bool_decide (connection_type (device_info a) = u "telnet")
               then Config.DEFAULT_TELNET_PORT (config a)
               else Config.DEFAULT_SSH_PORT (config a)).
Proof.
  intros Hdec. unfold _get_connection_params, bind, self, gets, decrypt_credential.
  cbn [fst snd].
  destruct (Hdec (username (device_info a))) as [us ->].
  destruct (Hdec (password (device_info a))) as [pw ->].
  destruct (Hdec (default [] (enable_password (device_info a)))) as [se Hse].
  destruct (truthy_str (enable_password (device_info a)));
    cbn [fst snd]; rewrite ?Hse; by eexists.
Qed.

Lemma connect_handler_refused (env : behaviour) (p : Params) (a : Adapter)
    (w : World) :
  b_connect env = ConnAuthFail ->
  ConnectHandler env p (a, w)
  = (Raise (Exn NetmikoAuthenticationException
              (u "Authentication to device failed.")),
     (a, with_time (w_time w + Z.of_nat (b_connect_secs env)) w)).
Proof.
  intros Hc. unfold ConnectHandler. rewrite Hc.
  erewrite bind_run; [|apply host_run; reflexivity]. reflexivity.
Qed.

Lemma connect_handler_ok (env : behaviour) (p : Params) (a : Adapter)
    (w : World) :
  b_connect env = ConnOk ->
  ConnectHandler env p (a, w)
  = (Ret (w_sessions w),
     (a, with_trace
           (w_trace w ++ [EvOpen (w_sessions w) (p_host p) (p_device_type p)
                            (p_port p)])
           (with_sessions (w_sessions w + 1)
              (with_time (w_time w + Z.of_nat (b_connect_secs env)) w)))).
Proof.
  intros Hc. unfold ConnectHandler. rewrite Hc.
  erewrite bind_run; [|apply host_run; reflexivity].
  erewrite bind_run; [|apply host_run; reflexivity].
  erewrite bind_run; [|apply host_run; reflexivity].
  erewrite bind_run; [|apply host_run; reflexivity].
  reflexivity.
Qed.

Lemma base_connect_refused (env : behaviour) (a : Adapter) (w : World) :
  (forall c, exists s, w_decrypt w c = Ret s) ->
  b_connect env = ConnAuthFail ->
  base_connect env (a, w)
  = (Raise (Exn ConnectionError
              (u "Authentication failed for " ++ ip_address (device_info a))),
     (a, with_time (w_time w + Z.of_nat (b_connect_secs env)) w)).
Proof.
  intros Hdec Hc.
  destruct (get_connection_params_run a w Hdec) as (params & Hp & _).
  unfold base_connect. unfold bind at 1, self at 1, gets at 1. cbn [fst].
  unfold try_except. rewrite (bind_run _ _ _ _ _ Hp).
  erewrite bind_run_raise; [|by apply connect_handler_refused].
  reflexivity.
Qed.

Lemma connect_refused (env : behaviour) (a : Adapter) (w : World) :
  (forall c, exists s, w_decrypt w c = Ret s) ->
  b_connect env = ConnAuthFail ->
  connect env (a, w)
  = (Raise (Exn ConnectionError
              (u "Authentication failed for " ++ ip_address (device_info a))),
     (a, with_time (w_time w + Z.of_nat (b_connect_secs env)) w)).
Proof.
  intros Hdec Hc. unfold connect. unfold bind at 1, self at 1, gets at 1.
  cbn [fst].
  destruct (cls a); try by apply base_connect_refused.
  erewrite bind_run_raise; [reflexivity|]. by apply base_connect_refused.
Qed.

Lemma base_connect_ok (env : behaviour) (a : Adapter) (w : World) :
  (forall c, exists s, w_decrypt w c = Ret s) ->
  b_connect env = ConnOk ->
  exists params,
    _get_connection_params (a, w) = (Ret params, (a, w))
    /\ base_connect env (a, w)
       = (Ret true,
          (set_connection (Some (w_sessions w)) a,
           with_trace
             (w_trace w ++ [EvOpen (w_sessions w) (p_host params)
                              (p_device_type params) (p_port params)])
             (with_sessions (w_sessions w + 1)
                (with_time (w_time w + Z.of_nat (b_connect_secs env)) w)))).
Proof.
  intros Hdec Hc.
  destruct (get_connection_params_run a w Hdec) as (params & Hp & _).
  exists params. split; [done|].
  unfold base_connect. unfold bind at 1, self at 1, gets at 1. cbn [fst].
  unfold try_except. rewrite (bind_run _ _ _ _ _ Hp).
  erewrite bind_run; [|by apply connect_handler_ok].
  reflexivity.
Qed.

Lemma connect_ok (env : behaviour) (a : Adapter) (w : World) :
  (forall c, exists s, w_decrypt w c = Ret s) ->
  b_connect env = ConnOk ->
  truthy_str (enable_password (device_info a)) = false ->
  exists params,
    _get_connection_params (a, w) = (Ret params, (a, w))
    /\ connect env (a, w)
       = (Ret true,
          (set_connection (Some (w_sessions w)) a,
           with_trace
             (w_trace w ++ [EvOpen (w_sessions w) (p_host params)
                              (p_device_type params) (p_port params)])
             (with_sessions (w_sessions w + 1)
                (with_time (w_time w + Z.of_nat (b_connect_secs env)) w)))).
Proof.
  intros Hdec Hc Hen.
  destruct (base_connect_ok env a w Hdec Hc) as (params & Hp & Hrun).
  exists params. split; [done|].
  unfold connect. unfold bind at 1, self at 1, gets at 1. cbn [fst].
  destruct (cls a); try exact Hrun.
  rewrite (bind_run _ _ _ _ _ Hrun), Hen. reflexivity.
Qed.

Lemma send_command_run (env : behaviour) (command : str) (a : Adapter)
    (w : World) (sid : Z) :
  connection a = Some sid ->
  send_command env command (a, w)
  = (b_send env,
     (a, with_time (w_time w + Z.of_nat (b_send_secs env))
           (with_trace (w_trace w ++ [EvSend sid command]) w))).
Proof.
  intros Hconn.
  unfold send_command. unfold bind at 1, self at 1, gets at 1. cbn [fst].
  rewrite Hconn.
  erewrite bind_run; [|apply host_run; reflexivity].
  erewrite bind_run; [|apply host_run; reflexivity].
  reflexivity.
Qed.

Lemma execute_backup_ok (env : behaviour) (a : Adapter) (w : World) (sid : Z)
    (text : str) :
  connection a = Some sid ->
  b_send env = Ret text ->
  execute_backup env (a, w)
  = (Ret (text, Z.of_nat (b_send_secs env)),
     (a, with_time (w_time w + Z.of_nat (b_send_secs env))
           (with_trace (w_trace w ++ [EvSend sid (backup_command (cls a))]) w))).
Proof.
  intros Hconn Hsend.
  unfold execute_backup. unfold bind at 1, self at 1, gets at 1. cbn [fst].
  rewrite Hconn.
  erewrite bind_run; [|apply host_run; reflexivity].
  erewrite bind_run; [|rewrite (send_command_run _ _ _ _ _ Hconn), Hsend; reflexivity].
  erewrite bind_run; [|apply host_run; reflexivity].
  unfold ret. cbn [w_time with_time with_trace]. do 3 f_equal. lia.
Qed.

(** [disconnect] on an open session: the close is asked for, what it
    raises is dropped, and the object forgets the session. *)
Lemma disconnect_open (env : behaviour) (a : Adapter) (w : World) (sid : Z) :
  connection a = Some sid ->
  disconnect env (a, w)
  = (Ret tt, (set_connection None a, with_trace (w_trace w ++ [EvClose sid]) w)).
Proof.
  intros Hconn.
  unfold disconnect. unfold bind at 1, self at 1, gets at 1. cbn [fst].
  rewrite Hconn. unfold try_finally, try_except.
  erewrite bind_run; [|apply host_run; reflexivity].
  by destruct (b_disconnect env).
Qed.

End AdapterRuns.

Section RelayRuns.
Import Py Host Adapters Logic.

(** The FTP settings, read without a change when the port is a number. *)
Lemma get_ftp_config_run (env : behaviour) (a : Adapter) (w : World) (port : Z) :
  int_of_str (default (u "21") (w_environ w !! u "LEUITCSS_FTP_PORT"))
  = Some port ->
  _get_ftp_config env (a, w)
  = (Ret {| ftp_enabled := b_ftp_active env;
            ftp_port := port;
            ftp_user := ftp_user_of w;
            ftp_password := ftp_password_of w;
            ftp_root := default (u "/var/lib/leuitcss/ftp-ingestion")
                          (w_environ w !! u "LEUITCSS_FTP_ROOT") |},
     (a, w)).
Proof.
  intros Hport. unfold _get_ftp_config, _is_ftp_service_running.
  unfold bind, ret, host, zoom, environ_get, gets.
  cbn [fst snd]. rewrite Hport. reflexivity.
Qed.

Lemma get_server_ip_run (env : behaviour) (a : Adapter) (w : World) (ip : str) :
  b_route_ip env = Ret ip ->
  exists server_ip, _get_server_ip env (a, w) = (Ret server_ip, (a, w)).
Proof.
  intros Hip. unfold _get_server_ip.
  erewrite bind_run; [|apply host_run; reflexivity].
  destruct (strip _); [rewrite Hip|]; by eexists.
Qed.

Lemma build_ftp_upload_command_run (env : behaviour) (device_id : Z)
    (a : Adapter) (w : World) (port : Z) (ip : str) :
  int_of_str (default (u "21") (w_environ w !! u "LEUITCSS_FTP_PORT"))
  = Some port ->
  b_route_ip env = Ret ip ->
  exists server_ip,
    _build_ftp_upload_command env device_id (a, w)
    = (Ret (relay_command server_ip device_id (ftp_user_of w)
              (ftp_password_of w)), (a, w)).
Proof.
  intros Hport Hip.
  destruct (get_server_ip_run env a w ip Hip) as (server_ip & Hsrv).
  exists server_ip. unfold _build_ftp_upload_command.
  rewrite (bind_run _ _ _ _ _ (get_ftp_config_run env a w port Hport)).
  rewrite (bind_run _ _ _ _ _ Hsrv).
  unfold ret, relay_command. cbn [ftp_user ftp_password].
  do 2 f_equal. by rewrite <- !app_assoc.
Qed.

Lemma get_ftp_inbox_path_run (env : behaviour) (device_id : Z) (a : Adapter)
    (w : World) (port : Z) (fs1 : Fs.t) :
  int_of_str (default (u "21") (w_environ w !! u "LEUITCSS_FTP_PORT"))
  = Some port ->
  let inbox_path :=
    Fs.of_str (default (u "/var/lib/leuitcss/ftp-ingestion")
                 (w_environ w !! u "LEUITCSS_FTP_ROOT"))
      ++ [u "zte"; str_of_int device_id] in
  Fs.mkdir_parents true inbox_path (w_fs w) = (Ret tt, fs1) ->
  _get_ftp_inbox_path env device_id (a, w)
  = (Ret inbox_path, (a, with_fs fs1 w)).
Proof.
  intros Hport inbox_path Hmk. unfold _get_ftp_inbox_path.
  rewrite (bind_run _ _ _ _ _ (get_ftp_config_run env a w port Hport)).
  cbn [ftp_root]. fold inbox_path.
  erewrite bind_run; [|apply host_run, on_fs_run, Hmk]. reflexivity.
Qed.

Lemma clear_inbox_absent (env : behaviour) (inbox_path : Fs.path) (a : Adapter)
    (w : World) :
  b_inbox env (w_time w) = None ->
  _clear_inbox env inbox_path (a, w) = (Ret tt, (a, w)).
Proof.
  intros Hnone. unfold _clear_inbox.
  erewrite bind_run; [|apply host_run; reflexivity]. by rewrite Hnone.
Qed.

Lemma disconnect_closed (env : behaviour) (a : Adapter) (w : World) :
  connection a = None -> disconnect env (a, w) = (Ret tt, (a, w)).
Proof.
  intros Hconn. unfold disconnect, bind, self, gets. cbn [fst].
  by rewrite Hconn.
Qed.

(** The relay attempt with everything in place but the file: it gets to
    the poll, waits out the budget and reports the time-out. *)
Lemma relay_attempt_times_out (a : Adapter) (w : World) (port : Z)
    (fs1 : Fs.t) (ip out : str) :
  let env := w_behaviour w (w_attempts w) in
  cls a = ZTEAdapter ->
  connection a = None ->
  (forall c, exists s, w_decrypt w c = Ret s) ->
  int_of_str (default (u "21") (w_environ w !! u "LEUITCSS_FTP_PORT"))
  = Some port ->
  b_ftp_active env = true ->
  ftp_password_of w <> [] ->
  Fs.mkdir_parents true
    (Fs.of_str (default (u "/var/lib/leuitcss/ftp-ingestion")
                  (w_environ w !! u "LEUITCSS_FTP_ROOT"))
       ++ [u "zte"; str_of_int (device_id (device_info a))])
    (w_fs w) = (Ret tt, fs1) ->
  b_connect env = ConnOk ->
  b_route_ip env = Ret ip ->
  b_send env = Ret out ->
  (forall t, b_inbox env t = None) ->
  exists r w' server_ip dtype dport,
    backup (a, w) = (Ret r, (a, w'))
    /\ success r = false
    /\ error r = Some (u "FTP file not received within "
                         ++ str_of_int FTP_POLL_TIMEOUT ++ u " seconds")
    /\ execution_time r
       = Z.of_nat (b_connect_secs env) + Z.of_nat (b_send_secs env)
         + FTP_POLL_TIMEOUT
    /\ w_time w'
       = w_time w + Z.of_nat (b_connect_secs env) + Z.of_nat (b_send_secs env)
         + FTP_POLL_TIMEOUT
    /\ w_trace w'
       = w_trace w
           ++ [EvOpen (w_sessions w) (ip_address (device_info a)) dtype dport;
               EvSend (w_sessions w)
                 (relay_command server_ip (device_id (device_info a))
                    (ftp_user_of w) (ftp_password_of w));
               EvClose (w_sessions w)].
Proof.
  intros env Hcls Hconn Hdec Hport Hact Hpw Hmk Hc Hip Hsend Hnone.
  assert (Hrun : backup (a, w)
                 = zte_backup env (a, with_attempts (S (w_attempts w)) w)).
  { unfold backup, bind, host, zoom, self, gets, modify. cbn [fst snd].
    fold env. by rewrite Hcls. }
  rewrite Hrun. unfold zte_backup.
  erewrite bind_run; [|apply host_run; reflexivity].
  erewrite bind_run; [|apply host_run; reflexivity].
  unfold bind at 1, self at 1, gets at 1. cbn [fst].
  unfold try_finally, try_except.
  set (w0 := with_attempts (S (w_attempts w)) w).
  rewrite (bind_run _ _ _ _ _ (get_ftp_config_run env a w0 port Hport)).
  cbn [ftp_enabled ftp_password]. rewrite Hact. cbn [negb].
  erewrite bind_run; [|reflexivity].
  rewrite bool_decide_eq_false_2 by exact Hpw.
  erewrite bind_run; [|reflexivity].
  rewrite (bind_run _ _ _ _ _
             (get_ftp_inbox_path_run env _ a w0 port fs1 Hport Hmk)).
  set (w1 := with_fs fs1 w0).
  rewrite (bind_run _ _ _ _ _ (clear_inbox_absent env _ a w1 (Hnone _))).
  destruct (base_connect_ok env a w1 Hdec Hc) as (params & Hp & Hco).
  destruct (get_connection_params_run a w1 Hdec) as (params' & Hp' & Hhost & _).
  rewrite Hp in Hp'. injection Hp' as <-.
  assert (Hconnect : connect env (a, w1) = base_connect env (a, w1)).
  { unfold connect. unfold bind at 1, self at 1, gets at 1. cbn [fst].
    by rewrite Hcls. }
  rewrite <- Hconnect in Hco.
  rewrite (bind_run _ _ _ _ _ Hco).
  match goal with
  | |- context [bind (_build_ftp_upload_command env ?i) _ (?a2, ?w2)] =>
      destruct (build_ftp_upload_command_run env i a2 w2 port ip Hport Hip)
        as (server_ip & Hcmd)
  end.
  rewrite (bind_run _ _ _ _ _ Hcmd).
  erewrite bind_run;
    [|erewrite send_command_run by reflexivity; rewrite Hsend; reflexivity].
  erewrite bind_run; [|by apply disconnect_open].
  erewrite bind_run; [|by apply poll_for_file_absent].
  cbn [ret raise fst snd].
  erewrite bind_run; [|apply host_run; reflexivity].
  cbn [ret]. rewrite disconnect_closed by reflexivity.
  eexists _, _, server_ip, (p_device_type params), (p_port params).
  split.
  { f_equal. f_equal. by destruct a; cbn in *; subst. }
  cbn [success error execution_time exn_str w_time with_time w_trace
       with_trace with_sessions with_fs with_attempts w0 w1 w_sessions
       w_environ].
  rewrite Hhost, <- !app_assoc.
  split_and!; try reflexivity; unfold FTP_POLL_TIMEOUT; lia.
Qed.

End RelayRuns.

(** C6. If nothing ever appears at the drop location, [_poll_for_file]
    returns [None] exactly 120 seconds after it started.  A relay attempt
    that gets as far as the poll (FTP service up with a password, drop
    directory made, device reached and the trigger command answered) then
    reports a failure whose error is [FTP file not received within 120
    seconds]; it returns 120 seconds after the trigger command came back,
    and the session to the device has been closed.  Whatever appears at
    the drop location, the loop ends less than one round (one settle
    second and one sleep of 3 seconds) after the budget of 120 seconds.  A
    file is accepted only if it was there at one check and, one second
    later, held at least one octet. *)
Theorem relay_poll_times_out :
  (forall env inbox_path (s : Adapters.Obj),
     (forall t, Host.b_inbox env t = None) ->
     Adapters._poll_for_file env inbox_path s
     = (Py.Ret None, (s.1, Host.with_time (Host.w_time s.2 + 120) s.2)))
  /\ (forall (a : Adapters.Adapter) (w : Host.World) (port : Z) (fs1 : Fs.t)
        (ip out : Py.str),
        let env := Host.w_behaviour w (Host.w_attempts w) in
        Adapters.cls a = Adapters.ZTEAdapter ->
        Adapters.connection a = None ->
        (forall c, exists s, Host.w_decrypt w c = Py.Ret s) ->
        Py.int_of_str
          (default (Py.u "21") (Host.w_environ w !! Py.u "LEUITCSS_FTP_PORT"))
        = Some port ->
        Host.b_ftp_active env = true ->
        Logic.ftp_password_of w <> [] ->
        Fs.mkdir_parents true
          (Fs.of_str (default (Py.u "/var/lib/leuitcss/ftp-ingestion")
                        (Host.w_environ w !! Py.u "LEUITCSS_FTP_ROOT"))
             ++ [Py.u "zte";
                 Py.str_of_int (Adapters.device_id (Adapters.device_info a))])
          (Host.w_fs w) = (Py.Ret tt, fs1) ->
        Host.b_connect env = Host.ConnOk ->
        Host.b_route_ip env = Py.Ret ip ->
        Host.b_send env = Py.Ret out ->
        (forall t, Host.b_inbox env t = None) ->
        exists r w' server_ip dtype dport,
          Adapters.backup (a, w) = (Py.Ret r, (a, w'))
          /\ Adapters.success r = false
          /\ Adapters.error r
             = Some (Py.u "FTP file not received within "
                       ++ Py.str_of_int Adapters.FTP_POLL_TIMEOUT
                       ++ Py.u " seconds")
          /\ Adapters.execution_time r
             = Z.of_nat (Host.b_connect_secs env)
               + Z.of_nat (Host.b_send_secs env) + 120
          /\ Host.w_time w'
             = Host.w_time w + Z.of_nat (Host.b_connect_secs env)
               + Z.of_nat (Host.b_send_secs env) + 120
          /\ Host.w_trace w'
             = Host.w_trace w
                 ++ [Host.EvOpen (Host.w_sessions w)
                       (Adapters.ip_address (Adapters.device_info a)) dtype
                       dport;
                     Host.EvSend (Host.w_sessions w)
                       (Logic.relay_command server_ip
                          (Adapters.device_id (Adapters.device_info a))
                          (Logic.ftp_user_of w) (Logic.ftp_password_of w));
                     Host.EvClose (Host.w_sessions w)])
  /\ (forall inbox target start,
        (Adapters.poll_loop inbox target start start).2 - start < 120 + 3 + 1)
  /\ (forall inbox target start now p t',
        Adapters.poll_loop inbox target start now = (Py.Ret (Some p), t') ->
        p = target /\ is_Some (inbox (t' - 1))
        /\ exists content, inbox t' = Some content /\ (0 < length content)%nat).
Proof.
  split; [|split; [|split]].
  - intros env inbox_path s Hnone. by apply poll_for_file_absent.
  - intros a w port fs1 ip out. apply relay_attempt_times_out.
  - intros inbox target start.
    apply (poll_loop_deadline inbox target start start).
    unfold Adapters.FTP_POLL_TIMEOUT, Adapters.FTP_POLL_INTERVAL. lia.
  - intros inbox target start now p t' H.
    apply poll_loop_accepts in H as (? & _ & ? & content & ? & ?).
    split; [done|]. split; [done|]. exists content. split; [done | lia].
Qed.

Lemma relay_poll_times_out_witness :
  let a := {| Adapters.cls := Adapters.ZTEAdapter;
              Adapters.config := Config.get_config;
              Adapters.device_info :=
                Collector._prepare_device_info (Scenario.router "zte" 7);
              Adapters.connection := None |} in
  let w := Scenario.world (fun _ => Scenario.answering) in
  Adapters._poll_for_file Scenario.answering [Py.u "inbox"] (a, w)
  = (Py.Ret None, (a, Host.with_time (1700000000 + 120) w))
  /\ exists r w',
       Adapters.backup (a, w) = (Py.Ret r, (a, w'))
       /\ Adapters.success r = false
       /\ Adapters.error r
          = Some (Py.u "FTP file not received within 120 seconds")
       /\ Adapters.execution_time r = 123
       /\ Host.w_time w' = 1700000123.
Proof.
  intros a w. split.
  - apply (proj1 relay_poll_times_out Scenario.answering [Py.u "inbox"] (a, w)).
    intros t. reflexivity.
  - destruct (Fs.mkdir_parents true
                (Fs.of_str (default (Py.u "/var/lib/leuitcss/ftp-ingestion")
                              (Host.w_environ w !! Py.u "LEUITCSS_FTP_ROOT"))
                   ++ [Py.u "zte";
                       Py.str_of_int
                         (Adapters.device_id (Adapters.device_info a))])
                (Host.w_fs w)) as [o fs1] eqn:Hmk.
    assert (o = Py.Ret tt) as ->.
    { replace o with (Fs.mkdir_parents true
                (Fs.of_str (default (Py.u "/var/lib/leuitcss/ftp-ingestion")
                              (Host.w_environ w !! Py.u "LEUITCSS_FTP_ROOT"))
                   ++ [Py.u "zte";
                       Py.str_of_int
                         (Adapters.device_id (Adapters.device_info a))])
                (Host.w_fs w)).1 by (rewrite Hmk; reflexivity).
      vm_compute. reflexivity. }
    destruct (proj1 (proj2 relay_poll_times_out) a w 21 fs1 (Py.u "10.0.0.1")
                (Py.u "hostname R1"))
      as (r & w' & server_ip & dtype & dport & Hrun & Hfail & Herr & Hexec
          & Htime & _).
    + reflexivity.
    + reflexivity.
    + intros c. exists c. reflexivity.
    + vm_compute. reflexivity.
    + reflexivity.
    + vm_compute. discriminate.
    + exact Hmk.
    + reflexivity.
    + reflexivity.
    + reflexivity.
    + intros t. reflexivity.
    + exists r, w'. split; [exact Hrun|]. split; [exact Hfail|].
      split; [rewrite Herr; vm_compute; reflexivity|].
      split; [exact Hexec | exact Htime].
Defined.

(** ** The command an attempt sends *)

Section Commands.
Import Py Host Adapters Logic.

Lemma get_adapter_Ret vendor info a :
  get_adapter vendor info = Ret a ->
  a = {| cls := cls a; config := Config.get_config; device_info := info;
         connection := None |}
  /\ (lower vendor, cls a)
     ∈ [ (u "mikrotik", MikroTikAdapter); (u "cisco", CiscoAdapter);
         (u "huawei", HuaweiAdapter); (u "zte", ZTEAdapter);
         (u "juniper", JuniperAdapter); (u "generic", GenericAdapter);
         (u "generic-saved", GenericSavedAdapter);
         (u "generic-startup", GenericStartupAdapter) ].
Proof.
  unfold get_adapter. destruct (VENDOR_ADAPTERS !! lower vendor) as [c|] eqn:E;
    [|discriminate].
  intros [= <-]. split; [done|]. cbn [cls].
  unfold VENDOR_ADAPTERS in E. by apply elem_of_list_to_map_2 in E.
Qed.

End Commands.




(** ** The collector *)

Section CollectorSteps.
Import Py Host Models Collector Logic.

#[local] Instance only_fs_refl : Reflexive only_fs.
Proof. intros w. unfold only_fs. by destruct w. Qed.

#[local] Instance only_fs_trans : Transitive only_fs.
Proof. intros w1 w2 w3 H12 H23. unfold only_fs in *. rewrite H23, H12. reflexivity. Qed.

Lemma keeps_on_fs {A} (m : M Fs.t A) : keeps only_fs (on_fs m).
Proof.
  intros w. unfold on_fs, zoom. destruct (m (w_fs w)) as [o fs']. reflexivity.
Qed.

Lemma keeps_encode (s : str) : keeps only_fs (Storage.encode (S := World) s).
Proof.
  unfold Storage.encode.
  destruct (encode_utf8 s); [apply keeps_ret | apply keeps_raise]; apply _.
Qed.

(** [save_backup] returns, and touches nothing but files. *)
Lemma save_backup_frame self vendor device_id device_name device_ip
    connection_type backup_command config_output output_extension
    execution_time timestamp (w : World) :
  exists r fs',
    Storage.save_backup self vendor device_id device_name device_ip
      connection_type backup_command config_output output_extension
      execution_time timestamp w = (Ret r, with_fs fs' w).
Proof.
  assert (Hk : keeps only_fs
                 (Storage.save_backup self vendor device_id device_name device_ip
                    connection_type backup_command config_output output_extension
                    execution_time timestamp)).
  { unfold Storage.save_backup, Storage.save_backup_body.
    apply keeps_try_except; try apply _.
    - repeat first
        [ apply keeps_bind; try apply _; [|intros ?]
        | apply keeps_on_fs | apply keeps_encode
        | apply keeps_ret; apply _ | apply keeps_raise; apply _
        | apply keeps_gets; apply _
        | match goal with
          | |- keeps _ (match ?x with _ => _ end) => destruct x
          end ].
    - intros e. unfold Storage.save_backup_handler.
      destruct (decide _); apply keeps_ret; apply _. }
  assert (Hret : exists r w',
             Storage.save_backup self vendor device_id device_name device_ip
               connection_type backup_command config_output output_extension
               execution_time timestamp w = (Ret r, w')).
  { rewrite save_backup_run.
    destruct (Storage.save_backup_body _ _ _ _ _ _ _ _ _ _ _ w) as [[r|e] w1];
      [by eexists _, _|].
    unfold Storage.save_backup_handler. destruct (decide _); by eexists _, _. }
  destruct Hret as (r & w' & Hrun).
  specialize (Hk w). rewrite Hrun in Hk. cbn [snd] in Hk.
  exists r, (w_fs w'). by rewrite Hrun, <- Hk.
Qed.

(** [adapter.backup()] on a fresh object returns; it counts as one
    attempt and leaves the database and the audit log alone. *)
Lemma run_adapter_spec (a : Adapters.Adapter) (w : World) :
  Adapters.connection a = None ->
  exists br w',
    run_adapter a w = (Ret br, w')
    /\ same_registers (with_attempts (Datatypes.S (w_attempts w)) w) w'.
Proof.
  intros Hc.
  destruct (backup_spec a w (fun _ => True) Hc) as (r & a' & w' & Hrun & Hinv);
    [done | done |].
  exists r, w'. unfold run_adapter. rewrite Hrun. split; [done|].
  by destruct Hinv as (_ & _ & _ & _ & Hreg & _).
Qed.

Lemma create_backup_history_run self device triggered_by vendor_config (w : World) :
  _get_vendor_config self (vendor device) = Some vendor_config ->
  _create_backup_history self device triggered_by w
  = (Ret (length (w_histories w)),
     with_histories
       (w_histories w ++ [fresh_history device vendor_config triggered_by w]) w).
Proof. intros Hcfg. unfold _create_backup_history. rewrite Hcfg. reflexivity. Qed.

Lemma settled_run (history : nat) (device : Device) (ok : bool)
    (execution_time : option Z) (file_path : option Fs.path)
    (file_size : option Z) (checksum msg : option str) (status : str)
    (ev : audit_event) (r : Result) (w : World) :
  status = status_value (if ok then SUCCESS else FAILED) ->
  ev = BackupComplete (id device) (name device) ok (if ok then checksum else msg) ->
  (_update_backup_history history ok execution_time file_path file_size
     checksum msg ;;;
   _update_device_status device status ;;; audit ev ;;; ret r) w
  = (Ret r, settled history device ok execution_time file_path file_size
              checksum msg w).
Proof. intros -> ->. reflexivity. Qed.

End CollectorSteps.

(** ** One pass of the collector *)

Section Pass.
Import Py Host Models Collector Logic.
Context (self : BackupCollector) (device : Device) (triggered_by : str)
  (vendor_config : Config.VendorProfile).
Hypothesis Hcfg : _get_vendor_config self (vendor device) = Some vendor_config.
Hypothesis Hct : connection_type device ∈ Config.connection_types vendor_config.

Local Abbreviation history w := (length (w_histories w)).
Local Abbreviation hid w :=
  (h_id (fresh_history device vendor_config triggered_by w)).
Local Abbreviation start w := (begun device vendor_config triggered_by w).

Lemma begin_run {A} (k : nat -> option Z -> M World A) (w : World) :
  (audit (BackupStart (id device) (name device) triggered_by) ;;;
   history <- _create_backup_history self device triggered_by ;;
   hid <- gets (fun w0 => h ← w_histories w0 !! history; h_id h) ;;
   k history hid) w
  = k (history w) (hid w) (start w).
Proof.
  erewrite bind_run; [|reflexivity].
  erewrite bind_run; [|apply create_backup_history_run, Hcfg].
  erewrite bind_run; [|reflexivity].
  cbn [w_histories with_histories with_audit].
  rewrite list_lookup_middle by reflexivity. reflexivity.
Qed.

Local Ltac enter :=
  cbn [backup_device]; rewrite Hcfg;
  rewrite bool_decide_eq_true_2 by exact Hct; cbn [negb];
  rewrite begin_run.

(** No adapter for the vendor: the history is closed as failed. *)
Lemma pass_no_adapter (depth : nat) (retry : bool) (w : World) (e : exn) :
  Adapters.get_adapter (vendor device) (_prepare_device_info device) = Raise e ->
  backup_device (S depth) self device triggered_by retry w
  = (Ret (failed device (hid w) (Some (exn_str e))),
     settled (history w) device false None None None None (Some (exn_str e))
       (start w)).
Proof.
  intros Hga. enter. rewrite Hga.
  assert (Hcls : exn_cls e = ValueError).
  { unfold Adapters.get_adapter in Hga.
    destruct (Adapters.VENDOR_ADAPTERS !! _); [discriminate|].
    by injection Hga as <-. }
  destruct (decide _); [|done].
  by erewrite settled_run.
Qed.

Context (a : Adapters.Adapter).
Hypothesis Hga :
  Adapters.get_adapter (vendor device) (_prepare_device_info device) = Ret a.

(** The capture succeeded: the outcome is that of the store. *)
Lemma pass_captured (depth : nat) (retry : bool) (w w2 w3 : World)
    (br : Adapters.BackupResult) (sr : Storage.SaveResult) :
  run_adapter a (start w) = (Ret br, w2) ->
  Adapters.success br = true ->
  Storage.save_backup (storage self) (vendor device) (id device)
    (name device) (ip_address device) (connection_type device)
    (Config.backup_command vendor_config)
    (str_of_opt (Adapters.output br))
    (Config.output_extension vendor_config)
    (Adapters.execution_time br) None w2 = (Ret sr, w3) ->
  backup_device (S depth) self device triggered_by retry w
  = if Storage.success sr
    then (Ret {| success := true; history_id := hid w;
                 file_path := Storage.file_path sr;
                 checksum := Storage.checksum sr;
                 error := None; device_id := id device;
                 device_name := name device |},
          settled (history w) device true
            (Some (Adapters.execution_time br)) (Storage.file_path sr)
            (Storage.file_size sr) (Storage.checksum sr) None w3)
    else (Ret (failed device (hid w)
                 (Some (u "Storage error: " ++ str_of_opt (Storage.error sr)))),
          settled (history w) device false None None None None
            (Some (u "Storage error: " ++ str_of_opt (Storage.error sr))) w3).
Proof.
  intros Hrun Hok Hsave. enter. rewrite Hga.
  rewrite (bind_run _ _ _ _ _ Hrun), Hok, (bind_run _ _ _ _ _ Hsave).
  destruct (Storage.success sr); by erewrite settled_run.
Qed.

Lemma retry_count_fresh (w w2 : World) :
  w_histories w2 = w_histories (start w) ->
  default 0 (h_retry_count <$> w_histories w2 !! history w) = 0.
Proof.
  intros ->. unfold begun. cbn [w_histories with_histories].
  by rewrite list_lookup_middle.
Qed.

(** The capture failed and no retry is due: the history is closed with
    the adapter's error. *)
Lemma pass_failed (depth : nat) (retry : bool) (w w2 : World)
    (br : Adapters.BackupResult) :
  run_adapter a (start w) = (Ret br, w2) ->
  Adapters.success br = false ->
  w_histories w2 = w_histories (start w) ->
  retry && (0 <? Config.MAX_RETRY (config self)) = false ->
  backup_device (S depth) self device triggered_by retry w
  = (Ret (failed device (hid w) (Adapters.error br)),
     settled (history w) device false (Some (Adapters.execution_time br))
       None None None (Adapters.error br) w2).
Proof.
  intros Hrun Hok Hh Hno. enter. rewrite Hga.
  rewrite (bind_run _ _ _ _ _ Hrun), Hok.
  erewrite bind_run; [|reflexivity].
  rewrite (retry_count_fresh _ _ Hh), Hno.
  by erewrite settled_run.
Qed.

(** The capture failed and a retry is due: the count goes up, the call is
    made again without retry, and a success of that call is returned as it
    is. *)
Lemma pass_retried (depth : nat) (w w2 : World) (br : Adapters.BackupResult) :
  run_adapter a (start w) = (Ret br, w2) ->
  Adapters.success br = false ->
  w_histories w2 = w_histories (start w) ->
  0 < Config.MAX_RETRY (config self) ->
  backup_device (S depth) self device triggered_by true w
  = match backup_device depth self device triggered_by false
            (bumped (history w) w2) with
    | (Ret rr, w4) =>
        if success rr then (Ret rr, w4)
        else (Ret (failed device (hid w)
                     (Some (u "Failed after retry: " ++ str_of_opt (error rr)))),
              settled (history w) device false
                (Some (Adapters.execution_time br)) None None None
                (Some (u "Failed after retry: " ++ str_of_opt (error rr))) w4)
    | (Raise e, w4) => (Raise e, w4)
    end.
Proof.
  intros Hrun Hok Hh Hcap. enter. rewrite Hga.
  rewrite (bind_run _ _ _ _ _ Hrun), Hok.
  erewrite bind_run; [|reflexivity].
  rewrite (retry_count_fresh _ _ Hh).
  replace (0 <? Config.MAX_RETRY (config self)) with true
    by (symmetry; apply Z.ltb_lt, Hcap).
  cbn [andb].
  erewrite bind_run; [|reflexivity].
  fold (bumped (history w) w2).
  unfold bind at 1.
  destruct (backup_device depth self device triggered_by false _)
    as [[rr|e] w4]; [|done].
  destruct (success rr); [done|]. by erewrite settled_run.
Qed.


End Pass.

Section Passes.
Import Py Host Models Collector Logic.

Lemma pass_unsupported_vendor (depth : nat) (self : BackupCollector)
    (device : Device) (triggered_by : str) (retry : bool) (w : World) :
  _get_vendor_config self (vendor device) = None ->
  backup_device (S depth) self device triggered_by retry w
  = (Ret (failed device None
            (Some (u "Unsupported vendor: " ++ vendor device))), w).
Proof. intros Hcfg. cbn [backup_device]. by rewrite Hcfg. Qed.

Lemma pass_unsupported_connection (depth : nat) (self : BackupCollector)
    (device : Device) (triggered_by : str) (retry : bool) (w : World)
    (vendor_config : Config.VendorProfile) :
  _get_vendor_config self (vendor device) = Some vendor_config ->
  connection_type device ∉ Config.connection_types vendor_config ->
  backup_device (S depth) self device triggered_by retry w
  = (Ret (failed device None
            (Some (u "Connection type " ++ connection_type device
                     ++ u " not supported for " ++ vendor device))), w).
Proof.
  intros Hcfg Hct. cbn [backup_device]. rewrite Hcfg.
  by rewrite bool_decide_eq_false_2.
Qed.

Lemma settled_histories (history : nat) (device : Device) (ok : bool)
    (execution_time : option Z) (file_path : option Fs.path)
    (file_size : option Z) (checksum msg : option str) (w : World) :
  exists f,
    w_histories (settled history device ok execution_time file_path file_size
                   checksum msg w)
    = alter f history (w_histories w)
    /\ forall h, h_id (f h) = h_id h
                 /\ h_retry_count (f h) = h_retry_count h
                 /\ is_Some (h_completed_at (f h))
                 /\ (ok = true -> h_status (f h) = status_value SUCCESS).
Proof.
  eexists. split; [reflexivity|].
  intros h. cbv beta. destruct ok; cbn [completed h_id h_retry_count h_completed_at h_status];
    split_and!; try done.
Qed.

Lemma settled_attempts (history : nat) (device : Device) (ok : bool)
    (execution_time : option Z) (file_path : option Fs.path)
    (file_size : option Z) (checksum msg : option str) (w : World) :
  w_attempts (settled history device ok execution_time file_path file_size
                checksum msg w) = w_attempts w.
Proof. reflexivity. Qed.

Lemma settled_db_session (history : nat) (device : Device) (ok : bool)
    (execution_time : option Z) (file_path : option Fs.path)
    (file_size : option Z) (checksum msg : option str) (w : World) :
  w_db_session (settled history device ok execution_time file_path file_size
                  checksum msg w) = w_db_session w.
Proof. reflexivity. Qed.

Lemma alter_last {A} (f : A -> A) (l : list A) (x : A) (rest : list A) :
  alter f (length l) (l ++ x :: rest) = l ++ f x :: rest.
Proof.
  replace (length l) with (length l + 0)%nat by lia.
  by rewrite alter_app_r.
Qed.


Lemma settled_single (self : BackupCollector) (device : Device)
    (vendor_config : Config.VendorProfile)
    (triggered_by : str) (w w3 : World) (r : Result) (ok : bool)
    (execution_time : option Z) (file_path : option Fs.path)
    (file_size : option Z) (checksum msg : option str) :
  _get_vendor_config self (vendor device) = Some vendor_config ->
  connection_type device ∈ Config.connection_types vendor_config ->
  w_histories w3 = w_histories (begun device vendor_config triggered_by w) ->
  w_db_session w3 = w_db_session w ->
  history_id r = h_id (fresh_history device vendor_config triggered_by w) ->
  (has_adapter device -> w_attempts w3 = S (w_attempts w)) ->
  (~ has_adapter device -> w_attempts w3 = w_attempts w /\ success r = false) ->
  (success r = true -> ok = true) ->
  single_pass self device w r
    (settled (length (w_histories w)) device ok execution_time file_path
       file_size checksum msg w3).
Proof.
  intros Hcfg Hct Hh Hdb Hid Hatt Hnone Hok.
  destruct (settled_histories (length (w_histories w)) device ok execution_time
              file_path file_size checksum msg w3) as (f & Hf & Hfacts).
  split; [by rewrite settled_db_session|]. right.
  split; [by exists vendor_config|].
  exists (f (fresh_history device vendor_config triggered_by w)).
  rewrite Hf, Hh, settled_attempts. unfold begun.
  cbn [w_histories with_histories]. rewrite alter_last.
  destruct (Hfacts (fresh_history device vendor_config triggered_by w))
    as (Hfid & Hfrc & Hfc & Hfs).
  split_and!; [done | by rewrite Hfrc | by rewrite Hfid | by rewrite Hfid
              | done | done | done |].
  intros Hr. apply Hfs, Hok, Hr.
Qed.

(** Every call of [backup_device] with a frame to run in is of one of two
    kinds.  Either it makes no retry, and then it returns whatever the
    depth; or the first capture failed with retries allowed, and then it is
    the second call that decides. *)
Lemma backup_device_cases (self : BackupCollector) (device : Device)
    (triggered_by : str) (retry : bool) (w : World) :
  (exists r w',
     (forall depth,
        backup_device (S depth) self device triggered_by retry w = (Ret r, w'))
     /\ single_pass self device w r w')
  \/ (retry = true /\ 0 < Config.MAX_RETRY (config self)
      /\ accepted self device /\ has_adapter device
      /\ exists vendor_config br w2,
           w_histories w2
           = w_histories w ++ [fresh_history device vendor_config triggered_by w]
           /\ w_attempts w2 = S (w_attempts w)
           /\ w_db_session w2 = w_db_session w
           /\ forall depth,
                backup_device (S depth) self device triggered_by true w
                = match backup_device depth self device triggered_by false
                          (bumped (length (w_histories w)) w2) with
                  | (Ret rr, w4) =>
                      if success rr then (Ret rr, w4)
                      else (Ret (failed device
                                   (h_id (fresh_history device vendor_config
                                            triggered_by w))
                                   (Some (u "Failed after retry: "
                                            ++ str_of_opt (error rr)))),
                            settled (length (w_histories w)) device false
                              (Some (Adapters.execution_time br)) None None None
                              (Some (u "Failed after retry: "
                                       ++ str_of_opt (error rr))) w4)
                  | (Raise e, w4) => (Raise e, w4)
                  end).
Proof.
  destruct (_get_vendor_config self (vendor device)) as [vc|] eqn:Hcfg.
  2: { left. eexists _, _. split;
         [intros depth; by apply pass_unsupported_vendor|].
       split; [done|]. left. split; [|done].
       intros (vc & Hvc & _). congruence. }
  destruct (decide (connection_type device ∈ Config.connection_types vc))
    as [Hct|Hct].
  2: { left. eexists _, _. split;
         [intros depth; by eapply pass_unsupported_connection|].
       split; [done|]. left. split; [|done].
       intros (vc' & Hvc & Hin). congruence. }
  destruct (Adapters.get_adapter (vendor device) (_prepare_device_info device))
    as [a|e] eqn:Hga.
  2: { left. eexists _, _. split;
         [intros depth; by apply (pass_no_adapter _ _ _ _ Hcfg Hct)|].
       apply (settled_single self device vc triggered_by); try done.
       intros [a Ha]. congruence. }
  assert (Hconn : Adapters.connection a = None).
  { apply get_adapter_Ret in Hga as [-> _]. reflexivity. }
  assert (Hhas : has_adapter device) by by exists a.
  destruct (run_adapter_spec a (begun device vc triggered_by w) Hconn)
    as (br & w2 & Hrun & Hh & _ & _ & Hdb & _ & _ & _ & Hatt).
  cbn in Hh, Hdb, Hatt.
  destruct (Adapters.success br) eqn:Hok.
  - destruct (save_backup_frame (storage self) (vendor device) (id device)
                (name device) (ip_address device) (connection_type device)
                (Config.backup_command vc) (str_of_opt (Adapters.output br))
                (Config.output_extension vc) (Adapters.execution_time br) None w2)
      as (sr & fs' & Hsave).
    left. destruct (Storage.success sr) eqn:Hsr.
    + eexists _, _. split.
      { intros depth.
        rewrite (pass_captured _ _ _ _ Hcfg Hct _ Hga _ _ _ _ _ _ _ Hrun Hok Hsave).
        rewrite Hsr. reflexivity. }
      by apply (settled_single self device vc triggered_by).
    + eexists _, _. split.
      { intros depth.
        rewrite (pass_captured _ _ _ _ Hcfg Hct _ Hga _ _ _ _ _ _ _ Hrun Hok Hsave).
        rewrite Hsr. reflexivity. }
      by apply (settled_single self device vc triggered_by).
  - destruct (retry && (0 <? Config.MAX_RETRY (config self))) eqn:Hretry.
    + right. apply andb_true_iff in Hretry as [-> Hcap%Z.ltb_lt].
      split_and!; [done | done | by exists vc | done |].
      exists vc, br, w2. split_and!; [done..|].
      intros depth. by apply (pass_retried _ _ _ _ Hcfg Hct _ Hga).
    + left. eexists _, _. split.
      { intros depth. by apply (pass_failed _ _ _ _ Hcfg Hct _ Hga). }
      by apply (settled_single self device vc triggered_by).
Qed.

(** A call without retry returns whatever the depth. *)
Lemma backup_device_once (self : BackupCollector) (device : Device)
    (triggered_by : str) (w : World) :
  exists r w',
    (forall depth,
       backup_device (S depth) self device triggered_by false w = (Ret r, w'))
    /\ single_pass self device w r w'.
Proof.
  destruct (backup_device_cases self device triggered_by false w)
    as [H | (Hf & _)]; [exact H | discriminate].
Qed.

Lemma bumped_histories (device : Device) (vendor_config : Config.VendorProfile)
    (triggered_by : str) (w w2 : World) :
  w_histories w2
  = w_histories w ++ [fresh_history device vendor_config triggered_by w] ->
  w_histories (bumped (length (w_histories w)) w2)
  = w_histories w
      ++ [bump_retry_count (fresh_history device vendor_config triggered_by w)].
Proof.
  intros Hh. unfold bumped. cbn [w_histories with_histories].
  by rewrite Hh, alter_last.
Qed.

End Passes.

(** ** The retry *)

Section Retry.
Import Py Host Models Collector Logic.

(** The two calls of a retried backup, put together: what the second call
    leaves, and what the first then does with it. *)
Lemma backup_device_retried (self : BackupCollector) (device : Device)
    (triggered_by : str) (w : World) :
  (exists r w',
     (forall depth,
        backup_device (S depth) self device triggered_by true w = (Ret r, w'))
     /\ single_pass self device w r w')
  \/ (0 < Config.MAX_RETRY (config self)
      /\ (exists e w0,
            backup_device 1 self device triggered_by true w = (Raise e, w0))
      /\ exists r w' h1 h2,
           (forall depth,
              backup_device (S (S depth)) self device triggered_by true w
              = (Ret r, w'))
           /\ w_histories w' = w_histories w ++ [h1; h2]
           /\ w_attempts w' = (w_attempts w + 2)%nat
           /\ h_retry_count h1 = 1 /\ h_retry_count h2 = 0
           /\ h_id h1 = next_id w
           /\ is_Some (h_completed_at h2)
           /\ if success r
              then h_status h1 = status_value RUNNING
                   /\ h_completed_at h1 = None
                   /\ h_status h2 = status_value SUCCESS
                   /\ history_id r = h_id h2
                   /\ exists w1,
                        w_histories w1 = w_histories w ++ [h1]
                        /\ w_db_session w1 = w_db_session w
                        /\ h_id h2 = next_id w1
                        /\ forall depth,
                             backup_device (S depth) self device triggered_by
                               false w1 = (Ret r, w')
              else is_Some (h_completed_at h1) /\ history_id r = h_id h1).
Proof.
  destruct (backup_device_cases self device triggered_by true w)
    as [H | (_ & Hcap & Hacc & Hhas & vc & br & w2 & Hh & Hatt & Hdb & Hrun)];
    [by left|].
  right. split; [done|]. split.
  { eexists _, _. rewrite (Hrun O). reflexivity. }
  set (wb := bumped (length (w_histories w)) w2) in *.
  assert (Hhb : w_histories wb
                = w_histories w
                    ++ [bump_retry_count (fresh_history device vc triggered_by w)])
    by by apply bumped_histories.
  destruct (backup_device_once self device triggered_by wb)
    as (rr & w4 & Hrun2 & Hdb2 & [(Hrej & _) | (_ & h & Hh4 & Hrc & Hid & Hnext & Hc & Hatt4 & _ & Hs)]);
    [done|].
  specialize (Hatt4 Hhas). cbn in Hatt4, Hdb2.
  destruct (success rr) eqn:Hok.
  - exists rr, w4, (bump_retry_count (fresh_history device vc triggered_by w)), h.
    split_and!; try done.
    + intros depth. by rewrite (Hrun (S depth)), (Hrun2 depth), Hok.
    + by rewrite Hh4, Hhb, <- app_assoc.
    + lia.
    + rewrite Hok. split_and!; [done | done | by apply Hs | done |].
      exists wb. by split_and!.
  - destruct (settled_histories (length (w_histories w)) device false
                (Some (Adapters.execution_time br)) None None None
                (Some (u "Failed after retry: " ++ str_of_opt (error rr))) w4)
      as (f & Hf & Hfacts).
    destruct (Hfacts (bump_retry_count (fresh_history device vc triggered_by w)))
      as (Hfid & Hfrc & Hfc & _).
    eexists _, _, (f (bump_retry_count (fresh_history device vc triggered_by w))), h.
    split_and!.
    + intros depth. by rewrite (Hrun (S depth)), (Hrun2 depth), Hok.
    + rewrite Hf, Hh4, Hhb, <- app_assoc. cbn [app]. by rewrite alter_last.
    + rewrite settled_attempts. lia.
    + by rewrite Hfrc.
    + done.
    + by rewrite Hfid.
    + done.
    + cbn [success failed]. split; [done|]. by rewrite Hfid.
Qed.

Lemma single_pass_attempts (self : BackupCollector) (device : Device)
    (w : World) (r : Result) (w' : World) :
  single_pass self device w r w' ->
  (w_attempts w <= w_attempts w' <= S (w_attempts w))%nat.
Proof.
  intros (_ & [(_ & _ & -> & _) | (_ & h & _ & _ & _ & _ & _ & Hyes & Hno & _)]);
    [lia|].
  destruct (Adapters.get_adapter (vendor device) (_prepare_device_info device))
    as [a|e] eqn:Hga.
  - rewrite Hyes by by exists a. lia.
  - destruct Hno as [-> _]; [|lia]. intros [a Ha]. congruence.
Qed.

End Retry.

(** C2. With a retry cap that is not negative and room for two frames,
    [backup_device] returns, and what it returns does not depend on how
    much more room there is.  It leaves at most two new histories, each
    with a retry count between 0 and the cap.  With no new history the
    adapter did not run; with one, the count is 0 and the adapter ran at
    most once; two are left only by a call that allows the retry, and then
    the adapter ran twice, the first history counts 1 and the second 0. *)
Theorem backup_device_retries_at_most_once (depth : nat)
    (self : Collector.BackupCollector) (device : Models.Device)
    (triggered_by : Py.str) (retry : bool) (w : Host.World) :
  0 <= Config.MAX_RETRY (Collector.config self) ->
  (2 <= depth)%nat ->
  exists r w',
    Collector.backup_device depth self device triggered_by retry w
    = (Py.Ret r, w')
    /\ Collector.backup_device 2 self device triggered_by retry w
       = (Py.Ret r, w')
    /\ exists new,
         Host.w_histories w' = Host.w_histories w ++ new
         /\ Forall (fun h => 0 <= Models.h_retry_count h
                             <= Config.MAX_RETRY (Collector.config self)) new
         /\ match new with
            | [] => Host.w_attempts w' = Host.w_attempts w
            | [h] =>
                Models.h_retry_count h = 0
                /\ (Host.w_attempts w <= Host.w_attempts w'
                    <= S (Host.w_attempts w))%nat
            | [h1; h2] =>
                retry = true
                /\ Models.h_retry_count h1 = 1
                /\ Models.h_retry_count h2 = 0
                /\ Host.w_attempts w' = (Host.w_attempts w + 2)%nat
            | _ => False
            end.
Proof.
  intros Hcap Hdepth.
  destruct depth as [|[|depth]]; [lia | lia |].
  assert (Hsingle : forall r w',
            Logic.single_pass self device w r w' ->
            exists new,
              Host.w_histories w' = Host.w_histories w ++ new
              /\ Forall (fun h => 0 <= Models.h_retry_count h
                                  <= Config.MAX_RETRY (Collector.config self)) new
              /\ match new with
                 | [] => Host.w_attempts w' = Host.w_attempts w
                 | [h] =>
                     Models.h_retry_count h = 0
                     /\ (Host.w_attempts w <= Host.w_attempts w'
                         <= S (Host.w_attempts w))%nat
                 | [h1; h2] =>
                     retry = true
                     /\ Models.h_retry_count h1 = 1
                     /\ Models.h_retry_count h2 = 0
                     /\ Host.w_attempts w' = (Host.w_attempts w + 2)%nat
                 | _ => False
                 end).
  { intros r w' Hs.
    pose proof (single_pass_attempts _ _ _ _ _ Hs) as Hle.
    destruct Hs as (_ & [(_ & Hh & Hatt & _) | (_ & h & Hh & Hrc & _)]).
    - exists []. by rewrite app_nil_r.
    - exists [h]. split; [done|]. split; [apply Forall_singleton; lia|].
      by split. }
  destruct retry.
  - destruct (backup_device_retried self device triggered_by w)
      as [(r & w' & Hrun & Hs)
         | (Hpos & _ & r & w' & h1 & h2 & Hrun & Hh & Hatt & Hrc1 & Hrc2 & _)].
    + exists r, w'. split; [apply Hrun|]. split; [apply Hrun|]. by apply (Hsingle r).
    + exists r, w'. split; [apply Hrun|]. split; [apply (Hrun O)|].
      exists [h1; h2]. split; [done|]. split; [|done].
      apply Forall_cons. split; [lia|]. apply Forall_singleton. lia.
  - destruct (backup_device_once self device triggered_by w)
      as (r & w' & Hrun & Hs).
    exists r, w'. split; [apply Hrun|]. split; [apply Hrun|]. by apply (Hsingle r).
Qed.

Lemma backup_device_retries_at_most_once_witness :
  exists r w',
    Collector.backup_device 3 Scenario.collector (Scenario.router "zte" 7)
      (Py.u "manual") true (Scenario.world (fun _ => Scenario.refusing))
    = (Py.Ret r, w')
    /\ Collector.backup_device 2 Scenario.collector (Scenario.router "zte" 7)
         (Py.u "manual") true (Scenario.world (fun _ => Scenario.refusing))
       = (Py.Ret r, w')
    /\ exists new,
         Host.w_histories w'
         = Host.w_histories (Scenario.world (fun _ => Scenario.refusing)) ++ new
         /\ Forall (fun h => 0 <= Models.h_retry_count h
                             <= Config.MAX_RETRY
                                  (Collector.config Scenario.collector)) new
         /\ match new with
            | [] => Host.w_attempts w'
                    = Host.w_attempts (Scenario.world (fun _ => Scenario.refusing))
            | [h] =>
                Models.h_retry_count h = 0
                /\ (Host.w_attempts (Scenario.world (fun _ => Scenario.refusing))
                    <= Host.w_attempts w'
                    <= S (Host.w_attempts
                            (Scenario.world (fun _ => Scenario.refusing))))%nat
            | [h1; h2] =>
                true = true
                /\ Models.h_retry_count h1 = 1
                /\ Models.h_retry_count h2 = 0
                /\ Host.w_attempts w'
                   = (Host.w_attempts
                        (Scenario.world (fun _ => Scenario.refusing)) + 2)%nat
            | _ => False
            end.
Proof.
  apply (backup_device_retries_at_most_once 3 Scenario.collector
           (Scenario.router "zte" 7) (Py.u "manual") true
           (Scenario.world (fun _ => Scenario.refusing))).
  - cbn. lia.
  - lia.
Defined.

(** C9. When a call of [backup_device] that allows the retry returns a
    success after the adapter ran twice, the first capture failed and the
    retry succeeded.  Then the result is the one the second call returned,
    with the id of the second history.  The first history is left as it
    was made, but for its retry count: its status is RUNNING and it has no
    completion time. *)
Theorem retry_success_leaves_first_history_running (depth : nat)
    (self : Collector.BackupCollector) (device : Models.Device)
    (triggered_by : Py.str) (w : Host.World) (r : Collector.Result)
    (w' : Host.World) :
  Collector.backup_device depth self device triggered_by true w = (Py.Ret r, w') ->
  Collector.success r = true ->
  Host.w_attempts w' = (Host.w_attempts w + 2)%nat ->
  exists h1 h2,
    Host.w_histories w' = Host.w_histories w ++ [h1; h2]
    /\ Models.h_status h1 = Models.status_value Models.RUNNING
    /\ Models.h_completed_at h1 = None
    /\ Models.h_retry_count h1 = 1
    /\ Models.h_status h2 = Models.status_value Models.SUCCESS
    /\ is_Some (Models.h_completed_at h2)
    /\ Collector.history_id r = Models.h_id h2
    /\ (Host.w_db_session w = true -> Collector.history_id r <> Models.h_id h1)
    /\ exists depth' w1,
         depth = S depth'
         /\ Host.w_histories w1 = Host.w_histories w ++ [h1]
         /\ Collector.backup_device depth' self device triggered_by false w1
            = (Py.Ret r, w').
Proof.
  intros Hrun Hok Hatt.
  destruct depth as [|depth]; [discriminate|].
  destruct (backup_device_retried self device triggered_by w)
    as [(r0 & w0 & Hrun0 & Hs)
       | (_ & (e & we & Hraise) & r0 & w0 & h1 & h2 & Hrun0 & Hh & _ & Hrc1
            & _ & Hid1 & Hc2 & Hif)].
  { rewrite Hrun0 in Hrun. injection Hrun as <- <-.
    apply single_pass_attempts in Hs. lia. }
  destruct depth as [|depth]; [congruence|].
  rewrite Hrun0 in Hrun. injection Hrun as <- <-. rewrite Hok in Hif.
  destruct Hif as (Hst1 & Hc1 & Hst2 & Hid2 & w1 & Hh1 & Hdb1 & Hnext & Hrun1).
  exists h1, h2. split_and!; try done.
  - intros Hdb. rewrite Hid2, Hnext, Hid1. unfold Logic.next_id.
    rewrite Hdb1, Hdb, Hh1, length_app. cbn [length]. intros [= Heq]. lia.
  - exists (S depth), w1. split_and!; [done | done | apply Hrun1].
Qed.

(** C3 as the code has it.  Whether [backup_device] tries again depends
    on the success flag of the adapter's result, not on the kind of error:
    with the retry allowed and a positive cap, a first capture that failed
    for any reason is followed by a second run of the adapter.  A first
    capture that succeeded is never followed by one: if the store then
    refuses the output, the result is a failure whose error is the store's
    behind [Storage error: ]. *)
Theorem retry_decided_by_success_flag (depth : nat)
    (self : Collector.BackupCollector) (device : Models.Device)
    (triggered_by : Py.str) (vendor_config : Config.VendorProfile)
    (a : Adapters.Adapter) (w : Host.World) (br : Adapters.BackupResult)
    (w2 : Host.World) :
  Collector._get_vendor_config self (Models.vendor device) = Some vendor_config ->
  Models.connection_type device ∈ Config.connection_types vendor_config ->
  Adapters.get_adapter (Models.vendor device)
    (Collector._prepare_device_info device) = Py.Ret a ->
  Collector.run_adapter a (Logic.begun device vendor_config triggered_by w)
  = (Py.Ret br, w2) ->
  0 < Config.MAX_RETRY (Collector.config self) ->
  exists r w',
    Collector.backup_device (S (S depth)) self device triggered_by true w
    = (Py.Ret r, w')
    /\ (Adapters.success br = false ->
        Host.w_attempts w' = (Host.w_attempts w + 2)%nat)
    /\ (Adapters.success br = true ->
        Host.w_attempts w' = S (Host.w_attempts w)
        /\ forall sr w3,
             Storage.save_backup (Collector.storage self) (Models.vendor device)
               (Models.id device) (Models.name device)
               (Models.ip_address device) (Models.connection_type device)
               (Config.backup_command vendor_config)
               (Py.str_of_opt (Adapters.output br))
               (Config.output_extension vendor_config)
               (Adapters.execution_time br) None w2 = (Py.Ret sr, w3) ->
             Storage.success sr = false ->
             Collector.success r = false
             /\ Collector.error r
                = Some (Py.u "Storage error: "
                          ++ Py.str_of_opt (Storage.error sr))).
Proof.
  intros Hcfg Hct Hga Hrun Hcap.
  assert (Hconn : Adapters.connection a = None).
  { apply get_adapter_Ret in Hga as [-> _]. reflexivity. }
  destruct (run_adapter_spec a (Logic.begun device vendor_config triggered_by w)
              Hconn)
    as (br' & w2' & Hrun' & Hh & _ & _ & Hdb & _ & _ & _ & Hatt).
  rewrite Hrun in Hrun'. injection Hrun' as <- <-. cbn in Hh, Hdb, Hatt.
  destruct (Adapters.success br) eqn:Hok.
  - destruct (save_backup_frame (Collector.storage self) (Models.vendor device)
                (Models.id device) (Models.name device)
                (Models.ip_address device) (Models.connection_type device)
                (Config.backup_command vendor_config)
                (Py.str_of_opt (Adapters.output br))
                (Config.output_extension vendor_config)
                (Adapters.execution_time br) None w2)
      as (sr & fs' & Hsave).
    pose proof (pass_captured _ _ _ _ Hcfg Hct _ Hga (S depth) true _ _ _ _ _
                  Hrun Hok Hsave) as Hpass.
    destruct (Storage.success sr) eqn:Hsr; eexists _, _;
      (split; [exact Hpass|]); (split; [done|]); intros _;
      (split; [by rewrite settled_attempts|]);
      intros sr' w3 Hsave' Hfail; rewrite Hsave in Hsave';
      injection Hsave' as <- <-; [congruence | done].
  - pose proof (pass_retried _ _ _ _ Hcfg Hct _ Hga (S depth) _ _ _
                  Hrun Hok Hh Hcap) as Hpass.
    destruct (backup_device_once self device triggered_by
                (Logic.bumped (length (Host.w_histories w)) w2))
      as (rr & w4 & Hrun2 & _ & [(Hrej & _) | (_ & h & _ & _ & _ & _ & _ & Hyes & _)]).
    { destruct Hrej. by exists vendor_config. }
    rewrite (Hrun2 depth) in Hpass.
    assert (Hatt4 : Host.w_attempts w4 = (Host.w_attempts w + 2)%nat).
    { rewrite Hyes by by exists a. cbn. lia. }
    destruct (Collector.success rr); eexists _, _;
      (split; [exact Hpass|]); (split; [|done]); intros _; [done|].
    by rewrite settled_attempts.
Qed.

Lemma retry_decided_by_success_flag_witness :
  exists r w',
    Collector.backup_device 2 Scenario.collector (Scenario.router "zte" 7)
      (Py.u "manual") true (Scenario.world (fun _ => Scenario.refusing))
    = (Py.Ret r, w')
    /\ Host.w_attempts w' = 2%nat.
Proof.
  set (device := Scenario.router "zte" 7).
  set (w := Scenario.world (fun _ => Scenario.refusing)).
  set (vendor_config :=
         {| Config.connection_types := [Py.u "ssh"; Py.u "telnet"];
            Config.backup_command := Py.u "show running-config";
            Config.output_extension := Py.u ".txt";
            Config.device_type := Py.u "zte_zxros" |}).
  set (a := {| Adapters.cls := Adapters.ZTEAdapter;
               Adapters.config := Config.get_config;
               Adapters.device_info := Collector._prepare_device_info device;
               Adapters.connection := None |}).
  assert (Hcfg : Collector._get_vendor_config Scenario.collector
                   (Models.vendor device) = Some vendor_config)
    by (vm_compute; reflexivity).
  assert (Hct : Models.connection_type device
                ∈ Config.connection_types vendor_config)
    by constructor.
  assert (Hga : Adapters.get_adapter (Models.vendor device)
                  (Collector._prepare_device_info device) = Py.Ret a)
    by (vm_compute; reflexivity).
  destruct (Collector.run_adapter a
              (Logic.begun device vendor_config (Py.u "manual") w))
    as [o w2] eqn:Hrun.
  assert (Ho : exists br, o = Py.Ret br /\ Adapters.success br = false).
  { replace o with (Collector.run_adapter a
                      (Logic.begun device vendor_config (Py.u "manual") w)).1
      by (rewrite Hrun; reflexivity).
    vm_compute. eexists. split; reflexivity. }
  destruct Ho as (br & -> & Hbr).
  destruct (retry_decided_by_success_flag 0 Scenario.collector device
              (Py.u "manual") vendor_config a w br w2 Hcfg Hct Hga Hrun)
    as (r & w' & Hdev & Hfail & _); [reflexivity|].
  exists r, w'. split; [exact Hdev | exact (Hfail Hbr)].
Defined.

Lemma retry_success_leaves_first_history_running_witness :
  exists h1 h2,
    Host.w_histories
      (Collector.backup_device 2 Scenario.collector (Scenario.router "cisco" 7)
         (Py.u "manual") true (Scenario.world Scenario.recovering)).2
    = [h1; h2]
    /\ Models.h_status h1 = Models.status_value Models.RUNNING
    /\ Models.h_completed_at h1 = None
    /\ Models.h_status h2 = Models.status_value Models.SUCCESS.
Proof.
  destruct (Collector.backup_device 2 Scenario.collector
              (Scenario.router "cisco" 7) (Py.u "manual") true
              (Scenario.world Scenario.recovering)) as [o w'] eqn:Hrun.
  assert (Ho : exists r, o = Py.Ret r /\ Collector.success r = true).
  { replace o with (Collector.backup_device 2 Scenario.collector
                      (Scenario.router "cisco" 7) (Py.u "manual") true
                      (Scenario.world Scenario.recovering)).1
      by (rewrite Hrun; reflexivity).
    vm_compute. eexists. split; reflexivity. }
  assert (Hatt : Host.w_attempts w'
                 = (Host.w_attempts (Scenario.world Scenario.recovering) + 2)%nat).
  { replace w' with (Collector.backup_device 2 Scenario.collector
                       (Scenario.router "cisco" 7) (Py.u "manual") true
                       (Scenario.world Scenario.recovering)).2
      by (rewrite Hrun; reflexivity).
    vm_compute. reflexivity. }
  destruct Ho as (r & -> & Hok).
  destruct (retry_success_leaves_first_history_running 2 Scenario.collector
              (Scenario.router "cisco" 7) (Py.u "manual")
              (Scenario.world Scenario.recovering) r w' Hrun Hok Hatt)
    as (h1 & h2 & Hh & Hs1 & Hc1 & _ & Hs2 & _).
  exists h1, h2. cbn [snd]. split_and!; [exact Hh | done..].
Defined.

(** C3, as the spec has it, fails.  The FTP service of the host is down,
    so the adapter of a relay device gives up before it opens a session: a
    precondition failure.  The collector runs the adapter a second time
    all the same. *)
Lemma precondition_failure_is_retried :
  let device := Scenario.router "zte" 7 in
  let w := Scenario.world (fun _ => Scenario.refusing) in
  let vendor_config :=
    {| Config.connection_types := [Py.u "ssh"; Py.u "telnet"];
       Config.backup_command := Py.u "show running-config";
       Config.output_extension := Py.u ".txt";
       Config.device_type := Py.u "zte_zxros" |} in
  let a :=
    {| Adapters.cls := Adapters.ZTEAdapter;
       Adapters.config := Config.get_config;
       Adapters.device_info := Collector._prepare_device_info device;
       Adapters.connection := None |} in
  let first :=
    Collector.run_adapter a
      (Logic.begun device vendor_config (Py.u "manual") w) in
  let run :=
    Collector.backup_device 2 Scenario.collector device (Py.u "manual") true w in
  Collector._get_vendor_config Scenario.collector (Models.vendor device)
  = Some vendor_config
  /\ Adapters.get_adapter (Models.vendor device)
       (Collector._prepare_device_info device) = Py.Ret a
  /\ (exists br,
        first.1 = Py.Ret br
        /\ Adapters.success br = false
        /\ Adapters.error br
           = Some (Py.u "FTP server is not enabled. Enable it in Web UI (ZTE FTP Ingestion)"))
  /\ Host.w_trace first.2 = []
  /\ Host.w_attempts first.2 = 1%nat
  /\ (exists r,
        run.1 = Py.Ret r
        /\ Collector.success r = false
        /\ Collector.error r
           = Some (Py.u "Failed after retry: FTP server is not enabled. Enable it in Web UI (ZTE FTP Ingestion)"))
  /\ Host.w_attempts run.2 = 2%nat
  /\ Host.w_trace run.2 = [].
Proof.
  cbv zeta. split_and!.
  - vm_compute. reflexivity.
  - vm_compute. reflexivity.
  - vm_compute. eexists. split_and!; reflexivity.
  - vm_compute. reflexivity.
  - vm_compute. reflexivity.
  - vm_compute. eexists. split_and!; reflexivity.
  - vm_compute. reflexivity.
  - vm_compute. reflexivity.
Qed.

(** ** The FTP ingestion *)

Section Ingestion.
Import Py Host Models FtpServer.

Lemma read_bytes_same (p : Fs.path) (fs : Fs.t) : (Fs.read_bytes p fs).2 = fs.
Proof. unfold Fs.read_bytes. by repeat case_match. Qed.

(** [_process_zte_backup] stops at its imports: the package [app] has no
    [create_app], so the function raises [ImportError] before it looks at
    the database or the file, and the host is as it was. *)
Lemma process_zte_backup_import_error (device_name file : str) (w : World) :
  exists e,
    _process_zte_backup device_name file w = (Raise e, w)
    /\ exn_cls e = ImportError.
Proof.
  unfold _process_zte_backup.
  erewrite bind_run; [|reflexivity].
  erewrite bind_run; [|reflexivity].
  erewrite bind_run; [|reflexivity].
  erewrite bind_run_raise; [|reflexivity].
  by eexists.
Qed.

Lemma process_zte_backup_unchanged (device_name file : str) (w : World) :
  exists o, _process_zte_backup device_name file w = (o, w).
Proof.
  destruct (process_zte_backup_import_error device_name file w) as (e & -> & _).
  by eexists.
Qed.

Lemma on_file_received_unchanged (file : str) (w : World) :
  on_file_received file w = (Ret tt, w).
Proof.
  unfold on_file_received, try_except.
  destruct (negb _); [done|]. destruct (_ <? _)%nat; [done|].
  destruct (process_zte_backup_unchanged (default [] (rev (parts file) !! 1%nat))
              file w) as ([[]|e] & ->); done.
Qed.

End Ingestion.

(** C8, as the code has it.  Whatever file an upload leaves and whatever
    the state of the host, [on_file_received] returns with the host as it
    was: no artifact is stored, no history is kept, the upload is not
    consumed.  For a file of the right name [_process_zte_backup] raises
    [ImportError] at [from app import create_app], which the handler
    catches.  Behind the imports nothing would work either: the row the
    function makes lacks three columns the table requires, so flushing it
    raises; and the method it would call next, [store_backup], is not one
    the storage manager has. *)
Theorem ftp_ingestion_stores_nothing (file : Py.str) (w : Host.World) :
  FtpServer.on_file_received file w = (Py.Ret tt, w)
  /\ (forall device_name w0,
        exists e,
          FtpServer._process_zte_backup device_name file w0 = (Py.Raise e, w0)
          /\ Py.exn_cls e = Py.ImportError)
  /\ Storage.getattr "store_backup" = None
  /\ forall device_id vendor content filename_prefix w0,
       exists e,
         FtpServer.call_store_backup device_id vendor content filename_prefix w0
         = (Py.Raise e, w0)
         /\ Py.exn_cls e = Py.AttributeError.
Proof.
  split; [apply on_file_received_unchanged|].
  split; [intros device_name w0; apply process_zte_backup_import_error|].
  split; [reflexivity|].
  intros device_id vendor content filename_prefix w0.
  eexists. split; reflexivity.
Qed.

(** An upload for a device the database knows, with the file in place:
    the query would find the device and the file could be read, and still
    nothing comes of it. *)
Lemma upload_for_known_device_is_lost :
  let file := Py.u "/ftp-root/zte/R1/startrun.dat" in
  let w :=
    Host.with_fs {[ Fs.of_str file := Fs.File (Py.u "olt") 420 ]}
      (Scenario.world (fun _ => Scenario.answering)) in
  (FtpServer.query_device (Py.u "R1") w).1
  = Py.Ret (Some (Scenario.router "zte" 7))
  /\ (Host.on_fs (Fs.read_bytes (Fs.of_str file)) w).1 = Py.Ret (Py.u "olt")
  /\ FtpServer.on_file_received file w = (Py.Ret tt, w).
Proof.
  cbv zeta. split_and!.
  - vm_compute. reflexivity.
  - vm_compute. reflexivity.
  - apply on_file_received_unchanged.
Qed.

(** * Further properties of the code *)

(** ** app/storage.py *)

Section StoreMore.
Import Py Host Storage Logic.

(** A save that succeeded went through the whole body. *)
Lemma save_backup_success_body self vendor device_id device_name device_ip
    connection_type backup_command config_output output_extension
    execution_time timestamp (w : World) (r : SaveResult) (w1 : World) :
  save_backup self vendor device_id device_name device_ip connection_type
    backup_command config_output output_extension execution_time timestamp w
  = (Ret r, w1) ->
  success r = true ->
  save_backup_body self vendor device_id device_name device_ip connection_type
    backup_command config_output output_extension execution_time timestamp w
  = (Ret r, w1).
Proof.
  intros Hsave Hok. rewrite save_backup_run in Hsave.
  destruct (save_backup_body _ _ _ _ _ _ _ _ _ _ _ w) as [[r'|e] w'] eqn:Hb.
  - by injection Hsave as -> ->.
  - unfold save_backup_handler in Hsave.
    destruct (decide _); injection Hsave as <- <-; discriminate.
Qed.

Lemma child_ne (dir : Fs.path) (a b : str) : a <> b -> dir ++ [a] <> dir ++ [b].
Proof. intros Hne Heq. by apply child_inj in Heq. Qed.

Lemma read_text_same (p : Fs.path) (fs : Fs.t) : (Fs.read_text p fs).2 = fs.
Proof.
  unfold Fs.read_text, bind. pose proof (read_bytes_same p fs) as Hsame.
  destruct (Fs.read_bytes p fs) as [[b|e] fs']; cbn [snd] in Hsame; subst fs';
    [|done].
  by destruct (text_read b).
Qed.

(** Reading and checking look at the files only. *)
Lemma get_backup_only_fs self p (w w' : World) :
  w_fs w = w_fs w' -> (get_backup self p w).1 = (get_backup self p w').1.
Proof.
  intros Hfs. unfold get_backup, bind, on_fs, zoom, Fs.exists_, gets.
  cbn [w_fs with_fs fst snd]. rewrite Hfs.
  destruct (negb _); [done|]. cbn [w_fs with_fs].
  by destruct (Fs.read_text (base_path self ++ p) (w_fs w')) as [[s|e] fs'].
Qed.

Lemma verify_checksum_only_fs self p (w w' : World) :
  w_fs w = w_fs w' -> (verify_checksum self p w).1 = (verify_checksum self p w').1.
Proof.
  intros Hfs. unfold verify_checksum, bind, on_fs, zoom, Fs.exists_, gets.
  cbn [w_fs with_fs fst snd]. rewrite Hfs.
  destruct (negb _ || negb _); [done|]. cbn [w_fs with_fs].
  pose proof (read_text_same
                (Fs.parent (base_path self ++ p) ++ [u "checksum.sha256"])
                (w_fs w')) as Hsame.
  destruct (Fs.read_text
              (Fs.parent (base_path self ++ p) ++ [u "checksum.sha256"])
              (w_fs w')) as [[s|e] fs']; [|done].
  cbn [snd] in Hsame. subst fs'.
  destruct (split s); [done|]. cbn [w_fs with_fs].
  by destruct (Fs.read_bytes (base_path self ++ p) (w_fs w')) as [[b|e] fs''].
Qed.

Lemma mkdir_walk_ok_Ret (target cur : Fs.path) (comps : list str) (fs fs' : Fs.t) :
  Fs.mkdir_walk true target cur comps fs = (Ret tt, fs') ->
  dir_chain fs' cur comps.
Proof.
  revert cur fs. induction comps as [|c rest IH]; intros cur fs.
  - intros _ k Hk. simpl in Hk. lia.
  - rewrite mkdir_walk_cons.
    destruct rest as [|c' rest']; cbv iota beta;
      destruct (fs !! (cur ++ [c])) as [[|]|] eqn:E; try discriminate.
    + intros [= <-]. apply dir_chain_cons. split; [done|].
      intros k Hk. simpl in Hk. lia.
    + intros [= <-]. apply dir_chain_cons. split.
      * apply lookup_insert_eq.
      * intros k Hk. simpl in Hk. lia.
    + intros H. apply dir_chain_cons. split; [|exact (IH _ _ H)].
      pose proof (mkdir_walk_keeps true target (cur ++ [c]) (c' :: rest') fs
                    _ _ E) as Hk.
      by rewrite H in Hk.
    + intros H. apply dir_chain_cons. split; [|exact (IH _ _ H)].
      pose proof (mkdir_walk_keeps true target (cur ++ [c]) (c' :: rest')
                    (<[cur ++ [c] := Fs.Dir]> fs) (cur ++ [c]) Fs.Dir
                    (lookup_insert_eq _ _ _)) as Hk.
      by rewrite H in Hk.
Qed.

Lemma mkdir_walk_ok_chain (target cur : Fs.path) (comps : list str) (fs : Fs.t) :
  dir_chain fs cur comps ->
  Fs.mkdir_walk true target cur comps fs = (Ret tt, fs).
Proof.
  revert cur. induction comps as [|c rest IH]; intros cur H; [done|].
  rewrite mkdir_walk_cons.
  apply dir_chain_cons in H as [H1 H2]. rewrite H1.
  destruct rest as [|c' rest']; [done|]. by apply IH.
Qed.

End StoreMore.

(** X1. A save that succeeds returns the three paths
    [vendor/id/YYYYMMDD_HHMMSS/name], relative to the base, the SHA-256 of
    the UTF-8 bytes of the text and their number, and no error; the three
    files are there, read-only, the config file holding those bytes and
    the checksum file the line [digest  name]. *)
Theorem save_backup_layout (self : Storage.StorageManager) (vendor : Py.str)
    (device_id : Z) (device_name device_ip connection_type : Py.str)
    (backup_command config_output output_extension : Py.str)
    (execution_time : Z) (timestamp : option Datetime.datetime)
    (w : Host.World) (r : Storage.SaveResult) (w1 : Host.World) :
  Storage.save_backup self vendor device_id device_name device_ip
    connection_type backup_command config_output output_extension
    execution_time timestamp w = (Py.Ret r, w1) ->
  Storage.success r = true ->
  let rel := [vendor; Py.str_of_int device_id;
              Datetime.strftime_compact (Logic.effective timestamp w)] in
  let name := Py.u "config" ++ output_extension in
  exists enc record meta,
    Py.encode_utf8 config_output = Some enc
    /\ Py.text_write (Hashlib.hexdigest enc ++ Py.u "  " ++ name ++ [10])
       = Some record
    /\ Storage.file_path r = Some (rel ++ [name])
    /\ Storage.metadata_path r = Some (rel ++ [Py.u "metadata.json"])
    /\ Storage.checksum_path r = Some (rel ++ [Py.u "checksum.sha256"])
    /\ Storage.checksum r = Some (Hashlib.hexdigest enc)
    /\ Storage.file_size r = Some (Z.of_nat (length enc))
    /\ Storage.error r = None
    /\ Host.w_fs w1 !! (Storage.base_path self ++ rel ++ [name])
       = Some (Fs.File enc 292)
    /\ Host.w_fs w1 !! (Storage.base_path self ++ rel ++ [Py.u "metadata.json"])
       = Some (Fs.File meta 292)
    /\ Host.w_fs w1 !! (Storage.base_path self ++ rel ++ [Py.u "checksum.sha256"])
       = Some (Fs.File record 292).
Proof.
  intros Hsave Hok rel name.
  apply save_backup_success_body in Hsave; [|done].
  apply save_backup_body_Ret in Hsave
    as (fs1 & fsf & enc & record & meta & _ & Henc & Hrec & -> & -> & H1 & H2 & H3 & _).
  exists enc, record, meta. unfold Storage._get_backup_path in *.
  rewrite <- !app_assoc in H1, H2, H3. by split_and!.
Qed.

(** X2. A save that succeeds only adds: every entry of the file system
    other than its three files is afterwards what it was before. *)
Theorem save_backup_only_adds (self : Storage.StorageManager) (vendor : Py.str)
    (device_id : Z) (device_name device_ip connection_type : Py.str)
    (backup_command config_output output_extension : Py.str)
    (execution_time : Z) (timestamp : option Datetime.datetime)
    (w : Host.World) (r : Storage.SaveResult) (w1 : Host.World)
    (p : Fs.path) (n : Fs.node) :
  Storage.save_backup self vendor device_id device_name device_ip
    connection_type backup_command config_output output_extension
    execution_time timestamp w = (Py.Ret r, w1) ->
  Storage.success r = true ->
  Host.w_fs w !! p = Some n ->
  Some p <> (fun q => Storage.base_path self ++ q) <$> Storage.file_path r ->
  Some p <> (fun q => Storage.base_path self ++ q) <$> Storage.metadata_path r ->
  Some p <> (fun q => Storage.base_path self ++ q) <$> Storage.checksum_path r ->
  Host.w_fs w1 !! p = Some n.
Proof.
  intros Hsave Hok Hp Hf Hm Hc.
  apply save_backup_success_body in Hsave; [|done].
  apply save_backup_body_Ret in Hsave
    as (fs1 & fsf & enc & record & meta & Hmk & _ & _ & -> & -> & _ & _ & _ & Hkeep & _).
  cbn [Host.w_fs Host.with_fs].
  cbn [Storage.file_path Storage.metadata_path Storage.checksum_path fmap
       option_fmap option_map] in Hf, Hm, Hc.
  unfold Storage._get_backup_path in Hkeep.
  rewrite <- !app_assoc in Hkeep.
  apply Hkeep; [|congruence..].
  unfold Fs.mkdir_parents in Hmk.
  pose proof (mkdir_walk_keeps false
                (Storage._get_backup_path self vendor device_id
                   (Logic.effective timestamp w)) []
                (Storage._get_backup_path self vendor device_id
                   (Logic.effective timestamp w)) _ _ _ Hp) as Hk.
  by rewrite Hmk in Hk.
Qed.

(** X3. A text without carriage return that was saved comes back from
    [get_backup] as it was, whatever else has happened on the host, as
    long as the files are as the save left them. *)
Theorem save_then_get_backup (self : Storage.StorageManager) (vendor : Py.str)
    (device_id : Z) (device_name device_ip connection_type : Py.str)
    (backup_command config_output output_extension : Py.str)
    (execution_time : Z) (timestamp : option Datetime.datetime)
    (w : Host.World) (r : Storage.SaveResult) (w1 w2 : Host.World)
    (p : Fs.path) :
  Storage.save_backup self vendor device_id device_name device_ip
    connection_type backup_command config_output output_extension
    execution_time timestamp w = (Py.Ret r, w1) ->
  Storage.success r = true ->
  Storage.file_path r = Some p ->
  13 ∉ config_output ->
  Host.w_fs w2 = Host.w_fs w1 ->
  (Storage.get_backup self p w2).1 = Py.Ret (Some config_output).
Proof.
  intros Hsave Hok Hp Hcr Hfs.
  rewrite (get_backup_only_fs self p w2 w1 Hfs).
  by erewrite get_backup_round_trip.
Qed.

(** X4. After a save that succeeded, [verify_checksum] on the returned
    path is true, as long as the files are as the save left them. *)
Theorem save_then_verify_checksum (self : Storage.StorageManager)
    (vendor : Py.str)
    (device_id : Z) (device_name device_ip connection_type : Py.str)
    (backup_command config_output output_extension : Py.str)
    (execution_time : Z) (timestamp : option Datetime.datetime)
    (w : Host.World) (r : Storage.SaveResult) (w1 w2 : Host.World)
    (p : Fs.path) :
  Storage.save_backup self vendor device_id device_name device_ip
    connection_type backup_command config_output output_extension
    execution_time timestamp w = (Py.Ret r, w1) ->
  Storage.success r = true ->
  Storage.file_path r = Some p ->
  Host.w_fs w2 = Host.w_fs w1 ->
  (Storage.verify_checksum self p w2).1 = Py.Ret true.
Proof.
  intros Hsave Hok Hp Hfs.
  rewrite (verify_checksum_only_fs self p w2 w1 Hfs).
  by erewrite verify_checksum_after_save.
Qed.

(** X5. If the stored config file is replaced by bytes with another
    SHA-256, [verify_checksum] is false. *)
Theorem verify_checksum_detects_change (self : Storage.StorageManager)
    (vendor : Py.str)
    (device_id : Z) (device_name device_ip connection_type : Py.str)
    (backup_command config_output output_extension : Py.str)
    (execution_time : Z) (timestamp : option Datetime.datetime)
    (w : Host.World) (r : Storage.SaveResult) (w1 : Host.World)
    (p : Fs.path) (enc content : Py.bytes) :
  Storage.save_backup self vendor device_id device_name device_ip
    connection_type backup_command config_output output_extension
    execution_time timestamp w = (Py.Ret r, w1) ->
  Storage.success r = true ->
  Storage.file_path r = Some p ->
  Py.encode_utf8 config_output = Some enc ->
  Hashlib.hexdigest content <> Hashlib.hexdigest enc ->
  (Storage.verify_checksum self p
     (Host.with_fs
        (<[Storage.base_path self ++ p := Fs.File content 292]> (Host.w_fs w1))
        w1)).1
  = Py.Ret false.
Proof.
  intros Hsave Hok Hp Henc Hne.
  pose proof (verify_checksum_detects _ _ _ _ _ _ _ _ _ _ _ _ _ _ Hsave Hok
                p content enc Hp Henc Hne) as H.
  cbv zeta in H.
  destruct (save_backup_success _ _ _ _ _ _ _ _ _ _ _ _ _ _ Hsave Hok)
    as (_ & _ & _ & _ & _ & (p' & Hp' & Hbase) & _).
  rewrite Hp in Hp'. injection Hp' as <-. rewrite Hbase. by rewrite H.
Qed.

(** X6. [get_backup] on a path that does not exist returns [None] and
    leaves the host alone. *)
Theorem get_backup_missing (self : Storage.StorageManager) (p : Fs.path)
    (w : Host.World) :
  Fs.stat (Host.w_fs w) (Storage.base_path self ++ p) = None ->
  Storage.get_backup self p w = (Py.Ret None, w).
Proof.
  intros Hnone. unfold Storage.get_backup, Py.bind, Host.on_fs, Py.zoom,
    Fs.exists_, Py.gets.
  rewrite Hnone, with_fs_same.
  rewrite bool_decide_eq_false_2; [done|]. by intros [? ?].
Qed.

(** X7. [get_backup] on a path that is a directory does not return
    [None]: it raises [IsADirectoryError]. *)
Theorem get_backup_directory_raises (self : Storage.StorageManager)
    (p : Fs.path) (w : Host.World) :
  Fs.stat (Host.w_fs w) (Storage.base_path self ++ p) = Some Fs.Dir ->
  Storage.get_backup self p w
  = (Py.Raise (Fs.EISDIR (Storage.base_path self ++ p)), w).
Proof.
  intros Hdir. unfold Storage.get_backup, Py.bind, Host.on_fs, Py.zoom,
    Fs.exists_, Py.gets.
  rewrite Hdir, with_fs_same.
  rewrite bool_decide_eq_true_2 by done. cbn [negb].
  unfold Fs.read_text, Py.bind, Fs.read_bytes. rewrite Hdir.
  by rewrite with_fs_same.
Qed.

(** X8. [verify_checksum] is false, without raising, when the config file
    or the checksum file beside it does not exist. *)
Theorem verify_checksum_missing (self : Storage.StorageManager) (p : Fs.path)
    (w : Host.World) :
  Fs.stat (Host.w_fs w) (Storage.base_path self ++ p) = None
  \/ Fs.stat (Host.w_fs w)
       (Fs.parent (Storage.base_path self ++ p) ++ [Py.u "checksum.sha256"])
     = None ->
  Storage.verify_checksum self p w = (Py.Ret false, w).
Proof.
  intros Hnone. unfold Storage.verify_checksum, Py.bind, Host.on_fs, Py.zoom,
    Fs.exists_, Py.gets.
  rewrite !with_fs_same.
  assert (Hno : forall q, Fs.stat (Host.w_fs w) q = None ->
                  bool_decide (is_Some (Fs.stat (Host.w_fs w) q)) = false).
  { intros q Hq. rewrite Hq. apply bool_decide_eq_false_2. by intros [? ?]. }
  destruct Hnone as [H|H]; rewrite (Hno _ H); [done|].
  by rewrite orb_true_r.
Qed.

(** X9. [verify_checksum] raises [IndexError] when the checksum file holds
    nothing but blanks: the first word of its text is taken without a
    check. *)
Theorem verify_checksum_blank_record_raises (self : Storage.StorageManager)
    (p : Fs.path) (w : Host.World) (n : Fs.node) (data : Py.bytes) (mode : Z)
    (text : Py.str) :
  Fs.stat (Host.w_fs w) (Storage.base_path self ++ p) = Some n ->
  Fs.stat (Host.w_fs w)
    (Fs.parent (Storage.base_path self ++ p) ++ [Py.u "checksum.sha256"])
  = Some (Fs.File data mode) ->
  Fs.owner_may_read mode = true ->
  Py.text_read data = Some text ->
  Py.split text = [] ->
  Storage.verify_checksum self p w
  = (Py.Raise (Py.Exn Py.IndexError (Py.u "list index out of range")), w).
Proof.
  intros Hn Hc Hmode Htext Hsplit.
  unfold Storage.verify_checksum, Py.bind, Host.on_fs, Py.zoom,
    Fs.exists_, Py.gets.
  rewrite !with_fs_same, Hn, Hc.
  rewrite !bool_decide_eq_true_2 by done. cbn [negb orb].
  unfold Fs.read_text, Py.bind, Fs.read_bytes.
  rewrite Hc, Hmode, Htext. cbn [Py.ret]. rewrite with_fs_same, Hsplit.
  reflexivity.
Qed.

(** X10. A text that has no UTF-8 encoding makes [save_backup] fail with
    an error, but only after the directory of the backup has been made:
    the directory stays, and a later save for the same vendor, device and
    second is refused as an immutability violation. *)
Theorem save_backup_unencodable_leaves_directory
    (self : Storage.StorageManager) (vendor : Py.str)
    (device_id : Z) (device_name device_ip connection_type : Py.str)
    (backup_command config_output output_extension : Py.str)
    (execution_time : Z) (timestamp : option Datetime.datetime)
    (w : Host.World) (fs1 : Fs.t) :
  Py.encode_utf8 config_output = None ->
  Fs.mkdir_parents false
    (Storage._get_backup_path self vendor device_id
       (Logic.effective timestamp w)) (Host.w_fs w) = (Py.Ret tt, fs1) ->
  exists r,
    Storage.save_backup self vendor device_id device_name device_ip
      connection_type backup_command config_output output_extension
      execution_time timestamp w = (Py.Ret r, Host.with_fs fs1 w)
    /\ Storage.success r = false
    /\ is_Some (Storage.error r)
    /\ fs1 !! Storage._get_backup_path self vendor device_id
                (Logic.effective timestamp w) = Some Fs.Dir
    /\ forall device_name' device_ip' connection_type' backup_command'
         config_output' output_extension' execution_time',
         Storage.save_backup self vendor device_id device_name' device_ip'
           connection_type' backup_command' config_output' output_extension'
           execution_time' timestamp (Host.with_fs fs1 w)
         = (Py.Ret (Storage.with_error Logic.immutability_violation
                      Storage.initial_result), Host.with_fs fs1 w).
Proof.
  intros Henc Hmk.
  assert (Hchain : Logic.dir_chain fs1 []
                     (Storage._get_backup_path self vendor device_id
                        (Logic.effective timestamp w)))
    by (eapply mkdir_walk_Ret; exact Hmk).
  eexists. split_and!.
  - rewrite save_backup_run. unfold Storage.save_backup_body.
    assert (Hts : match timestamp with
                  | Some ts => Py.ret ts
                  | None => Host.utcnow
                  end w = (Py.Ret (Logic.effective timestamp w), w))
      by by destruct timestamp.
    rewrite (bind_run _ _ _ _ _ Hts).
    rewrite (bind_run _ _ _ _ _ (on_fs_run _ _ _ _ Hmk)).
    unfold Py.bind at 1, Storage.encode. rewrite Henc.
    unfold Py.raise, Storage.save_backup_handler. cbn [Py.exn_cls].
    destruct (decide _); [discriminate|]. reflexivity.
  - reflexivity.
  - by eexists.
  - specialize (Hchain (length (Storage._get_backup_path self vendor device_id
                                  (Logic.effective timestamp w)))).
    rewrite firstn_all in Hchain. apply Hchain.
    unfold Storage._get_backup_path. rewrite length_app. cbn [length]. lia.
  - intros. by apply save_backup_exists.
Qed.

(** X11. When [_ensure_base_directory] returns, the base path and every
    path above it is a directory, what was on the disk before is still
    there, and a second call changes nothing. *)
Theorem ensure_base_directory_idempotent (self : Storage.StorageManager)
    (w w1 : Host.World) :
  Storage._ensure_base_directory self w = (Py.Ret tt, w1) ->
  Logic.dir_chain (Host.w_fs w1) [] (Storage.base_path self)
  /\ (forall p n, Host.w_fs w !! p = Some n -> Host.w_fs w1 !! p = Some n)
  /\ Storage._ensure_base_directory self w1 = (Py.Ret tt, w1).
Proof.
  intros Hrun. unfold Storage._ensure_base_directory in *.
  apply on_fs_Ret in Hrun as (fs' & Hmk & ->). cbn [Host.w_fs Host.with_fs].
  pose proof (mkdir_walk_ok_Ret _ _ _ _ _ Hmk) as Hchain.
  split_and!.
  - exact Hchain.
  - intros p n Hp.
    pose proof (mkdir_walk_keeps true (Storage.base_path self) []
                  (Storage.base_path self) _ _ _ Hp) as Hk.
    unfold Fs.mkdir_parents in Hmk. by rewrite Hmk in Hk.
  - erewrite on_fs_run; [|apply mkdir_walk_ok_chain, Hchain].
    reflexivity.
Qed.

(** The save of the scenario, run: it succeeds and names its file. *)
Ltac scenario_saved o w1 r Hrun Hok Hp :=
  destruct (Scenario.save (Py.u "hostname R1") (Some Scenario.noon)
              (Scenario.world (fun _ => Scenario.answering)))
    as [o w1] eqn:Hrun;
  assert (exists r, o = Py.Ret r /\ Storage.success r = true
                    /\ Storage.file_path r
                       = Some [Py.u "cisco"; Py.u "7"; Py.u "20240229_120000";
                               Py.u "config.txt"]) as (r & -> & Hok & Hp)
    by (replace o with (Scenario.save (Py.u "hostname R1") (Some Scenario.noon)
                          (Scenario.world (fun _ => Scenario.answering))).1
          by (rewrite Hrun; reflexivity);
        vm_compute; eexists; split_and!; reflexivity);
  cbn [fst snd]; unfold Scenario.save in Hrun.

Lemma save_backup_layout_witness :
  exists r,
    (Scenario.save (Py.u "hostname R1") (Some Scenario.noon)
       (Scenario.world (fun _ => Scenario.answering))).1 = Py.Ret r
    /\ Storage.checksum r = Some (Hashlib.hexdigest (Py.u "hostname R1"))
    /\ Storage.file_size r = Some 11.
Proof.
  scenario_saved o w1 r Hrun Hok Hp.
  destruct (save_backup_layout _ _ _ _ _ _ _ _ _ _ _ _ _ _ Hrun Hok)
    as (enc & record & meta & Henc & _ & _ & _ & _ & Hsum & Hsize & _).
  exists r. split; [reflexivity|].
  assert (Some enc = Some (Py.u "hostname R1")) as [= ->]
    by (rewrite <- Henc; vm_compute; reflexivity).
  by split.
Defined.

Lemma save_backup_only_adds_witness :
  Host.w_fs
    (Scenario.save (Py.u "hostname R1") (Some Scenario.noon)
       (Host.with_fs {[ [Py.u "etc"] := Fs.Dir ]}
          (Scenario.world (fun _ => Scenario.answering)))).2
  !! [Py.u "etc"] = Some Fs.Dir.
Proof.
  destruct (Scenario.save (Py.u "hostname R1") (Some Scenario.noon)
              (Host.with_fs {[ [Py.u "etc"] := Fs.Dir ]}
                 (Scenario.world (fun _ => Scenario.answering))))
    as [o w1] eqn:Hrun.
  assert (exists r, o = Py.Ret r /\ Storage.success r = true
                    /\ Storage.file_path r
                       = Some [Py.u "cisco"; Py.u "7"; Py.u "20240229_120000";
                               Py.u "config.txt"]
                    /\ Storage.metadata_path r
                       = Some [Py.u "cisco"; Py.u "7"; Py.u "20240229_120000";
                               Py.u "metadata.json"]
                    /\ Storage.checksum_path r
                       = Some [Py.u "cisco"; Py.u "7"; Py.u "20240229_120000";
                               Py.u "checksum.sha256"])
    as (r & -> & Hok & Hf & Hm & Hc).
  { replace o with (Scenario.save (Py.u "hostname R1") (Some Scenario.noon)
                      (Host.with_fs {[ [Py.u "etc"] := Fs.Dir ]}
                         (Scenario.world (fun _ => Scenario.answering)))).1
      by (rewrite Hrun; reflexivity).
    vm_compute. eexists. split_and!; reflexivity. }
  cbn [snd]. unfold Scenario.save in Hrun.
  apply (save_backup_only_adds _ _ _ _ _ _ _ _ _ _ _ _ _ _ _ _ Hrun Hok).
  - reflexivity.
  - rewrite Hf. vm_compute. discriminate.
  - rewrite Hm. vm_compute. discriminate.
  - rewrite Hc. vm_compute. discriminate.
Defined.

Lemma save_then_get_backup_witness :
  (Storage.get_backup Scenario.store
     [Py.u "cisco"; Py.u "7"; Py.u "20240229_120000"; Py.u "config.txt"]
     (Scenario.save (Py.u "hostname R1") (Some Scenario.noon)
        (Scenario.world (fun _ => Scenario.answering))).2).1
  = Py.Ret (Some (Py.u "hostname R1")).
Proof.
  scenario_saved o w1 r Hrun Hok Hp.
  apply (save_then_get_backup _ _ _ _ _ _ _ _ _ _ _ _ _ _ w1 _ Hrun Hok Hp);
    [|reflexivity].
  apply (bool_decide_unpack (13 ∉ Py.u "hostname R1")). vm_compute. exact I.
Defined.

Lemma save_then_verify_checksum_witness :
  (Storage.verify_checksum Scenario.store
     [Py.u "cisco"; Py.u "7"; Py.u "20240229_120000"; Py.u "config.txt"]
     (Scenario.save (Py.u "hostname R1") (Some Scenario.noon)
        (Scenario.world (fun _ => Scenario.answering))).2).1
  = Py.Ret true.
Proof.
  scenario_saved o w1 r Hrun Hok Hp.
  by apply (save_then_verify_checksum _ _ _ _ _ _ _ _ _ _ _ _ _ _ w1 _ Hrun Hok Hp).
Defined.

Lemma verify_checksum_detects_change_witness :
  let w1 := (Scenario.save (Py.u "hostname R1") (Some Scenario.noon)
               (Scenario.world (fun _ => Scenario.answering))).2 in
  let p := [Py.u "cisco"; Py.u "7"; Py.u "20240229_120000"; Py.u "config.txt"] in
  (Storage.verify_checksum Scenario.store p
     (Host.with_fs
        (<[Storage.base_path Scenario.store ++ p
           := Fs.File (Py.u "hostname R2") 292]> (Host.w_fs w1)) w1)).1
  = Py.Ret false.
Proof.
  cbv zeta. scenario_saved o w1 r Hrun Hok Hp.
  apply (verify_checksum_detects_change _ _ _ _ _ _ _ _ _ _ _ _ _ _ _
           (Py.u "hostname R1") (Py.u "hostname R2") Hrun Hok Hp).
  - vm_compute. reflexivity.
  - vm_compute. discriminate.
Defined.

Lemma get_backup_missing_witness :
  Storage.get_backup Scenario.store [Py.u "cisco"; Py.u "7"; Py.u "config.txt"]
    (Scenario.world (fun _ => Scenario.answering))
  = (Py.Ret None, Scenario.world (fun _ => Scenario.answering)).
Proof. apply get_backup_missing. vm_compute. reflexivity. Defined.

Lemma get_backup_directory_raises_witness :
  let w := Host.with_fs {[ Storage.base_path Scenario.store := Fs.Dir ]}
             (Scenario.world (fun _ => Scenario.answering)) in
  Storage.get_backup Scenario.store [] w
  = (Py.Raise (Fs.EISDIR (Storage.base_path Scenario.store ++ [])), w).
Proof. apply get_backup_directory_raises. vm_compute. reflexivity. Defined.

Lemma verify_checksum_missing_witness :
  Storage.verify_checksum Scenario.store
    [Py.u "cisco"; Py.u "7"; Py.u "config.txt"]
    (Scenario.world (fun _ => Scenario.answering))
  = (Py.Ret false, Scenario.world (fun _ => Scenario.answering)).
Proof. apply verify_checksum_missing. left. vm_compute. reflexivity. Defined.

Lemma verify_checksum_blank_record_raises_witness :
  let dir := Storage.base_path Scenario.store ++ [Py.u "cisco"] in
  let w := Host.with_fs
             {[ dir ++ [Py.u "config.txt"] := Fs.File (Py.u "hostname R1") 292;
                dir ++ [Py.u "checksum.sha256"] := Fs.File (Py.u "  ") 292 ]}
             (Scenario.world (fun _ => Scenario.answering)) in
  Storage.verify_checksum Scenario.store [Py.u "cisco"; Py.u "config.txt"] w
  = (Py.Raise (Py.Exn Py.IndexError (Py.u "list index out of range")), w).
Proof.
  cbv zeta.
  apply (verify_checksum_blank_record_raises Scenario.store
           [Py.u "cisco"; Py.u "config.txt"] _
           (Fs.File (Py.u "hostname R1") 292) (Py.u "  ") 292 (Py.u "  "));
    vm_compute; reflexivity.
Defined.

Lemma save_backup_unencodable_leaves_directory_witness :
  exists r,
    (Scenario.save [55296] (Some Scenario.noon)
       (Scenario.world (fun _ => Scenario.answering))).1 = Py.Ret r
    /\ Storage.success r = false.
Proof.
  destruct (Fs.mkdir_parents false
              (Storage._get_backup_path Scenario.store (Py.u "cisco") 7
                 (Logic.effective (Some Scenario.noon)
                    (Scenario.world (fun _ => Scenario.answering))))
              (Host.w_fs (Scenario.world (fun _ => Scenario.answering))))
    as [o fs1] eqn:Hmk.
  assert (o = Py.Ret tt) as ->.
  { replace o with (Fs.mkdir_parents false
              (Storage._get_backup_path Scenario.store (Py.u "cisco") 7
                 (Logic.effective (Some Scenario.noon)
                    (Scenario.world (fun _ => Scenario.answering))))
              (Host.w_fs (Scenario.world (fun _ => Scenario.answering)))).1
      by (rewrite Hmk; reflexivity).
    vm_compute. reflexivity. }
  destruct (save_backup_unencodable_leaves_directory Scenario.store
              (Py.u "cisco") 7 (Py.u "R1") (Py.u "192.0.2.1") (Py.u "ssh")
              (Py.u "show running-config") [55296] (Py.u ".txt") 3
              (Some Scenario.noon)
              (Scenario.world (fun _ => Scenario.answering)) fs1)
    as (r & Hrun & Hfail & _); [vm_compute; reflexivity | exact Hmk |].
  exists r. unfold Scenario.save. rewrite Hrun. by split.
Defined.

Lemma ensure_base_directory_idempotent_witness :
  let w1 := (Storage._ensure_base_directory Scenario.store
               (Scenario.world (fun _ => Scenario.answering))).2 in
  Storage._ensure_base_directory Scenario.store w1 = (Py.Ret tt, w1).
Proof.
  cbv zeta.
  destruct (Storage._ensure_base_directory Scenario.store
              (Scenario.world (fun _ => Scenario.answering)))
    as [o w1] eqn:Hrun.
  assert (o = Py.Ret tt) as ->.
  { replace o with (Storage._ensure_base_directory Scenario.store
                      (Scenario.world (fun _ => Scenario.answering))).1
      by (rewrite Hrun; reflexivity).
    vm_compute. reflexivity. }
  cbn [snd]. by apply (ensure_base_directory_idempotent _ _ _ Hrun).
Defined.

(** ** app/adapters.py *)

(** X12. When the device refuses the login, [backup] of an adapter other
    than the relay one returns a failure whose error is
    [Authentication failed for] and the address; no session was opened and
    no command sent, and the object is left without a connection. *)
Theorem backup_reports_refused_login (a : Adapters.Adapter) (w : Host.World) :
  Adapters.cls a <> Adapters.ZTEAdapter ->
  Adapters.connection a = None ->
  (forall c, exists s, Host.w_decrypt w c = Py.Ret s) ->
  Host.b_connect (Host.w_behaviour w (Host.w_attempts w)) = Host.ConnAuthFail ->
  exists r w',
    Adapters.backup (a, w) = (Py.Ret r, (a, w'))
    /\ Adapters.success r = false
    /\ Adapters.output r = None
    /\ Adapters.error r
       = Some (Py.u "Authentication failed for "
                 ++ Adapters.ip_address (Adapters.device_info a))
    /\ Host.w_trace w' = Host.w_trace w
    /\ Host.w_sessions w' = Host.w_sessions w
    /\ Host.w_fs w' = Host.w_fs w.
Proof.
  intros Hcls Hconn Hdec Hc.
  set (env := Host.w_behaviour w (Host.w_attempts w)) in *.
  assert (Hrun : Adapters.backup (a, w)
                 = Adapters.base_backup env
                     (a, Host.with_attempts (S (Host.w_attempts w)) w)).
  { unfold Adapters.backup, Py.bind, Adapters.host, Py.zoom, Adapters.self,
      Py.gets, Py.modify. cbn [fst snd]. fold env.
    destruct (Adapters.cls a); (done || by destruct Hcls). }
  rewrite Hrun. unfold Adapters.base_backup.
  erewrite bind_run; [|apply host_run; reflexivity].
  unfold Py.try_finally, Py.try_except.
  erewrite bind_run_raise; [|by apply connect_refused].
  cbn [Py.ret]. unfold Adapters.disconnect, Py.bind, Adapters.self, Py.gets.
  cbn [fst]. rewrite Hconn. cbn [Py.ret].
  eexists _, _. split; [reflexivity|]. by split_and!.
Qed.

(** X13. When the device lets the adapter in and answers the command,
    [backup] of an adapter other than the relay one (without enable
    password) returns a success with the answer as output, the SHA-256 of
    its UTF-8 bytes as checksum and the time the command took.  On the
    wire there was one session: opened, sent the one command of the class,
    closed, also when closing raises. *)
Theorem backup_captures_output (a : Adapters.Adapter) (w : Host.World)
    (text : Py.str) (enc : Py.bytes) :
  let env := Host.w_behaviour w (Host.w_attempts w) in
  Adapters.cls a <> Adapters.ZTEAdapter ->
  Adapters.connection a = None ->
  Adapters.truthy_str (Adapters.enable_password (Adapters.device_info a)) = false ->
  (forall c, exists s, Host.w_decrypt w c = Py.Ret s) ->
  Host.b_connect env = Host.ConnOk ->
  Host.b_send env = Py.Ret text ->
  Py.encode_utf8 text = Some enc ->
  exists r w' dtype port,
    Adapters.backup (a, w) = (Py.Ret r, (a, w'))
    /\ Adapters.success r = true
    /\ Adapters.output r = Some text
    /\ Adapters.checksum r = Some (Hashlib.hexdigest enc)
    /\ Adapters.execution_time r = Z.of_nat (Host.b_send_secs env)
    /\ Adapters.error r = None
    /\ Host.w_trace w'
       = Host.w_trace w
           ++ [Host.EvOpen (Host.w_sessions w)
                 (Adapters.ip_address (Adapters.device_info a)) dtype port;
               Host.EvSend (Host.w_sessions w)
                 (Adapters.backup_command (Adapters.cls a));
               Host.EvClose (Host.w_sessions w)]
    /\ Host.w_time w'
       = Host.w_time w + Z.of_nat (Host.b_connect_secs env)
         + Z.of_nat (Host.b_send_secs env).
Proof.
  intros env Hcls Hconn Hen Hdec Hc Hsend Henc.
  assert (Hrun : Adapters.backup (a, w)
                 = Adapters.base_backup env
                     (a, Host.with_attempts (S (Host.w_attempts w)) w)).
  { unfold Adapters.backup, Py.bind, Adapters.host, Py.zoom, Adapters.self,
      Py.gets, Py.modify. cbn [fst snd]. fold env.
    destruct (Adapters.cls a); (done || by destruct Hcls). }
  rewrite Hrun. unfold Adapters.base_backup.
  erewrite bind_run; [|apply host_run; reflexivity].
  destruct (connect_ok env a (Host.with_attempts (S (Host.w_attempts w)) w))
    as (params & Hp & Hco); [done..|].
  destruct (get_connection_params_run a
              (Host.with_attempts (S (Host.w_attempts w)) w) Hdec)
    as (params' & Hp' & Hhost & _).
  rewrite Hp in Hp'. injection Hp' as <-.
  unfold Py.try_finally, Py.try_except.
  rewrite (bind_run _ _ _ _ _ Hco).
  erewrite bind_run; [|by eapply execute_backup_ok].
  cbn [fst snd]. unfold Py.bind at 1, Storage.encode. rewrite Henc.
  cbn [Py.ret fst snd].
  erewrite disconnect_open; [|reflexivity].
  eexists _, _, (Adapters.p_device_type params), (Adapters.p_port params).
  split.
  { f_equal. f_equal. by destruct a; cbn in *; subst. }
  cbn [Adapters.success Adapters.output Adapters.checksum
       Adapters.execution_time Adapters.error Host.w_trace Host.with_trace
       Host.w_time Host.with_time Host.with_sessions Host.with_attempts].
  rewrite Hhost, <- !app_assoc. by split_and!.
Qed.

(** X14. [disconnect] never raises and always leaves the object without a
    connection.  Without a connection it does nothing; with one it asks
    the session to close, and an error of the close is dropped. *)
Theorem disconnect_always_clears (env : Host.behaviour) (a : Adapters.Adapter)
    (w : Host.World) :
  exists w',
    Adapters.disconnect env (a, w)
    = (Py.Ret tt, (Adapters.set_connection None a, w'))
    /\ w' = match Adapters.connection a with
            | None => w
            | Some sid =>
                Host.with_trace (Host.w_trace w ++ [Host.EvClose sid]) w
            end.
Proof.
  destruct (Adapters.connection a) as [sid|] eqn:Hconn.
  - eexists. split; [by apply disconnect_open | reflexivity].
  - exists w. split; [|reflexivity].
    unfold Adapters.disconnect, Py.bind, Adapters.self, Py.gets. cbn [fst].
    rewrite Hconn. unfold Py.ret. do 2 f_equal.
    by destruct a; cbn in *; subst.
Qed.

(** X15. When the FTP service is not running, or no FTP password is set,
    [backup] of the relay adapter fails at once with the matching error:
    no session to the device is opened, no command is sent and the disk
    is not touched; the host only counts the attempt. *)
Theorem relay_backup_needs_ftp (a : Adapters.Adapter) (w : Host.World) :
  let env := Host.w_behaviour w (Host.w_attempts w) in
  Adapters.cls a = Adapters.ZTEAdapter ->
  Adapters.connection a = None ->
  is_Some (Py.int_of_str
             (default (Py.u "21")
                (Host.w_environ w !! Py.u "LEUITCSS_FTP_PORT"))) ->
  Host.b_ftp_active env = false \/ Logic.ftp_password_of w = [] ->
  exists r,
    Adapters.backup (a, w)
    = (Py.Ret r, (a, Host.with_attempts (S (Host.w_attempts w)) w))
    /\ Adapters.success r = false
    /\ Adapters.error r
       = Some (if Host.b_ftp_active env
               then Py.u "FTP password not configured in .env file"
               else Py.u "FTP server is not enabled. Enable it in Web UI (ZTE FTP Ingestion)").
Proof.
  intros env Hcls Hconn [port Hport] Hpre.
  assert (Hrun : Adapters.backup (a, w)
                 = Adapters.zte_backup env
                     (a, Host.with_attempts (S (Host.w_attempts w)) w)).
  { unfold Adapters.backup, Py.bind, Adapters.host, Py.zoom, Adapters.self,
      Py.gets, Py.modify. cbn [fst snd]. fold env. by rewrite Hcls. }
  rewrite Hrun. unfold Adapters.zte_backup.
  erewrite bind_run; [|apply host_run; reflexivity].
  erewrite bind_run; [|apply host_run; reflexivity].
  unfold Py.bind at 1, Adapters.self at 1, Py.gets at 1. cbn [fst].
  assert (Hcfg : Adapters._get_ftp_config env
                   (a, Host.with_attempts (S (Host.w_attempts w)) w)
                 = (Py.Ret {| Adapters.ftp_enabled := Host.b_ftp_active env;
                              Adapters.ftp_port := port;
                              Adapters.ftp_user := Logic.ftp_user_of w;
                              Adapters.ftp_password := Logic.ftp_password_of w;
                              Adapters.ftp_root :=
                                default (Py.u "/var/lib/leuitcss/ftp-ingestion")
                                  (Host.w_environ w !! Py.u "LEUITCSS_FTP_ROOT") |},
                    (a, Host.with_attempts (S (Host.w_attempts w)) w))).
  { unfold Adapters._get_ftp_config, Adapters._is_ftp_service_running.
    unfold Py.bind, Py.ret, Adapters.host, Py.zoom, Host.environ_get, Py.gets.
    cbn [fst snd Host.w_environ Host.with_attempts]. rewrite Hport.
    reflexivity. }
  unfold Py.try_finally, Py.try_except.
  rewrite (bind_run _ _ _ _ _ Hcfg). cbn [Adapters.ftp_enabled Adapters.ftp_password].
  assert (Hdis : forall s0 : Adapters.Obj,
            Adapters.connection s0.1 = None ->
            Adapters.disconnect env s0 = (Py.Ret tt, s0)).
  { intros [a0 w0] H0. cbn [fst] in H0.
    unfold Adapters.disconnect, Py.bind, Adapters.self, Py.gets. cbn [fst].
    by rewrite H0. }
  destruct (Host.b_ftp_active env) eqn:Hact.
  - destruct Hpre as [?|Hpw]; [done|]. rewrite Hpw.
    cbn [negb]. erewrite bind_run; [|reflexivity].
    rewrite bool_decide_eq_true_2 by done.
    erewrite bind_run_raise; [|reflexivity].
    erewrite bind_run; [|apply host_run; reflexivity].
    cbn [Py.ret]. rewrite Hdis by done.
    eexists. split; [reflexivity|]. cbn. by split.
  - cbn [negb]. erewrite bind_run_raise; [|reflexivity].
    erewrite bind_run; [|apply host_run; reflexivity].
    cbn [Py.ret]. rewrite Hdis by done.
    eexists. split; [reflexivity|]. cbn. by split.
Qed.

(** X16. The command table of the configuration and the registry of
    adapters agree.  For every vendor the table accepts, [get_adapter]
    (which ignores case) returns a fresh object of the class of that name,
    whose device type is the table's; but for the relay vendor zte, its
    command and extension are the table's as well. *)
Theorem accepted_vendor_has_adapter (vendor : Py.str)
    (vendor_config : Config.VendorProfile) (info : Adapters.DeviceInfo) :
  Config.VENDOR_COMMANDS Config.get_config !! Py.lower vendor
  = Some vendor_config ->
  exists a,
    Adapters.get_adapter vendor info = Py.Ret a
    /\ Adapters.vendor_name (Adapters.cls a) = Py.lower vendor
    /\ Adapters.device_info a = info
    /\ Adapters.connection a = None
    /\ Adapters.device_type (Adapters.cls a) = Config.device_type vendor_config
    /\ (Py.lower vendor <> Py.u "zte" ->
        Adapters.backup_command (Adapters.cls a)
        = Config.backup_command vendor_config
        /\ Adapters.output_extension (Adapters.cls a)
           = Config.output_extension vendor_config).
Proof.
  intros Hcfg. cbn [Config.VENDOR_COMMANDS Config.get_config] in Hcfg.
  apply elem_of_list_to_map_2 in Hcfg. unfold Config.vendor_table in Hcfg.
  unfold Adapters.get_adapter.
  repeat (apply elem_of_cons in Hcfg as [Hcfg|Hcfg];
          [apply pair_equal_spec in Hcfg as [-> ->];
           eexists; split; [reflexivity|]; by split_and!|]).
  by apply elem_of_nil in Hcfg.
Qed.

(** X17. For a vendor the command table does not have, [get_adapter]
    raises [ValueError]: the two tables have the same vendors. *)
Theorem unknown_vendor_has_no_adapter (vendor : Py.str)
    (info : Adapters.DeviceInfo) :
  Config.VENDOR_COMMANDS Config.get_config !! Py.lower vendor = None ->
  exists e,
    Adapters.get_adapter vendor info = Py.Raise e
    /\ Py.exn_cls e = Py.ValueError.
Proof.
  intros Hcfg. cbn [Config.VENDOR_COMMANDS Config.get_config] in Hcfg.
  apply not_elem_of_list_to_map in Hcfg.
  unfold Adapters.get_adapter.
  assert (Hnone : Adapters.VENDOR_ADAPTERS !! Py.lower vendor = None).
  { apply not_elem_of_list_to_map. exact Hcfg. }
  rewrite Hnone. by eexists.
Qed.

Lemma backup_reports_refused_login_witness :
  exists r w',
    Adapters.backup
      ({| Adapters.cls := Adapters.CiscoAdapter;
          Adapters.config := Config.get_config;
          Adapters.device_info :=
            Collector._prepare_device_info (Scenario.router "cisco" 7);
          Adapters.connection := None |},
       Scenario.world (fun _ => Scenario.refusing))
    = (Py.Ret r, w')
    /\ Adapters.error r = Some (Py.u "Authentication failed for 192.0.2.1").
Proof.
  destruct (backup_reports_refused_login
              {| Adapters.cls := Adapters.CiscoAdapter;
                 Adapters.config := Config.get_config;
                 Adapters.device_info :=
                   Collector._prepare_device_info (Scenario.router "cisco" 7);
                 Adapters.connection := None |}
              (Scenario.world (fun _ => Scenario.refusing)))
    as (r & w' & Hrun & _ & _ & Herr & _).
  - discriminate.
  - reflexivity.
  - intros c. by exists c.
  - reflexivity.
  - eexists r, _. split; [exact Hrun|]. rewrite Herr. reflexivity.
Defined.

Lemma backup_captures_output_witness :
  exists r w',
    Adapters.backup
      ({| Adapters.cls := Adapters.CiscoAdapter;
          Adapters.config := Config.get_config;
          Adapters.device_info :=
            Collector._prepare_device_info (Scenario.router "cisco" 7);
          Adapters.connection := None |},
       Scenario.world (fun _ => Scenario.answering))
    = (Py.Ret r, w')
    /\ Adapters.output r = Some (Py.u "hostname R1")
    /\ Adapters.execution_time r = 2.
Proof.
  destruct (backup_captures_output
              {| Adapters.cls := Adapters.CiscoAdapter;
                 Adapters.config := Config.get_config;
                 Adapters.device_info :=
                   Collector._prepare_device_info (Scenario.router "cisco" 7);
                 Adapters.connection := None |}
              (Scenario.world (fun _ => Scenario.answering))
              (Py.u "hostname R1") (Py.u "hostname R1"))
    as (r & w' & dtype & port & Hrun & _ & Hout & _ & Htime & _).
  - discriminate.
  - reflexivity.
  - reflexivity.
  - intros c. by exists c.
  - reflexivity.
  - reflexivity.
  - vm_compute. reflexivity.
  - eexists r, _. split; [exact Hrun|]. by split.
Defined.

Lemma relay_backup_needs_ftp_witness :
  exists r w',
    Adapters.backup
      ({| Adapters.cls := Adapters.ZTEAdapter;
          Adapters.config := Config.get_config;
          Adapters.device_info :=
            Collector._prepare_device_info (Scenario.router "zte" 7);
          Adapters.connection := None |},
       Scenario.world (fun _ => Scenario.refusing))
    = (Py.Ret r, w')
    /\ Adapters.error r
       = Some (Py.u "FTP server is not enabled. Enable it in Web UI (ZTE FTP Ingestion)").
Proof.
  destruct (relay_backup_needs_ftp
              {| Adapters.cls := Adapters.ZTEAdapter;
                 Adapters.config := Config.get_config;
                 Adapters.device_info :=
                   Collector._prepare_device_info (Scenario.router "zte" 7);
                 Adapters.connection := None |}
              (Scenario.world (fun _ => Scenario.refusing)))
    as (r & Hrun & _ & Herr).
  - reflexivity.
  - reflexivity.
  - vm_compute. by eexists.
  - left. reflexivity.
  - eexists r, _. split; [exact Hrun | exact Herr].
Defined.

Lemma accepted_vendor_has_adapter_witness :
  exists a,
    Adapters.get_adapter (Py.u "Cisco")
      (Collector._prepare_device_info (Scenario.router "Cisco" 7)) = Py.Ret a
    /\ Adapters.cls a = Adapters.CiscoAdapter.
Proof.
  destruct (accepted_vendor_has_adapter (Py.u "Cisco")
              {| Config.connection_types := [Py.u "ssh"; Py.u "telnet"];
                 Config.backup_command := Py.u "show running-config";
                 Config.output_extension := Py.u ".txt";
                 Config.device_type := Py.u "cisco_ios" |}
              (Collector._prepare_device_info (Scenario.router "Cisco" 7)))
    as (a & Hget & Hname & _).
  - vm_compute. reflexivity.
  - exists a. split; [exact Hget|].
    destruct (Adapters.cls a); vm_compute in Hname; congruence.
Defined.

Lemma unknown_vendor_has_no_adapter_witness :
  exists e,
    Adapters.get_adapter (Py.u "nokia")
      (Collector._prepare_device_info (Scenario.router "nokia" 7)) = Py.Raise e
    /\ Py.exn_cls e = Py.ValueError.
Proof.
  apply unknown_vendor_has_no_adapter. vm_compute. reflexivity.
Defined.

(** ** app/collector.py *)

(** X18. A device whose vendor is not in the command table, or whose
    connection type the table does not allow for the vendor, is refused
    with an error and no history id; nothing is logged, no history is
    made, the adapter is not run. *)
Theorem backup_device_refuses_unaccepted (depth : nat)
    (self : Collector.BackupCollector) (device : Models.Device)
    (triggered_by : Py.str) (retry : bool) (w : Host.World) :
  ~ Logic.accepted self device ->
  exists msg,
    Collector.backup_device (S depth) self device triggered_by retry w
    = (Py.Ret (Collector.failed device None (Some msg)), w).
Proof.
  intros Hno.
  destruct (Collector._get_vendor_config self (Models.vendor device))
    as [vc|] eqn:Hcfg.
  - destruct (decide (Models.connection_type device
                      ∈ Config.connection_types vc)) as [Hct|Hct].
    + destruct Hno. by exists vc.
    + eexists. by eapply pass_unsupported_connection.
  - eexists. by apply pass_unsupported_vendor.
Qed.

Lemma backup_device_refuses_unaccepted_witness :
  exists msg,
    Collector.backup_device 2 Scenario.collector (Scenario.router "nokia" 7)
      (Py.u "manual") true (Scenario.world (fun _ => Scenario.answering))
    = (Py.Ret (Collector.failed (Scenario.router "nokia" 7) None (Some msg)),
       Scenario.world (fun _ => Scenario.answering)).
Proof.
  apply backup_device_refuses_unaccepted.
  intros (vc & Hvc & _). vm_compute in Hvc. discriminate.
Defined.

(** X19. A capture that fails with no retry due is booked in full: the
    result carries the adapter's error and the id of the one new history;
    that history is closed at the time the adapter returned, with the
    error as message, retry count 0 and status [timeout] if the error
    holds the word timeout in any case, [failed] otherwise; the device is
    marked failed; the audit log has the start and the completion. *)
Theorem failed_capture_is_booked (depth : nat)
    (self : Collector.BackupCollector) (device : Models.Device)
    (triggered_by : Py.str) (retry : bool)
    (vendor_config : Config.VendorProfile) (a : Adapters.Adapter)
    (w : Host.World) (br : Adapters.BackupResult) (w2 : Host.World) :
  Collector._get_vendor_config self (Models.vendor device) = Some vendor_config ->
  Models.connection_type device ∈ Config.connection_types vendor_config ->
  Adapters.get_adapter (Models.vendor device)
    (Collector._prepare_device_info device) = Py.Ret a ->
  Collector.run_adapter a (Logic.begun device vendor_config triggered_by w)
  = (Py.Ret br, w2) ->
  Adapters.success br = false ->
  retry && (0 <? Config.MAX_RETRY (Collector.config self)) = false ->
  exists w' h,
    Collector.backup_device (S depth) self device triggered_by retry w
    = (Py.Ret (Collector.failed device (Models.h_id h) (Adapters.error br)), w')
    /\ Host.w_histories w' = Host.w_histories w ++ [h]
    /\ Models.h_id h = Logic.next_id w
    /\ Models.h_status h
       = (if Py.contains (Py.u "timeout")
               (Py.lower (Py.str_of_opt (Adapters.error br)))
          then Models.status_value Models.TIMEOUT
          else Models.status_value Models.FAILED)
    /\ Models.h_error_message h = Adapters.error br
    /\ Models.h_completed_at h = Some (Host.w_time w2)
    /\ Models.h_retry_count h = 0
    /\ Host.w_devices w'
       = map (fun d => if decide (Models.id d = Models.id device)
                       then Collector.set_status
                              (Models.status_value Models.FAILED)
                              (Host.w_time w2) d
                       else d) (Host.w_devices w)
    /\ Host.w_audit w'
       = Host.w_audit w
           ++ [Host.BackupStart (Models.id device) (Models.name device)
                 triggered_by;
               Host.BackupComplete (Models.id device) (Models.name device)
                 false (Adapters.error br)].
Proof.
  intros Hcfg Hct Hga Hrun Hfail Hno.
  assert (Hconn : Adapters.connection a = None).
  { apply get_adapter_Ret in Hga as [-> _]. reflexivity. }
  destruct (run_adapter_spec a (Logic.begun device vendor_config triggered_by w)
              Hconn)
    as (br' & w2' & Hrun' & Hh & Hdev & Haud & _).
  rewrite Hrun in Hrun'. injection Hrun' as <- <-. cbn in Hh, Hdev, Haud.
  eexists _, (Collector.completed (Host.w_time w2)
                (if Adapters.execution_time br =? 0 then None
                 else Some (Adapters.execution_time br))
                (if Py.contains (Py.u "timeout")
                      (Py.lower (Py.str_of_opt (Adapters.error br)))
                 then Models.status_value Models.TIMEOUT
                 else Models.status_value Models.FAILED)
                None None None (Adapters.error br)
                (Logic.fresh_history device vendor_config triggered_by w)).
  split.
  { rewrite (pass_failed _ _ _ _ Hcfg Hct _ Hga depth retry _ _ _ Hrun Hfail Hh Hno).
    reflexivity. }
  unfold Logic.settled, Collector._update_backup_history,
    Collector._update_device_status, Collector.audit, Py.bind, Py.modify,
    Host.time_time, Py.gets.
  cbn [fst snd Host.w_histories Host.with_histories Host.w_devices
       Host.with_devices Host.w_audit Host.with_audit Host.w_time].
  rewrite Hh, Hdev, Haud, alter_last, <- app_assoc.
  split_and!; reflexivity.
Qed.

Lemma failed_capture_is_booked_witness :
  exists w' h,
    Collector.backup_device 1 Scenario.collector (Scenario.router "cisco" 7)
      (Py.u "manual") false (Scenario.world (fun _ => Scenario.refusing))
    = (Py.Ret (Collector.failed (Scenario.router "cisco" 7) (Models.h_id h)
                 (Some (Py.u "Authentication failed for 192.0.2.1"))), w')
    /\ Host.w_histories w' = [h]
    /\ Models.h_status h = Models.status_value Models.FAILED.
Proof.
  set (device := Scenario.router "cisco" 7).
  set (w := Scenario.world (fun _ => Scenario.refusing)).
  set (vendor_config :=
         {| Config.connection_types := [Py.u "ssh"; Py.u "telnet"];
            Config.backup_command := Py.u "show running-config";
            Config.output_extension := Py.u ".txt";
            Config.device_type := Py.u "cisco_ios" |}).
  set (a := {| Adapters.cls := Adapters.CiscoAdapter;
               Adapters.config := Config.get_config;
               Adapters.device_info := Collector._prepare_device_info device;
               Adapters.connection := None |}).
  assert (Hcfg : Collector._get_vendor_config Scenario.collector
                   (Models.vendor device) = Some vendor_config)
    by (vm_compute; reflexivity).
  assert (Hct : Models.connection_type device
                ∈ Config.connection_types vendor_config)
    by constructor.
  assert (Hga : Adapters.get_adapter (Models.vendor device)
                  (Collector._prepare_device_info device) = Py.Ret a)
    by (vm_compute; reflexivity).
  destruct (Collector.run_adapter a
              (Logic.begun device vendor_config (Py.u "manual") w))
    as [o w2] eqn:Hrun.
  assert (Ho : exists br, o = Py.Ret br /\ Adapters.success br = false
                          /\ Adapters.error br
                             = Some (Py.u "Authentication failed for 192.0.2.1")).
  { replace o with (Collector.run_adapter a
                      (Logic.begun device vendor_config (Py.u "manual") w)).1
      by (rewrite Hrun; reflexivity).
    vm_compute. eexists. split_and!; reflexivity. }
  destruct Ho as (br & -> & Hbr & Herr).
  destruct (failed_capture_is_booked 0 Scenario.collector device
              (Py.u "manual") false vendor_config a w br w2 Hcfg Hct Hga Hrun
              Hbr eq_refl)
    as (w' & h & Hdev & Hh & _ & Hst & _).
  exists w', h. rewrite Herr in Hdev, Hst. split_and!; [exact Hdev | exact Hh |].
  rewrite Hst. vm_compute. reflexivity.
Defined.

Section Stored.
Import Py Host Models Collector Logic.

Lemma last_snoc {A} (l : list A) (x : A) : last (l ++ [x]) = Some x.
Proof. by rewrite last_app. Qed.

(** What a success of [backup_device] stands on, whatever the depth and
    the retry flag. *)
Lemma backup_device_success (depth : nat) (self : BackupCollector)
    (device : Device) (triggered_by : str) :
  forall (retry : bool) (w : World) (r : Result) (w' : World),
    backup_device depth self device triggered_by retry w = (Ret r, w') ->
    success r = true ->
    exists p h,
      file_path r = Some p
      /\ (Storage.verify_checksum (storage self) p w').1 = Ret true
      /\ last (w_histories w') = Some h
      /\ h_id h = history_id r
      /\ h_status h = status_value SUCCESS
      /\ h_file_path h = Some p
      /\ h_checksum_sha256 h = checksum r
      /\ is_Some (checksum r)
      /\ error r = None.
Proof.
  induction depth as [|depth IH]; intros retry w r w' Hrun Hok; [discriminate|].
  destruct (_get_vendor_config self (vendor device)) as [vc|] eqn:Hcfg.
  2: { rewrite pass_unsupported_vendor in Hrun by done.
       injection Hrun as <- <-. discriminate. }
  destruct (decide (connection_type device ∈ Config.connection_types vc))
    as [Hct|Hct].
  2: { erewrite pass_unsupported_connection in Hrun by done.
       injection Hrun as <- <-. discriminate. }
  destruct (Adapters.get_adapter (vendor device) (_prepare_device_info device))
    as [a|e] eqn:Hga.
  2: { rewrite (pass_no_adapter _ _ _ _ Hcfg Hct _ _ _ _ Hga) in Hrun.
       injection Hrun as <- <-. discriminate. }
  assert (Hconn : Adapters.connection a = None).
  { apply get_adapter_Ret in Hga as [-> _]. reflexivity. }
  destruct (run_adapter_spec a (begun device vc triggered_by w) Hconn)
    as (br & w2 & Hra & Hh & _).
  cbn in Hh.
  destruct (Adapters.success br) eqn:Hbr.
  - destruct (save_backup_frame (storage self) (vendor device) (id device)
                (name device) (ip_address device) (connection_type device)
                (Config.backup_command vc) (str_of_opt (Adapters.output br))
                (Config.output_extension vc) (Adapters.execution_time br) None w2)
      as (sr & fs' & Hsave).
    rewrite (pass_captured _ _ _ _ Hcfg Hct _ Hga _ _ _ _ _ _ _ Hra Hbr Hsave)
      in Hrun.
    destruct (Storage.success sr) eqn:Hsr; injection Hrun as <- <-;
      [|discriminate].
    destruct (save_backup_success _ _ _ _ _ _ _ _ _ _ _ _ _ _ Hsave Hsr)
      as (enc & record & _ & _ & Hsum & (p & Hp & _) & _).
    exists p.
    eexists (completed (w_time w2) _ (status_value SUCCESS) (Some p) _ _ None
               (fresh_history device vc triggered_by w)).
    split_and!.
    + exact Hp.
    + rewrite (verify_checksum_only_fs (storage self) p _ (with_fs fs' w2))
        by reflexivity.
      by erewrite verify_checksum_after_save.
    + unfold settled, _update_backup_history, _update_device_status, audit,
        bind, modify, time_time, gets.
      cbn [fst snd w_histories with_histories with_devices with_audit with_fs
           w_time].
      rewrite Hh, alter_last, last_snoc, Hp. reflexivity.
    + reflexivity.
    + reflexivity.
    + reflexivity.
    + reflexivity.
    + cbn [checksum]. by rewrite Hsum.
    + reflexivity.
  - destruct (retry && (0 <? Config.MAX_RETRY (config self))) eqn:Hretry.
    + apply andb_true_iff in Hretry as [-> Hcap%Z.ltb_lt].
      rewrite (pass_retried _ _ _ _ Hcfg Hct _ Hga _ _ _ _ Hra Hbr Hh Hcap)
        in Hrun.
      destruct (backup_device depth self device triggered_by false _)
        as [[rr|e] w4] eqn:Hinner; [|discriminate].
      destruct (success rr) eqn:Hrr; injection Hrun as <- <-; [|discriminate].
      by eapply IH.
    + rewrite (pass_failed _ _ _ _ Hcfg Hct _ Hga _ _ _ _ _ Hra Hbr Hh Hretry)
        in Hrun.
      injection Hrun as <- <-. discriminate.
Qed.

End Stored.

(** X20. Whenever [backup_device] returns a success, first try or retry,
    the result names a stored file whose checksum verifies on the host as
    the call left it, and the last history is the one the result names:
    it has status success, that file path and the checksum of the
    result. *)
Theorem successful_backup_is_stored (depth : nat)
    (self : Collector.BackupCollector) (device : Models.Device)
    (triggered_by : Py.str) (retry : bool) (w : Host.World)
    (r : Collector.Result) (w' : Host.World) :
  Collector.backup_device depth self device triggered_by retry w
  = (Py.Ret r, w') ->
  Collector.success r = true ->
  exists p h,
    Collector.file_path r = Some p
    /\ (Storage.verify_checksum (Collector.storage self) p w').1 = Py.Ret true
    /\ last (Host.w_histories w') = Some h
    /\ Models.h_id h = Collector.history_id r
    /\ Models.h_status h = Models.status_value Models.SUCCESS
    /\ Models.h_file_path h = Some p
    /\ Models.h_checksum_sha256 h = Collector.checksum r
    /\ is_Some (Collector.checksum r)
    /\ Collector.error r = None.
Proof. apply backup_device_success. Qed.

Lemma successful_backup_is_stored_witness :
  let run := Collector.backup_device 2 Scenario.collector
               (Scenario.router "cisco" 7) (Py.u "manual") true
               (Scenario.world Scenario.recovering) in
  exists r p,
    run.1 = Py.Ret r
    /\ Collector.file_path r = Some p
    /\ (Storage.verify_checksum Scenario.store p run.2).1 = Py.Ret true.
Proof.
  cbv zeta.
  destruct (Collector.backup_device 2 Scenario.collector
              (Scenario.router "cisco" 7) (Py.u "manual") true
              (Scenario.world Scenario.recovering)) as [o w'] eqn:Hrun.
  assert (Ho : exists r, o = Py.Ret r /\ Collector.success r = true).
  { replace o with (Collector.backup_device 2 Scenario.collector
                      (Scenario.router "cisco" 7) (Py.u "manual") true
                      (Scenario.world Scenario.recovering)).1
      by (rewrite Hrun; reflexivity).
    vm_compute. eexists. split; reflexivity. }
  destruct Ho as (r & -> & Hok).
  destruct (successful_backup_is_stored _ _ _ _ _ _ _ _ Hrun Hok)
    as (p & h & Hp & Hv & _).
  exists r, p. cbn [fst snd]. split; [reflexivity|]. split; [exact Hp | exact Hv].
Defined.

(** X21. The status of a failed history goes by a word in the error
    text.  A connection time-out, whose text is [Connection timeout for]
    and the address, is booked as [timeout].  The time-out of the relay,
    whose text is [FTP file not received within 120 seconds], does not
    hold the word and is booked as [failed]. *)
Theorem timeout_status_goes_by_the_word (history : nat)
    (execution_time : option Z) (w : Host.World) (h : Models.BackupHistory)
    (ip : Py.str) :
  Host.w_histories w !! history = Some h ->
  let booked msg :=
    Host.w_histories
      (Collector._update_backup_history history false execution_time None
         None None (Some msg) w).2 !! history in
  Models.h_status <$> booked (Py.u "Connection timeout for " ++ ip)
  = Some (Models.status_value Models.TIMEOUT)
  /\ Models.h_status
       <$> booked (Py.u "FTP file not received within "
                     ++ Py.str_of_int Adapters.FTP_POLL_TIMEOUT
                     ++ Py.u " seconds")
     = Some (Models.status_value Models.FAILED).
Proof.
  intros Hh booked. unfold booked, Collector._update_backup_history, Py.bind,
    Py.modify, Host.time_time, Py.gets.
  cbn [fst snd Host.w_histories Host.with_histories].
  rewrite !list_lookup_alter, Hh. destruct (decide _) as [_|]; [|done].
  cbn [fmap option_fmap option_map Collector.completed Models.h_status
       Py.str_of_opt default from_option].
  unfold id. split.
  - assert (Py.contains (Py.u "timeout")
              (Py.lower (Py.u "Connection timeout for " ++ ip)) = true) as ->;
      [|reflexivity].
    unfold Py.lower. rewrite map_app. vm_compute. reflexivity.
  - assert (Py.contains (Py.u "timeout")
              (Py.lower (Py.u "FTP file not received within "
                           ++ Py.str_of_int Adapters.FTP_POLL_TIMEOUT
                           ++ Py.u " seconds")) = false) as ->;
      [|reflexivity].
    vm_compute. reflexivity.
Qed.

Lemma timeout_status_goes_by_the_word_witness :
  let w := Host.with_histories
             [Logic.fresh_history (Scenario.router "cisco" 7)
                {| Config.connection_types := [Py.u "ssh"];
                   Config.backup_command := Py.u "show running-config";
                   Config.output_extension := Py.u ".txt";
                   Config.device_type := Py.u "cisco_ios" |}
                (Py.u "manual") (Scenario.world (fun _ => Scenario.refusing))]
             (Scenario.world (fun _ => Scenario.refusing)) in
  Models.h_status
    <$> Host.w_histories
          (Collector._update_backup_history 0 false None None None None
             (Some (Py.u "Connection timeout for " ++ Py.u "192.0.2.1")) w).2
        !! 0%nat
  = Some (Models.status_value Models.TIMEOUT).
Proof.
  cbv zeta.
  refine (proj1 (timeout_status_goes_by_the_word 0 None _ _ (Py.u "192.0.2.1") _)).
  reflexivity.
Defined.

(** X24. When the first capture fails, a retry is due and the second
    capture fails too, the result carries the id of the first history and
    the error [Failed after retry: ] followed by the error of the second
    capture.  Both histories are closed: the first with that message and
    retry count 1, the second with its own error and retry count 0. *)
Theorem exhausted_retry_is_booked (depth : nat)
    (self : Collector.BackupCollector) (device : Models.Device)
    (triggered_by : Py.str) (vendor_config : Config.VendorProfile)
    (a : Adapters.Adapter) (w : Host.World)
    (br1 br2 : Adapters.BackupResult) (w2 w3 : Host.World) :
  Collector._get_vendor_config self (Models.vendor device) = Some vendor_config ->
  Models.connection_type device ∈ Config.connection_types vendor_config ->
  Adapters.get_adapter (Models.vendor device)
    (Collector._prepare_device_info device) = Py.Ret a ->
  0 < Config.MAX_RETRY (Collector.config self) ->
  Collector.run_adapter a (Logic.begun device vendor_config triggered_by w)
  = (Py.Ret br1, w2) ->
  Adapters.success br1 = false ->
  Collector.run_adapter a
    (Logic.begun device vendor_config triggered_by
       (Logic.bumped (length (Host.w_histories w)) w2))
  = (Py.Ret br2, w3) ->
  Adapters.success br2 = false ->
  let msg := Py.u "Failed after retry: "
               ++ Py.str_of_opt (Adapters.error br2) in
  exists w' h1 h2,
    Collector.backup_device (S (S depth)) self device triggered_by true w
    = (Py.Ret (Collector.failed device (Models.h_id h1) (Some msg)), w')
    /\ Host.w_histories w' = Host.w_histories w ++ [h1; h2]
    /\ Models.h_error_message h1 = Some msg
    /\ Models.h_retry_count h1 = 1
    /\ is_Some (Models.h_completed_at h1)
    /\ Models.h_error_message h2 = Adapters.error br2
    /\ Models.h_retry_count h2 = 0
    /\ is_Some (Models.h_completed_at h2).
Proof.
  intros Hcfg Hct Hga Hcap Hrun1 Hfail1 Hrun2 Hfail2 msg.
  assert (Hconn : Adapters.connection a = None).
  { apply get_adapter_Ret in Hga as [-> _]. reflexivity. }
  destruct (run_adapter_spec a (Logic.begun device vendor_config triggered_by w)
              Hconn) as (br & w0 & Hr & Hh1 & _).
  rewrite Hrun1 in Hr. injection Hr as <- <-. cbn in Hh1.
  remember (Logic.bumped (length (Host.w_histories w)) w2) as wb eqn:Hwb.
  destruct (run_adapter_spec a (Logic.begun device vendor_config triggered_by wb)
              Hconn) as (br & w0 & Hr & Hh2 & _).
  rewrite Hrun2 in Hr. injection Hr as <- <-. cbn in Hh2.
  assert (Hhb : Host.w_histories wb
                = Host.w_histories w
                    ++ [Collector.bump_retry_count
                          (Logic.fresh_history device vendor_config
                             triggered_by w)])
    by (rewrite Hwb; by apply bumped_histories).
  rewrite (pass_retried _ _ _ _ Hcfg Hct _ Hga _ _ _ _ Hrun1 Hfail1 Hh1 Hcap).
  rewrite <- Hwb.
  rewrite (pass_failed _ _ _ _ Hcfg Hct _ Hga depth false _ _ _ Hrun2 Hfail2
             Hh2 eq_refl).
  clear Hwb. cbn [Collector.success Collector.failed Collector.error].
  unfold Logic.settled, Collector._update_backup_history,
    Collector._update_device_status, Collector.audit, Py.bind, Py.modify,
    Host.time_time, Py.gets.
  cbn [fst snd Host.w_histories Host.with_histories Host.w_devices
       Host.with_devices Host.w_audit Host.with_audit Host.w_time].
  rewrite Hh2, alter_last, Hhb, <- (app_assoc (Host.w_histories w)).
  cbn [app].
  rewrite alter_last.
  eexists _,
    (Collector.completed _ _ _ _ _ _ _
       (Collector.bump_retry_count
          (Logic.fresh_history device vendor_config triggered_by w))),
    (Collector.completed _ _ _ _ _ _ _
       (Logic.fresh_history device vendor_config triggered_by wb)).
  split; [reflexivity|]. split; [reflexivity|].
  cbn [Collector.completed Collector.bump_retry_count Logic.fresh_history
       Models.h_error_message Models.h_retry_count Models.h_completed_at].
  by split_and!.
Qed.

Lemma exhausted_retry_is_booked_witness :
  exists r w',
    Collector.backup_device 2 Scenario.collector (Scenario.router "cisco" 7)
      (Py.u "manual") true (Scenario.world (fun _ => Scenario.refusing))
    = (Py.Ret r, w')
    /\ Collector.error r
       = Some (Py.u "Failed after retry: Authentication failed for 192.0.2.1").
Proof.
  set (device := Scenario.router "cisco" 7).
  set (w := Scenario.world (fun _ => Scenario.refusing)).
  set (vendor_config :=
         {| Config.connection_types := [Py.u "ssh"; Py.u "telnet"];
            Config.backup_command := Py.u "show running-config";
            Config.output_extension := Py.u ".txt";
            Config.device_type := Py.u "cisco_ios" |}).
  set (a := {| Adapters.cls := Adapters.CiscoAdapter;
               Adapters.config := Config.get_config;
               Adapters.device_info := Collector._prepare_device_info device;
               Adapters.connection := None |}).
  assert (Hcfg : Collector._get_vendor_config Scenario.collector
                   (Models.vendor device) = Some vendor_config)
    by (vm_compute; reflexivity).
  assert (Hct : Models.connection_type device
                ∈ Config.connection_types vendor_config)
    by constructor.
  assert (Hga : Adapters.get_adapter (Models.vendor device)
                  (Collector._prepare_device_info device) = Py.Ret a)
    by (vm_compute; reflexivity).
  destruct (Collector.run_adapter a
              (Logic.begun device vendor_config (Py.u "manual") w))
    as [o1 w2] eqn:Hrun1.
  assert (Ho1 : exists br, o1 = Py.Ret br /\ Adapters.success br = false).
  { replace o1 with (Collector.run_adapter a
                       (Logic.begun device vendor_config (Py.u "manual") w)).1
      by (rewrite Hrun1; reflexivity).
    vm_compute. eexists. split; reflexivity. }
  destruct Ho1 as (br1 & -> & Hbr1).
  destruct (Collector.run_adapter a
              (Logic.begun device vendor_config (Py.u "manual")
                 (Logic.bumped (length (Host.w_histories w)) w2)))
    as [o2 w3] eqn:Hrun2.
  assert (Ho2 : exists br, o2 = Py.Ret br /\ Adapters.success br = false
                           /\ Adapters.error br
                              = Some (Py.u "Authentication failed for 192.0.2.1")).
  { replace o2 with (Collector.run_adapter a
                       (Logic.begun device vendor_config (Py.u "manual")
                          (Logic.bumped (length (Host.w_histories w))
                             (Collector.run_adapter a
                                (Logic.begun device vendor_config
                                   (Py.u "manual") w)).2))).1
      by (rewrite Hrun1; cbn [snd]; rewrite Hrun2; reflexivity).
    vm_compute. eexists. split_and!; reflexivity. }
  destruct Ho2 as (br2 & -> & Hbr2 & Herr2).
  destruct (exhausted_retry_is_booked 0 Scenario.collector device
              (Py.u "manual") vendor_config a w br1 br2 w2 w3 Hcfg Hct Hga
              eq_refl Hrun1 Hbr1 Hrun2 Hbr2)
    as (w' & h1 & h2 & Hdev & _).
  eexists _, w'. split; [exact Hdev|]. cbn [Collector.error Collector.failed].
  rewrite Herr2. reflexivity.
Defined.

(** ** Uploads and the drop location *)

(** X22. [on_incomplete_file_received] never raises.  If the path is a
    regular file it is removed and nothing else changes; if it is missing
    or a directory, the error of the removal is dropped and the host is as
    it was. *)
Theorem incomplete_upload_is_removed (file : Py.str) (w : Host.World) :
  FtpServer.on_incomplete_file_received file w
  = (Py.Ret tt,
     match Fs.stat (Host.w_fs w) (Fs.of_str file) with
     | Some (Fs.File _ _) =>
         Host.with_fs (delete (Fs.of_str file) (Host.w_fs w)) w
     | _ => w
     end).
Proof.
  unfold FtpServer.on_incomplete_file_received, Py.try_except, Host.on_fs,
    Py.zoom, Fs.remove.
  destruct (Fs.stat (Host.w_fs w) (Fs.of_str file)) as [[|data mode]|];
    cbn [Py.ret]; by rewrite ?with_fs_same.
Qed.

(** X23. If the drop file is there when [_poll_for_file] looks and gone a
    second later, when its size is asked for, the method does not go on
    polling: it raises [FileNotFoundError]. *)
Theorem poll_for_vanished_file_raises (env : Host.behaviour)
    (inbox_path : Fs.path) (a : Adapters.Adapter) (w : Host.World)
    (content : Py.bytes) :
  Host.b_inbox env (Host.w_time w) = Some content ->
  Host.b_inbox env (Host.w_time w + 1) = None ->
  Adapters._poll_for_file env inbox_path (a, w)
  = (Py.Raise (Fs.ENOENT (inbox_path ++ [Py.u "startrun.dat"])),
     (a, Host.with_time (Host.w_time w + 1) w)).
Proof.
  intros Hthere Hgone. unfold Adapters._poll_for_file.
  erewrite bind_run; [|apply host_run; reflexivity].
  rewrite poll_loop_unfold, Hthere, Hgone.
  destruct (decide _) as [_|Hn]; [reflexivity|].
  unfold Adapters.FTP_POLL_TIMEOUT in Hn. lia.
Qed.

Lemma poll_for_vanished_file_raises_witness :
  let env :=
    {| Host.b_connect := Host.ConnOk; Host.b_connect_secs := 1;
       Host.b_enable := None; Host.b_send := Py.Ret []; Host.b_send_secs := 2;
       Host.b_disconnect := None; Host.b_ftp_active := true;
       Host.b_route_ip := Py.Ret (Py.u "10.0.0.1");
       Host.b_inbox := fun t => if t =? 1700000000 then Some (Py.u "olt")
                                else None |} in
  exists e s,
    Adapters._poll_for_file env [Py.u "inbox"]
      ({| Adapters.cls := Adapters.ZTEAdapter;
          Adapters.config := Config.get_config;
          Adapters.device_info :=
            Collector._prepare_device_info (Scenario.router "zte" 7);
          Adapters.connection := None |},
       Scenario.world (fun _ => Scenario.uploading))
    = (Py.Raise e, s)
    /\ Py.exn_cls e = Py.FileNotFoundError.
Proof.
  cbv zeta. eexists _, _. split.
  - apply (poll_for_vanished_file_raises _ _ _ _ (Py.u "olt")); reflexivity.
  - reflexivity.
Defined.
